(** * Customer segmentation: the decision-support core of [utils/segmentation.py]

    A shallow embedding of [run_full_analysis] and of the functions nested in
    it: the certainty-factor algebra, the priority scorer, the two rule
    engines, the hierarchical planner and the orchestration around them.

    Numbers.  Python floats are modelled by exact rationals ([Q]); rounding
    of binary floating point is not part of the model.  A float division
    raises [ZeroDivisionError] exactly when the divisor is zero, which the
    rational model reproduces.  Integer scores are [Z].  A value computed by
    the program can differ from the rational one in its last binary digit,
    and a decimal tie such as 4.025 is decided by the program on the binary
    value.  The properties below are therefore about what does not depend
    on that digit: the branch taken, ranges, what raises, orders, and the
    shape of the rendered numbers.

    Exceptions.  A Python computation either returns a value or raises; this
    is the type [Outcome].  The external libraries (pandas' [read_csv],
    scikit-learn's scaler, encoder, k-means, silhouette score and naive
    Bayes) are parameters of the pipeline, gathered in the record [Oracle];
    every call to one of them is logged in a trace of [Event]s. *)

From Stdlib Require Import QArith Qabs Qminmax Qround ZArith List String Ascii Bool.
From Stdlib Require Import Decimal DecimalString DecimalPos.
From Stdlib Require Import Lia Lra Psatz Permutation Sorted.
Import ListNotations.

Open Scope Q_scope.

(** ** Outcomes of Python computations *)

Inductive Exn : Type :=
| FileNotFoundError
| KeyError (k : nat)
| IndexError
| ZeroDivisionError
| LibraryError (msg : string).

Inductive Outcome (A : Type) : Type :=
| Ok (a : A)
| Raise (e : Exn).

Arguments Ok {A} a.
Arguments Raise {A} e.

Definition obind {A B : Type} (m : Outcome A) (k : A -> Outcome B) : Outcome B :=
  match m with
  | Ok a => k a
  | Raise e => Raise e
  end.

Declare Scope outcome_scope.
Delimit Scope outcome_scope with outcome.
Notation "x <- m ;; k" := (obind m (fun x => k))
  (at level 61, m at next level, right associativity) : outcome_scope.
Notation "' p <- m ;; k" := (obind m (fun p => k))
  (at level 61, p pattern, m at next level, right associativity) : outcome_scope.

(** ** Comparisons and division on floats *)

Definition Qleb (x y : Q) : bool := Qle_bool x y.
Definition Qltb (x y : Q) : bool := negb (Qle_bool y x).

(** [x / y] on floats: a zero divisor raises. *)
Definition py_truediv (x y : Q) : Outcome Q :=
  if Qeq_bool y 0 then Raise ZeroDivisionError else Ok (x / y).

(** ** The certainty-factor engine *)

Module CF.

(** [cf_mapping]: the closed vocabulary of named confidence levels. *)
Definition cf_mapping : list (string * Q) :=
  [ ("sangat_tinggi", 0.9); ("tinggi", 0.7); ("sedang", 0.4); ("rendah", 0.2);
    ("pasti", 1.0); ("hampir_pasti", 0.8); ("kemungkinan_besar", 0.6);
    ("mungkin", 0.4); ("tidak_tahu", 0.0); ("mungkin_tidak", -0.2);
    ("kemungkinan_besar_tidak", -0.6); ("hampir_pasti_tidak", -0.8);
    ("pasti_tidak", -1.0) ]%string.

Fixpoint lookup (key : string) (d : list (string * Q)) : option Q :=
  match d with
  | [] => None
  | (k, v) :: d' => if String.eqb k key then Some v else lookup key d'
  end.

(** [cf_mapping[key]] for a key of the vocabulary (every use in the source
    is with a literal key of the dictionary). *)
Definition cf (key : string) : Q :=
  match lookup key cf_mapping with
  | Some v => v
  | None => 0
  end.

(** [calculate_cf_combination(cf1, cf2)], in exact arithmetic: the branch
    taken and the raise are those of the program, the value returned is the
    program's up to the rounding of its float operations. *)
Definition calculate_cf_combination (cf1 cf2 : Q) : Outcome Q :=
  if Qleb 0 cf1 && Qleb 0 cf2 then Ok (cf1 + cf2 * (1 - cf1))
  else if Qltb cf1 0 && Qltb cf2 0 then Ok (cf1 + cf2 * (1 + cf1))
  else py_truediv (cf1 + cf2) (1 - Qmin (Qabs cf1) (Qabs cf2)).

(** The three sign classes of a pair of certainty factors. *)
Definition both_nonneg (cf1 cf2 : Q) : Prop := 0 <= cf1 /\ 0 <= cf2.
Definition both_neg (cf1 cf2 : Q) : Prop := cf1 < 0 /\ cf2 < 0.
Definition mixed_sign (cf1 cf2 : Q) : Prop :=
  (cf1 < 0 /\ 0 <= cf2) \/ (0 <= cf1 /\ cf2 < 0).

(** The mixed-sign pairs at which the divisor [1 - min(|cf1|,|cf2|)] is 0. *)
Definition mixed_boundary (cf1 cf2 : Q) : bool :=
  negb (Qleb 0 cf1 && Qleb 0 cf2) && negb (Qltb cf1 0 && Qltb cf2 0)
  && Qeq_bool (Qmin (Qabs cf1) (Qabs cf2)) 1.

Definition in_unit (x : Q) : Prop := -1 <= x /\ x <= 1.

End CF.

(** ** Text: decimal renderings and case conversion *)

Module Text.

Open Scope string_scope.

Definition nl : string := String (ascii_of_nat 10) EmptyString.
Definition tab : string := String (ascii_of_nat 9) EmptyString.

(** [str(n)] for an integer. *)
Definition str_Z (z : Z) : string := NilZero.string_of_int (Z.to_int z).
Definition str_nat (n : nat) : string := NilZero.string_of_uint (Nat.to_uint n).

(** [int(x)] for a float: truncation toward zero. *)
Definition py_int (q : Q) : Z := Z.quot (Qnum q) (Zpos (Qden q)).

(** Rounding to the nearest integer, ties to the even one: the rounding of
    [DataFrame.round] and of the [f] format, applied to the exact value.
    The program rounds the binary float, so that at a decimal tie (a mean of
    4.025, say) it may go the other way; the result is a neighbouring
    hundredth in both. *)
Definition round_half_even (q : Q) : Z :=
  let f := Qfloor q in
  let r := (q - inject_Z f)%Q in
  if Qltb r (1 # 2) then f
  else if Qltb (1 # 2) r then (f + 1)%Z
  else if Z.even f then f else (f + 1)%Z.

(** [round(x, 2)]. *)
Definition round2 (q : Q) : Q := (inject_Z (round_half_even (q * 100)) / 100)%Q.

Definition two_digits (n : Z) : string :=
  if (n <? 10)%Z then "0" ++ str_Z n else str_Z n.

(** The digits of a count of hundredths [n >= 0], as [i.ff]. *)
Definition hundredths (n : Z) : string :=
  str_Z (n / 100) ++ "." ++ two_digits (n mod 100).

(** [f"{x:.2f}"]: sign, whole part, point and exactly two digits.  The
    digits are those of the exact [q]; see [round_half_even] for ties. *)
Definition format_2f (q : Q) : string :=
  let n := round_half_even (q * 100) in
  (if Qltb q 0 then "-" else "") ++ hundredths (Z.abs n).

(** [str(x)] for a float [x] that has at most two decimals and lies in the
    range that Python prints without an exponent (zero, or
    0.0001 <= |x| < 1e16): the shortest decimal that reads back as [x],
    with at least one digit after the point. *)
Definition str_float (q : Q) : string :=
  let n := Z.abs (round_half_even (q * 100)) in
  let frac := (n mod 100)%Z in
  (if Qltb q 0 then "-" else "") ++ str_Z (n / 100) ++ "." ++
  (if (frac mod 10 =? 0)%Z then str_Z (frac / 10) else two_digits frac).

(** Groups of three digits separated by commas, for [n >= 0]. *)
Fixpoint group_thousands (fuel : nat) (n : Z) : string :=
  match fuel with
  | O => str_Z n
  | S fuel' =>
      if (n <? 1000)%Z then str_Z n
      else
        let r := (n mod 1000)%Z in
        group_thousands fuel' (n / 1000) ++ "," ++
        (if (r <? 10)%Z then "00" else if (r <? 100)%Z then "0" else "") ++ str_Z r
  end.

(** [f"{x:,.0f}"], on the exact value. *)
Definition format_comma_0f (q : Q) : string :=
  let n := Z.abs (round_half_even q) in
  (if Qltb q 0 then "-" else "") ++ group_thousands (Z.to_nat (Z.log2 n)) n.

Definition lower_ascii (c : ascii) : ascii :=
  let n := nat_of_ascii c in
  if (65 <=? n)%nat && (n <=? 90)%nat then ascii_of_nat (n + 32) else c.

Definition upper_ascii (c : ascii) : ascii :=
  let n := nat_of_ascii c in
  if (97 <=? n)%nat && (n <=? 122)%nat then ascii_of_nat (n - 32) else c.

Fixpoint map_string (f : ascii -> ascii) (s : string) : string :=
  match s with
  | EmptyString => EmptyString
  | String c s' => String (f c) (map_string f s')
  end.

(** [s.lower()] and [s.upper()], on ASCII text: letters outside ASCII,
    which Python converts too, are left as they are. *)
Definition lower (s : string) : string := map_string lower_ascii s.
Definition upper (s : string) : string := map_string upper_ascii s.

End Text.

(** ** Reading decimal texts

    The number that a decimal text denotes, and how many digits it shows
    after the point.  These are used to state what the renderings of
    [Text] show. *)

Module Reading.

Open Scope string_scope.






End Reading.

(** ** The data model: rows, tables, segment profiles *)

(** One row over the fourteen analysed columns.  A customer record and a
    segment profile (a row of [cluster_profiles]) have the same columns. *)
Record Row : Type := {
  Age : Q;
  Annual_Income : Q;
  Total_Spend : Q;
  Years_as_Customer : Q;
  Num_of_Purchases : Q;
  Average_Transaction_Amount : Q;
  Num_of_Returns : Q;
  Num_of_Support_Contacts : Q;
  Satisfaction_Score : Q;
  Last_Purchase_Days_Ago : Q;
  Gender : string;
  Email_Opt_In : string;
  Promotion_Response : string;
  Target_Churn : bool
}.

Definition Profile : Type := Row.

(** The table read from the CSV file: its column names, and the values of
    the analysed columns, which the pipeline reads only after the column
    check has passed. *)
Record DataFrame : Type := {
  columns : list string;
  rows : list Row
}.

Definition fitur_numerik : list string :=
  [ "Age"; "Annual_Income"; "Total_Spend"; "Years_as_Customer"; "Num_of_Purchases";
    "Average_Transaction_Amount"; "Num_of_Returns"; "Num_of_Support_Contacts";
    "Satisfaction_Score"; "Last_Purchase_Days_Ago" ]%string.

Definition fitur_kategorikal : list string :=
  [ "Gender"; "Email_Opt_In"; "Promotion_Response"; "Target_Churn" ]%string.

(** [fitur_numerik + fitur_kategorikal]: the columns the pipeline requires. *)
Definition required : list string := fitur_numerik ++ fitur_kategorikal.

(** [col in df.columns]. *)
Definition has_column (df : DataFrame) (col : string) : bool :=
  existsb (String.eqb col) (columns df).

(** The loop [for col in ...: if col not in df.columns: return ...]: the
    first required column that the table lacks. *)
Fixpoint first_missing (df : DataFrame) (cols : list string) : option string :=
  match cols with
  | [] => None
  | col :: cols' => if has_column df col then first_missing df cols' else Some col
  end.

Module Stats.

Definition Qsum (l : list Q) : Q := fold_right Qplus 0 l.

(** [Series.mean()]: [None] stands for the NaN of an empty series. *)
Definition series_mean (l : list Q) : option Q :=
  match l with
  | [] => None
  | _ :: _ => Some (Qsum l / inject_Z (Z.of_nat (List.length l)))
  end.

(** [x > m] and [x < m] against a mean; every comparison with NaN is false. *)
Definition gt_mean (x : Q) (m : option Q) : bool :=
  match m with Some m => Qltb m x | None => false end.
Definition lt_mean (x : Q) (m : option Q) : bool :=
  match m with Some m => Qltb x m | None => false end.

(** [df[col].mean()] over the whole table. *)
Definition col_mean (col : Row -> Q) (df : DataFrame) : option Q :=
  series_mean (map col (rows df)).

(** The mean of a group of [groupby]; groups are never empty. *)
Definition group_mean (col : Row -> Q) (g : list Row) : Q :=
  match series_mean (map col g) with
  | Some m => m
  | None => 0
  end.

Definition count_str (v : string) (l : list string) : nat :=
  List.length (filter (String.eqb v) l).

(** [x.mode()[0] if not x.mode().empty else 'N/A'] on a text column:
    [mode()] lists the most frequent values in sorted order. *)
Definition mode_str (l : list string) : string :=
  match l with
  | [] => "N/A"%string
  | x :: xs =>
      fold_left
        (fun best v =>
           if (count_str best l <? count_str v l)%nat
              || ((count_str best l =? count_str v l)%nat && String.ltb v best)
           then v else best)
        xs x
  end.

(** The same on a boolean column ([False] sorts before [True]); the text
    ['N/A'] of an empty series is truthy. *)
Definition mode_bool (l : list bool) : bool :=
  match l with
  | [] => true
  | _ :: _ => (List.length (filter negb l) <? List.length (filter (fun b => b) l))%nat
  end.

End Stats.

Module Profiles.

Import Stats Text.

(** The aggregation of one group, followed by [.round(2)], which rounds the
    numeric columns and leaves the others. *)
Definition agg (g : list Row) : Profile :=
  let num col := round2 (group_mean col g) in
  {| Age := num Age;
     Annual_Income := num Annual_Income;
     Total_Spend := num Total_Spend;
     Years_as_Customer := num Years_as_Customer;
     Num_of_Purchases := num Num_of_Purchases;
     Average_Transaction_Amount := num Average_Transaction_Amount;
     Num_of_Returns := num Num_of_Returns;
     Num_of_Support_Contacts := num Num_of_Support_Contacts;
     Satisfaction_Score := num Satisfaction_Score;
     Last_Purchase_Days_Ago := num Last_Purchase_Days_Ago;
     Gender := mode_str (map Gender g);
     Email_Opt_In := mode_str (map Email_Opt_In g);
     Promotion_Response := mode_str (map Promotion_Response g);
     Target_Churn := mode_bool (map Target_Churn g) |}.

(** The records that carry label [i] in the column ['Cluster']. *)
Definition members (rs : list Row) (labels : list nat) (i : nat) : list Row :=
  map fst (filter (fun rl => Nat.eqb (snd rl) i) (combine rs labels)).

(** The group keys of [groupby('Cluster')]: the labels in use, ascending. *)
Definition group_keys (labels : list nat) : list nat :=
  filter (fun i => existsb (Nat.eqb i) labels) (seq 0 (S (list_max labels))).

(** [df.groupby('Cluster').agg({...}).round(2)]: one profile per label in
    use, indexed by the label. *)
Definition build_profiles (rs : list Row) (labels : list nat) : list (nat * Profile) :=
  map (fun i => (i, agg (members rs labels i))) (group_keys labels).

Fixpoint assoc {A : Type} (i : nat) (d : list (nat * A)) : option A :=
  match d with
  | [] => None
  | (k, v) :: d' => if Nat.eqb k i then Some v else assoc i d'
  end.

(** [cluster_profiles.loc[i]] (and [d[i]] on a dictionary keyed by segment
    id): a missing key raises [KeyError]. *)
Definition loc {A : Type} (d : list (nat * A)) (i : nat) : Outcome A :=
  match assoc i d with
  | Some v => Ok v
  | None => Raise (KeyError i)
  end.

End Profiles.

(** ** The priority scorer *)

Module Scorer.

Import CF Stats.

Open Scope string_scope.

(** One criterion of the objective-specific block:
    [if cond: skor += poin; cf_kriteria_kampanye =
     calculate_cf_combination(cf_kriteria_kampanye, cf_mapping[level])]. *)
Definition kriteria (cond : bool) (poin : Z) (level : string) (st : Z * Q)
  : Outcome (Z * Q) :=
  if cond then
    obind (calculate_cf_combination (snd st) (cf level))
          (fun c => Ok ((fst st + poin)%Z, c))
  else Ok st.

(** The objective-specific block of [hitung_skor_prioritas_cf]: the chain
    [if tujuan_kampanye == ... elif ...] (there is no final [else]).  It
    starts from the running [skor] and [cf_kriteria_kampanye] and returns
    them updated. *)
Definition kriteria_kampanye (df : DataFrame) (profile : Profile)
    (tujuan_kampanye : string) (st : Z * Q) : Outcome (Z * Q) :=
  if tujuan_kampanye =? "meningkatkan penjualan umum" then
    obind (kriteria (Promotion_Response profile =? "Merespons") 2 "hampir_pasti" st)
          (kriteria (Qleb 4 (Satisfaction_Score profile)) 1 "tinggi")
  else if tujuan_kampanye =? "mencegah pelanggan churn" then
    obind (kriteria (Target_Churn profile) 3 "pasti" st)
          (kriteria (gt_mean (Last_Purchase_Days_Ago profile)
                             (col_mean Last_Purchase_Days_Ago df)) 2 "hampir_pasti")
  else if tujuan_kampanye =? "meningkatkan loyalitas pelanggan" then
    obind (kriteria (negb (Target_Churn profile)) 3 "pasti" st) (fun st1 =>
    obind (kriteria (gt_mean (Years_as_Customer profile)
                             (col_mean Years_as_Customer df)) 2 "hampir_pasti" st1)
          (kriteria (Qleb 4 (Satisfaction_Score profile)) 1 "tinggi"))
  else if tujuan_kampanye =? "mendapatkan pelanggan baru" then
    obind (kriteria (Promotion_Response profile =? "Merespons") 2 "hampir_pasti" st)
          (kriteria (lt_mean (Years_as_Customer profile)
                             (col_mean Years_as_Customer df)) 1 "tinggi")
  else if tujuan_kampanye =? "menjual produk tambahan" then
    obind (kriteria (gt_mean (Num_of_Purchases profile)
                             (col_mean Num_of_Purchases df)) 2 "hampir_pasti" st)
          (kriteria (Promotion_Response profile =? "Merespons") 1 "tinggi")
  else Ok st.

(** The purchasing-power block: the score so far and [cf_daya_beli].  The
    products [harga_produk * 10] and [harga_produk * 5] are exact here. *)
Definition daya_beli (profile : Profile) (harga_produk : Q) (skor : Z) : Z * Q :=
  if Qltb (harga_produk * 10) (Annual_Income profile) then ((skor + 3)%Z, cf "sangat_tinggi")
  else if Qltb (harga_produk * 5) (Annual_Income profile) then ((skor + 2)%Z, cf "tinggi")
  else ((skor + 1)%Z, cf "sedang").

(** The spend-level block: the score so far and [cf_spend]. *)
Definition spend (profile : Profile) (harga_produk : Q) (skor : Z) : Z * Q :=
  if Qltb (harga_produk * 2) (Total_Spend profile) then ((skor + 2)%Z, cf "tinggi")
  else if Qltb harga_produk (Total_Spend profile) then ((skor + 1)%Z, cf "sedang")
  else (skor, 0.0%Q).

(** [hitung_skor_prioritas_cf(profile, harga_produk, tujuan_kampanye)];
    the table [df] is the one the nested function closes over. *)
Definition hitung_skor_prioritas_cf (df : DataFrame) (profile : Profile)
    (harga_produk : Q) (tujuan_kampanye : string) : Outcome (Z * Q) :=
  let '(skor, cf_daya_beli) := daya_beli profile harga_produk 0 in
  let '(skor, cf_spend) := spend profile harga_produk skor in
  obind (kriteria_kampanye df profile tujuan_kampanye (skor, 0.0%Q)) (fun st =>
  obind (calculate_cf_combination cf_daya_beli cf_spend) (fun c =>
  obind (calculate_cf_combination c (snd st)) (fun cf_total =>
  Ok (fst st, cf_total)))).

(** The five objectives that the scorer tests for. *)
Definition tujuan_dikenal : list string :=
  [ "meningkatkan penjualan umum"; "mencegah pelanggan churn";
    "meningkatkan loyalitas pelanggan"; "mendapatkan pelanggan baru";
    "menjual produk tambahan" ].

End Scorer.

(** ** The priority list and its order *)

Module Priority.

(** One entry of [prioritas_klaster]. *)
Record Prioritas : Type := {
  Klaster_ID : nat;
  Skor_Prioritas : Z;
  CF_Prioritas : Q;
  Deskripsi : string
}.

(** A stable ascending sort by an integer key: an element is put before the
    first element of the sorted rest whose key is not smaller. *)
Fixpoint insert_by {A : Type} (key : A -> Z) (x : A) (l : list A) : list A :=
  match l with
  | [] => [x]
  | y :: l' => if (key x <=? key y)%Z then x :: y :: l' else y :: insert_by key x l'
  end.

Fixpoint sort_by {A : Type} (key : A -> Z) (l : list A) : list A :=
  match l with
  | [] => []
  | x :: l' => insert_by key x (sort_by key l')
  end.

(** [l.sort(key=key, reverse=reverse)]: with [reverse] the list is reversed,
    sorted ascending and reversed again, which is how the stability of the
    sort is kept for a descending order. *)
Definition list_sort {A : Type} (key : A -> Z) (reverse : bool) (l : list A) : list A :=
  if reverse then List.rev (sort_by key (List.rev l)) else sort_by key l.

(** The elements whose key is [k] are selected by [filter (has_key key k)]. *)
Definition has_key {A : Type} (key : A -> Z) (k : Z) (x : A) : bool := (key x =? k)%Z.

(** [prioritas_klaster.sort(key=lambda x: x['Skor_Prioritas'], reverse=True)]. *)
Definition sort_prioritas (l : list Prioritas) : list Prioritas :=
  list_sort Skor_Prioritas true l.

(** The order in which two entries of the priority list may follow one
    another when the list is sorted by descending score and entries of one
    score are listed by ascending segment id. *)
Definition ranked_before (a b : Prioritas) : Prop :=
  (Skor_Prioritas a > Skor_Prioritas b)%Z \/
  (Skor_Prioritas a = Skor_Prioritas b /\ (Klaster_ID a < Klaster_ID b)%nat).

End Priority.

(** ** Segment descriptions *)

Module Describe.

Import Stats Text.

Open Scope string_scope.

(** The numeric quantities of a description, as they are rendered. *)
Definition usia_text (p : Profile) : string := str_Z (py_int (Age p)).
Definition pendapatan_text (p : Profile) : string :=
  format_2f (Annual_Income p / 1000000).
Definition pengeluaran_text (p : Profile) : string :=
  format_2f (Total_Spend p / 1000000).
Definition kepuasan_text (p : Profile) : string := str_float (Satisfaction_Score p).

(** The text [desc] built for segment [i] from its profile [p]. *)
Definition cluster_description (df : DataFrame) (i : nat) (p : Profile) : string :=
  "**Klaster " ++ str_nat i ++ "**:" ++ nl ++
  "- Usia rata-rata: **" ++ usia_text p ++ " tahun**" ++ nl ++
  "- Pendapatan tahunan: **Rp " ++ pendapatan_text p ++ " Juta**" ++ nl ++
  "- Total pengeluaran: **Rp " ++ pengeluaran_text p ++ " Juta**" ++ nl ++
  "- Skor kepuasan: **" ++ kepuasan_text p ++ "**" ++ nl ++
  "- Dominan: **" ++ (if Gender p =? "Pria" then "Pria" else "Wanita") ++ "**" ++ nl ++
  "- Frekuensi belanja: **" ++
     (if gt_mean (Num_of_Purchases p) (col_mean Num_of_Purchases df)
      then "sering" else "jarang") ++ "**" ++ nl ++
  "- Respons promosi: **'" ++ Promotion_Response p ++ "'**" ++ nl ++
  "- Status churn: **" ++
     (if Target_Churn p then "Cenderung Churn" else "Tidak Cenderung Churn") ++ "**".

End Describe.

(** ** The rule engine *)

Module Rules.

Import Stats Profiles Priority.

Open Scope string_scope.

Record FCRule : Type := {
  fc_IF : Profile -> bool;
  fc_THEN : string;
  fc_DESC : string
}.

Record BCRule : Type := {
  bc_THEN_IF : Profile -> bool;
  bc_STRATEGY : string
}.

(** [marketing_rules_fc]; the conditions close over the table [df]. *)
Definition marketing_rules_fc (df : DataFrame) : list FCRule :=
  [ {| fc_IF := fun p => Qltb 10000000 (Annual_Income p) && Qleb 4 (Satisfaction_Score p);
       fc_THEN := "Kirim penawaran eksklusif/produk premium";
       fc_DESC := "Cocok untuk pelanggan berpenghasilan tinggi dan puas." |};
    {| fc_IF := fun p => Target_Churn p
                         && gt_mean (Last_Purchase_Days_Ago p) (col_mean Last_Purchase_Days_Ago df);
       fc_THEN := "Luncurkan kampanye retensi dengan diskon menarik";
       fc_DESC := "Prioritas tinggi untuk mencegah pelanggan beralih." |};
    {| fc_IF := fun p => (Promotion_Response p =? "Merespons")
                         && lt_mean (Num_of_Purchases p) (col_mean Num_of_Purchases df);
       fc_THEN := "Tawarkan promosi untuk mendorong pembelian berulang";
       fc_DESC := "Manfaatkan respons promosi untuk meningkatkan frekuensi pembelian." |};
    {| fc_IF := fun p => lt_mean (Average_Transaction_Amount p)
                                 (col_mean Average_Transaction_Amount df)
                         && gt_mean (Num_of_Purchases p) (col_mean Num_of_Purchases df);
       fc_THEN := "Fokus pada up-selling atau cross-selling";
       fc_DESC := "Dorong peningkatan nilai keranjang belanja." |} ].

(** [marketing_rules_bc], keyed by the campaign objective. *)
Definition marketing_rules_bc (df : DataFrame) : list (string * BCRule) :=
  [ ("meningkatkan loyalitas pelanggan",
     {| bc_THEN_IF := fun p => negb (Target_Churn p)
                               && gt_mean (Years_as_Customer p) (col_mean Years_as_Customer df)
                               && Qleb 4 (Satisfaction_Score p);
        bc_STRATEGY := "Kirim hadiah loyalitas atau undangan acara eksklusif." |});
    ("mencegah pelanggan churn",
     {| bc_THEN_IF := fun p => Target_Churn p
                               && gt_mean (Last_Purchase_Days_Ago p)
                                          (col_mean Last_Purchase_Days_Ago df);
        bc_STRATEGY := "Luncurkan kampanye retensi agresif." |});
    ("mendapatkan pelanggan baru",
     {| bc_THEN_IF := fun p => (Promotion_Response p =? "Merespons")
                               && lt_mean (Years_as_Customer p) (col_mean Years_as_Customer df);
        bc_STRATEGY := "Iklankan melalui kanal yang menarik demografi klaster ini." |}) ].

(** Lookup in a dictionary with text keys. *)
Fixpoint get {A : Type} (key : string) (d : list (string * A)) : option A :=
  match d with
  | [] => None
  | (k, v) :: d' => if k =? key then Some v else get key d'
  end.

(** A loop [for x in xs: ...] whose body may raise: the results in order, or
    the first exception. *)
Fixpoint for_each {A B : Type} (body : A -> Outcome B) (xs : list A) : Outcome (list B) :=
  match xs with
  | [] => Ok []
  | x :: xs' =>
      obind (body x) (fun y => obind (for_each body xs') (fun ys => Ok (y :: ys)))
  end.

(** Forward chaining: for each entry of the priority list, in that order,
    the rules whose condition holds on the segment's profile. *)
Definition forward_chaining (df : DataFrame) (cluster_profiles : list (nat * Profile))
    (prioritas_klaster : list Prioritas) : Outcome (list (nat * list FCRule)) :=
  for_each
    (fun item =>
       let cid := Klaster_ID item in
       obind (loc cluster_profiles cid) (fun profile =>
       Ok (cid, filter (fun rule => fc_IF rule profile) (marketing_rules_fc df))))
    prioritas_klaster.

(** One entry of [bc_results]. *)
Record BCResult : Type := {
  bc_Klaster_ID : nat;
  bc_Deskripsi : string;
  bc_Strategi : string
}.

(** Backward chaining for the objective [tujuan_kampanye]. *)
Definition backward_chaining (df : DataFrame) (cluster_profiles : list (nat * Profile))
    (cluster_descriptions : list (nat * string)) (n_clusters_chosen : nat)
    (tujuan_kampanye : string) : Outcome (list BCResult) :=
  match get tujuan_kampanye (marketing_rules_bc df) with
  | Some rule =>
      obind
        (for_each
           (fun cid =>
              obind (loc cluster_profiles cid) (fun profile =>
              if bc_THEN_IF rule profile then
                obind (loc cluster_descriptions cid) (fun desc =>
                Ok [ {| bc_Klaster_ID := cid; bc_Deskripsi := desc;
                        bc_Strategi := bc_STRATEGY rule |} ])
              else Ok []))
           (seq 0 n_clusters_chosen))
        (fun found => Ok (List.concat found))
  | None => Ok []
  end.

End Rules.

(** ** The hierarchical planner *)

Module Planner.

Import Rules.

Open Scope string_scope.

Record Plan : Type := {
  Mayor : string;
  Steps : list string
}.

Definition plans : list (string * Plan) :=
  [ ("Kirim penawaran eksklusif/produk premium",
     {| Mayor := "Luncheon Kampanye Produk Premium";
        Steps := ["Desain Materi Pemasaran"; "Segmentasikan Audiens"; "Jadwalkan Pengiriman"] |});
    ("Luncurkan kampanye retensi dengan diskon menarik",
     {| Mayor := "Implementasi Program Retensi";
        Steps := ["Identifikasi Pelanggan Berisiko"; "Rancang Penawaran Personalisasi";
                  "Sertakan Survei Kepuasan"] |});
    ("Tawarkan promosi untuk mendorong pembelian berulang",
     {| Mayor := "Optimalisasi Promosi Pembelian Berulang";
        Steps := ["Analisis Produk Sering Dibeli"; "Buat Kupon/Poin Loyalitas";
                  "Kirim Notifikasi Otomatis"] |});
    ("Fokus pada up-selling atau cross-selling",
     {| Mayor := "Strategi Peningkatan Nilai Keranjang";
        Steps := ["Identifikasi Produk Komplementer"; "Implementasikan Rekomendasi di Situs";
                  "Latih Tim Penjualan"] |});
    ("Kirim hadiah loyalitas atau undangan acara eksklusif.",
     {| Mayor := "Program Apresiasi Pelanggan Loyal";
        Steps := ["Verifikasi Kriteria Loyalitas"; "Pilih Jenis Hadiah/Acara";
                  "Komunikasikan Manfaat Program"] |});
    ("Luncurkan kampanye retensi agresif.",
     {| Mayor := "Kampanye Retensi Agresif";
        Steps := ["Hubungi Pelanggan Secara Personal"; "Tawarkan Diskon 'Win-Back'";
                  "Analisis Feedback Churn"] |});
    ("Iklankan melalui kanal yang menarik demografi klaster ini.",
     {| Mayor := "Akuisisi Pelanggan Baru Tertarget";
        Steps := ["Analisis Preferensi Media"; "Buat Konten Iklan Relevan";
                  "Monitor Kinerja Iklan"] |}) ].

(** [get_hierarchical_plan(strategy_type)]. *)
Definition get_hierarchical_plan (strategy_type : string) : Plan :=
  match get strategy_type plans with
  | Some plan => plan
  | None => {| Mayor := "Strategi Umum"; Steps := ["Langkah umum 1"; "Langkah umum 2"] |}
  end.

End Planner.

(** ** The narrative summary *)

Module Report.

Import Text Priority.

Open Scope string_scope.

(** The opening of the report, up to the number of segments. *)
Definition pembuka_1 : string :=
  nl ++
  "    Sistem ini berhasil melakukan **Segmentasi Pelanggan E-commerce** menggunakan algoritma K-Means, membagi total **".

(** From the number of segments to the list of profiles. *)
Definition pembuka_2 : string :=
  "** segmen pelanggan unik." ++ nl ++
  "    " ++ nl ++
  "#### 1. Profil Klaster yang Ditemukan:".

(** The heading of the recommendation, up to the price. *)
Definition rekomendasi_1 : string :=
  nl ++
  "    " ++ nl ++
  nl ++
  "#### 2. Rekomendasi Target Pasar Utama:" ++ nl ++
  "    Berdasarkan harga produk **Rp ".

(** Between the price and the objective. *)
Definition rekomendasi_2 : string :=
  "** dan tujuan kampanye **'".

(** After the objective. *)
Definition rekomendasi_3 : string :=
  "'**, klaster berikut direkomendasikan:".

(** The closing section of the report, a constant text. *)
Definition penutup : string :=
  nl ++
  "    " ++ nl ++
  nl ++
  "#### 3. Penerapan Konsep Kecerdasan Buatan:" ++ nl ++
  "    - **Teorema Bayes**: Model Naive Bayes dilatih untuk memperkirakan probabilitas $P(" ++ tab ++ "ext{Klaster} | " ++ tab ++ "ext{Fitur})$, memungkinkan penempatan pelanggan baru ke segmen yang paling mungkin." ++ nl ++
  "    - **Certainty Factor (CF)**: Setiap rekomendasi dilengkapi nilai CF yang merefleksikan tingkat keyakinan sistem terhadap relevansi klaster dengan tujuan kampanye." ++ nl ++
  "    - **Inferensi (Forward & Backward Chaining)**:" ++ nl ++
  "        - **Forward Chaining (Data-driven):** Sistem secara otomatis menyarankan strategi pemasaran begitu karakteristik klaster diketahui." ++ nl ++
  "        - **Backward Chaining (Goal-driven):** Sistem mencari klaster yang paling mendukung tujuan bisnis yang telah ditentukan." ++ nl ++
  "    - **Perencanaan Hierarkis**: Strategi yang direkomendasikan diuraikan menjadi 'Tindakan Mayor' dan 'Langkah-langkah Minor', memfasilitasi eksekusi yang terstruktur." ++ nl ++
  "    - **Konsep Pencarian (Heuristik & Buta)**: Metode Elbow dan `n_init=10` pada K-Means adalah bentuk pencarian untuk menemukan solusi optimal dan menghindari hasil yang suboptimal." ++ nl ++
  "    - **Konsep Agen & Multi-Agen**: Sistem ini berfungsi sebagai 'Agen Analisis' yang outputnya dapat diintegrasikan ke dalam ekosistem 'Multi-Agen' (misal: Agen Pemasaran Email, Agen Iklan)." ++ nl ++
  "    " ++ nl ++
  "Secara keseluruhan, proyek ini mengintegrasikan berbagai konsep inti AI untuk memberikan rekomendasi strategi pemasaran yang lebih cerdas, terjustifikasi, dan terstruktur." ++ nl ++
  "    ".

(** The line added per segment description. *)
Definition baris_profil (desc : string) : string := nl ++ "- " ++ desc.

(** The line added per entry of the priority list; [i] counts from 0. *)
Definition baris_prioritas (i : nat) (item : Prioritas) : string :=
  nl ++ "- **Prioritas " ++ str_nat (i + 1) ++ ": Klaster " ++ str_nat (Klaster_ID item) ++
  "** (Skor: " ++ str_Z (Skor_Prioritas item) ++ ", CF: " ++ format_2f (CF_Prioritas item) ++ ")".

Fixpoint enumerate {A : Type} (start : nat) (l : list A) : list (nat * A) :=
  match l with
  | [] => []
  | x :: l' => (start, x) :: enumerate (S start) l'
  end.

Definition join (parts : list string) : string := fold_right append "" parts.

(** [summary_text]. *)
Definition summary_text (n_clusters_chosen : nat) (harga_produk : Q) (tujuan_kampanye : string)
    (cluster_descriptions : list (nat * string)) (prioritas_klaster : list Prioritas) : string :=
  pembuka_1 ++ str_nat n_clusters_chosen ++ pembuka_2 ++
  join (map (fun cd => baris_profil (snd cd)) cluster_descriptions) ++
  rekomendasi_1 ++ format_comma_0f harga_produk ++ rekomendasi_2 ++
  upper tujuan_kampanye ++ rekomendasi_3 ++
  join (map (fun ii => baris_prioritas (fst ii) (snd ii)) (enumerate 0 prioritas_klaster)) ++
  penutup.

End Report.

(** ** The orchestrator *)

Module Pipeline.

Import Text Stats Profiles Scorer Priority Describe Rules Planner Report.

Open Scope string_scope.

Definition Matrix : Type := list (list Q).

(** A fitted [KMeans]: its [inertia_] and its [labels_]. *)
Record KMeansFit : Type := {
  inertia_ : Q;
  labels_ : list nat
}.

(** The external libraries.  Each field is one call of the source:
    - [read_csv path] is [pd.read_csv(path)];
    - [standard_scaler rs] is [StandardScaler().fit_transform(df[fitur_numerik])];
    - [one_hot_encoder rs] is [OneHotEncoder(handle_unknown='ignore',
      sparse_output=False).fit_transform(df[fitur_kategorikal])];
    - [kmeans n X] is [KMeans(n_clusters=n, random_state=42, n_init=10).fit(X)];
    - [silhouette_score X labels] and [gaussian_nb X labels] are
      [silhouette_score(X, labels)] and [GaussianNB().fit(X, labels)].
    Any of them may raise. *)
Record Oracle : Type := {
  read_csv : string -> Outcome DataFrame;
  standard_scaler : list Row -> Outcome Matrix;
  one_hot_encoder : list Row -> Outcome Matrix;
  kmeans : nat -> Matrix -> Outcome KMeansFit;
  silhouette_score : Matrix -> list nat -> Outcome Q;
  gaussian_nb : Matrix -> list nat -> Outcome unit
}.

(** The calls made to the external libraries, in order. *)
Inductive Event : Type :=
| EvReadCsv (path : string)
| EvStandardScaler
| EvOneHotEncoder
| EvKMeans (n_clusters : nat)
| EvSilhouette
| EvGaussianNB.

(** A computation that logs its library calls and may raise. *)
Definition M (A : Type) : Type := list Event -> list Event * Outcome A.

Definition ret {A : Type} (a : A) : M A := fun t => (t, Ok a).

Definition bind {A B : Type} (m : M A) (k : A -> M B) : M B :=
  fun t =>
    match m t with
    | (t', Ok a) => k a t'
    | (t', Raise e) => (t', Raise e)
    end.

(** A library call: logged, then its outcome. *)
Definition call {A : Type} (ev : Event) (r : Outcome A) : M A :=
  fun t => ((t ++ [ev])%list, r).

(** A computation of the program itself: nothing is logged. *)
Definition lift {A : Type} (r : Outcome A) : M A := fun t => (t, r).

Declare Scope pipeline_scope.
Delimit Scope pipeline_scope with pipeline.
Notation "x <- m ;; k" := (bind m (fun x => k))
  (at level 61, m at next level, right associativity) : pipeline_scope.

Fixpoint for_eachM {A B : Type} (body : A -> M B) (xs : list A) : M (list B) :=
  match xs with
  | [] => ret []
  | x :: xs' =>
      (y <- body x ;; ys <- for_eachM body xs' ;; ret (y :: ys))%pipeline
  end.

(** The two curves drawn on [fig_eval], against [range_n_clusters]. *)
Record Figure : Type := {
  range_n_clusters : list nat;
  inertia : list Q;
  silhouette_scores : list Q
}.

(** The table after [df['Cluster'] = ...]. *)
Record ClusteredFrame : Type := {
  frame : DataFrame;
  Cluster : list nat
}.

(** The dictionary [results] at the final [return]. *)
Record Results : Type := {
  evaluation_plot : Figure;
  df_with_clusters : ClusteredFrame;
  cluster_profiles : list (nat * Profile);
  cluster_descriptions : list (nat * string);
  prioritas_klaster : list Prioritas;
  forward_chaining_results : list (nat * list FCRule);
  backward_chaining_results : list BCResult;
  hierarchical_plan : option Plan;
  top_strategy_for_plan : option string;
  final_summary : string
}.

(** What [run_full_analysis] returns: the one-entry dictionary
    [{"error": msg}], or [results]. *)
Inductive ReturnDict : Type :=
| ErrorDict (msg : string)
| ResultDict (r : Results).

(** The keys of the returned dictionary, in insertion order. *)
Definition keys (d : ReturnDict) : list string :=
  match d with
  | ErrorDict _ => ["error"]
  | ResultDict r =>
      (["evaluation_plot"; "df_with_clusters"; "cluster_profiles"; "cluster_descriptions";
        "prioritas_klaster"; "forward_chaining_results"; "backward_chaining_results"] ++
       (match hierarchical_plan r with Some _ => ["hierarchical_plan"] | None => [] end) ++
       (match top_strategy_for_plan r with Some _ => ["top_strategy_for_plan"] | None => [] end) ++
       ["final_summary"])%list
  end.

(** [df['Cluster'] = labels]: the lengths must agree, and the column is
    added unless the table already has one of that name. *)
Definition set_cluster (df : DataFrame) (labels : list nat) : Outcome ClusteredFrame :=
  if (List.length labels =? List.length (rows df))%nat then
    Ok {| frame := {| columns := if has_column df "Cluster" then columns df
                                 else (columns df ++ ["Cluster"])%list;
                      rows := rows df |};
          Cluster := labels |}
  else Raise (LibraryError "Length of values does not match length of index").

(** [pd.concat([a, b], axis=1)], row by row. *)
Definition concat_columns (a b : Matrix) : Matrix :=
  map (fun ab => (fst ab ++ snd ab)%list) (combine a b).

(** The choice of the strategy that feeds the planner. *)
Definition choose_top_strategy (bc_results : list BCResult)
    (fc_results : list (nat * list FCRule)) (prioritas : list Prioritas)
  : Outcome (option string) :=
  match bc_results with
  | b :: _ => Ok (Some (bc_Strategi b))
  | [] =>
      match prioritas with
      | [] => Raise IndexError
      | first :: _ =>
          match assoc (Klaster_ID first) fc_results with
          | Some (rule :: _) => Ok (Some (fc_THEN rule))
          | _ => Ok None
          end
      end
  end.

(** [if top_strategy:] holds for a text that is not empty. *)
Definition truthy (s : option string) : option string :=
  match s with
  | Some EmptyString => None
  | other => other
  end.

Section Run.

Variable lib : Oracle.

Open Scope pipeline_scope.

(** The sweep [for n in range_n_clusters: ...] of the evaluation. *)
Definition evaluate (X : Matrix) : M Figure :=
  curves <- for_eachM
              (fun n =>
                 kmeans_eval <- call (EvKMeans n) (kmeans lib n X) ;;
                 s <- call EvSilhouette (silhouette_score lib X (labels_ kmeans_eval)) ;;
                 ret (inertia_ kmeans_eval, s))
              (seq 2 9) ;;
  ret {| range_n_clusters := seq 2 9;
         inertia := map fst curves;
         silhouette_scores := map snd curves |}.

(** The loop that fills [cluster_descriptions]. *)
Definition describe_clusters (df : DataFrame) (profiles : list (nat * Profile))
    (n_clusters_chosen : nat) : Outcome (list (nat * string)) :=
  for_each
    (fun i => obind (loc profiles i) (fun p => Ok (i, cluster_description df i p)))
    (seq 0 n_clusters_chosen).

(** The loop that fills [prioritas_klaster], before the sort. *)
Definition score_clusters (df : DataFrame) (profiles : list (nat * Profile))
    (descriptions : list (nat * string)) (n_clusters_chosen : nat)
    (harga_produk : Q) (tujuan_kampanye : string) : Outcome (list Prioritas) :=
  for_each
    (fun cid =>
       obind (loc profiles cid) (fun profile =>
       obind (hitung_skor_prioritas_cf df profile harga_produk tujuan_kampanye) (fun sc =>
       obind (loc descriptions cid) (fun desc =>
       Ok {| Klaster_ID := cid; Skor_Prioritas := fst sc; CF_Prioritas := snd sc;
             Deskripsi := desc |}))))
    (seq 0 n_clusters_chosen).

(** Sections 2 to 5 of [run_full_analysis]: everything after the column
    check. *)
Definition analyse (df : DataFrame) (n_clusters_chosen : nat) (harga_produk : Q)
    (tujuan_kampanye : string) : M Results :=
  df_scaled_numerik <- call EvStandardScaler (standard_scaler lib (rows df)) ;;
  df_encoded_kategorikal <- call EvOneHotEncoder (one_hot_encoder lib (rows df)) ;;
  let df_processed := concat_columns df_scaled_numerik df_encoded_kategorikal in
  fig_eval <- evaluate df_processed ;;
  fitted <- call (EvKMeans n_clusters_chosen) (kmeans lib n_clusters_chosen df_processed) ;;
  clustered <- lift (set_cluster df (labels_ fitted)) ;;
  let df := frame clustered in
  let profiles := build_profiles (rows df) (Cluster clustered) in
  descriptions <- lift (describe_clusters df profiles n_clusters_chosen) ;;
  _ <- call EvGaussianNB (gaussian_nb lib df_processed (Cluster clustered)) ;;
  unsorted <- lift (score_clusters df profiles descriptions n_clusters_chosen
                                   harga_produk tujuan_kampanye) ;;
  let prioritas := sort_prioritas unsorted in
  fc_results <- lift (forward_chaining df profiles prioritas) ;;
  bc_results <- lift (backward_chaining df profiles descriptions n_clusters_chosen
                                        tujuan_kampanye) ;;
  top_strategy <- lift (choose_top_strategy bc_results fc_results prioritas) ;;
  ret {| evaluation_plot := fig_eval;
         df_with_clusters := clustered;
         cluster_profiles := profiles;
         cluster_descriptions := descriptions;
         prioritas_klaster := prioritas;
         forward_chaining_results := fc_results;
         backward_chaining_results := bc_results;
         hierarchical_plan := option_map get_hierarchical_plan (truthy top_strategy);
         top_strategy_for_plan := truthy top_strategy;
         final_summary := summary_text n_clusters_chosen harga_produk tujuan_kampanye
                                       descriptions prioritas |}.

Definition pesan_file (file_path : string) : string :=
  ("File tidak ditemukan di path: " ++ file_path)%string.

Definition pesan_kolom (col : string) : string :=
  ("Kolom yang dibutuhkan '" ++ col ++ "' tidak ditemukan di dalam file CSV Anda.")%string.

(** [run_full_analysis(file_path, n_clusters_chosen, harga_produk,
    tujuan_kampanye)].  The [try] around [pd.read_csv] catches
    [FileNotFoundError] only. *)
Definition run_full_analysis (file_path : string) (n_clusters_chosen : nat)
    (harga_produk : Q) (tujuan_kampanye : string) : M ReturnDict :=
  fun t =>
    match call (EvReadCsv file_path) (read_csv lib file_path) t with
    | (t', Raise FileNotFoundError) => (t', Ok (ErrorDict (pesan_file file_path)))
    | (t', Raise e) => (t', Raise e)
    | (t', Ok df) =>
        match first_missing df required with
        | Some col => (t', Ok (ErrorDict (pesan_kolom col)))
        | None =>
            (r <- analyse df n_clusters_chosen harga_produk tujuan_kampanye ;;
             ret (ResultDict r)) t'
        end
    end.

(** One invocation, from an empty log. *)
Definition run (file_path : string) (n_clusters_chosen : nat) (harga_produk : Q)
    (tujuan_kampanye : string) : list Event * Outcome ReturnDict :=
  run_full_analysis file_path n_clusters_chosen harga_produk tujuan_kampanye [].

End Run.

(** The caller in [app.py]: the label picked in the select box is put in
    lower case before [run_full_analysis] is called. *)
Definition app_run (lib : Oracle) (file_path : string) (n_clusters : nat)
    (harga_produk : Q) (pilihan : string) : list Event * Outcome ReturnDict :=
  let tujuan_kampanye := lower pilihan in
  run lib file_path n_clusters harga_produk tujuan_kampanye.

End Pipeline.

(** ** The caller's side: [app.py]

    What the interactive caller feeds to [run_full_analysis] and what it
    reads from the result. *)

Module App.

Open Scope string_scope.

(** The options of the select box ["Pilih Tujuan Utama Kampanye"]. *)
Definition pilihan_tujuan : list string :=
  [ "meningkatkan loyalitas pelanggan"; "mencegah pelanggan churn";
    "mendapatkan pelanggan baru"; "meningkatkan penjualan umum";
    "menjual produk tambahan" ].

(** The entries that the page reads with [hasil[...]], without a guard,
    once ["error" in hasil] is false. *)
Definition kunci_dibaca : list string :=
  [ "prioritas_klaster"; "cluster_profiles"; "cluster_descriptions";
    "forward_chaining_results"; "evaluation_plot"; "df_with_clusters" ].

End App.

(** ** A small data set

    A table of ten customers of two kinds, five of each, used to evaluate
    the pipeline on concrete input.  Since only two distinct records occur,
    k-means finds two groups whatever the number of clusters asked for. *)

Module Sample.

Import Pipeline.

Open Scope string_scope.

Definition pelanggan (age income spend years purchases recency : Q) (churn : bool) : Row :=
  {| Age := age;
     Annual_Income := income;
     Total_Spend := spend;
     Years_as_Customer := years;
     Num_of_Purchases := purchases;
     Average_Transaction_Amount := 100000;
     Num_of_Returns := 1;
     Num_of_Support_Contacts := 0;
     Satisfaction_Score := 3.5;
     Last_Purchase_Days_Ago := recency;
     Gender := "Pria";
     Email_Opt_In := "Ya";
     Promotion_Response := "Merespons";
     Target_Churn := churn |}.

Definition pelanggan_a : Row := pelanggan 34.57 11500000 700000 2 6 85 true.
Definition pelanggan_b : Row := pelanggan 45.75 2500000 125000 9 21 25 false.

Definition data : DataFrame :=
  {| columns := ("CustomerID" :: fitur_numerik ++ fitur_kategorikal)%list;
     rows := (repeat pelanggan_a 5 ++ repeat pelanggan_b 5)%list |}.

(** The same table without the column ['Total_Spend']. *)
Definition data_tanpa_kolom : DataFrame :=
  {| columns := filter (fun c => negb (c =? "Total_Spend")) (columns data);
     rows := rows data |}.

(** The labels of the two groups. *)
Definition labels : list nat := (repeat 0 5 ++ repeat 1 5)%nat%list.

(** The libraries on this table.  With five records of each kind every
    numeric column that differs is scaled to -1 and +1 and every constant one
    to 0; each categorical column has one category, except the churn flag,
    which has two.  All fits find the two groups, with inertia 0 and
    silhouette score 1. *)
Definition lib : Oracle :=
  {| read_csv := fun path =>
       if path =? "pelanggan.csv" then Ok data
       else if path =? "tanpa_kolom.csv" then Ok data_tanpa_kolom
       else Raise FileNotFoundError;
     standard_scaler := fun rs =>
       Ok (map (fun r => if Target_Churn r
                         then [-1; 1; 1; -1; -1; 0; 0; 0; 0; 1]
                         else [1; -1; -1; 1; 1; 0; 0; 0; 0; -1]) rs);
     one_hot_encoder := fun rs =>
       Ok (map (fun r => if Target_Churn r then [1; 1; 1; 0; 1] else [1; 1; 1; 1; 0]) rs);
     kmeans := fun _ _ => Ok {| inertia_ := 0; labels_ := labels |};
     silhouette_score := fun _ _ => Ok 1;
     gaussian_nb := fun _ _ => Ok tt |}.

(** The profile of segment 0: churn-flagged, mean age 34.57, recency 85
    against a dataset mean of 55. *)
Definition profil_0 : Profile :=
  Profiles.agg (Profiles.members (rows data) labels 0).

End Sample.

(** Libraries that fail on the sample: a file that [read_csv] rejects as
    empty, and a scaler that rejects its input. *)

Module SampleFaults.

Import Pipeline.

Open Scope string_scope.

Definition lib_baca_gagal : Oracle :=
  {| read_csv := fun _ => Raise (LibraryError "EmptyDataError: No columns to parse from file");
     standard_scaler := standard_scaler Sample.lib;
     one_hot_encoder := one_hot_encoder Sample.lib;
     kmeans := kmeans Sample.lib;
     silhouette_score := silhouette_score Sample.lib;
     gaussian_nb := gaussian_nb Sample.lib |}.

Definition lib_scaler_gagal : Oracle :=
  {| read_csv := read_csv Sample.lib;
     standard_scaler := fun _ =>
       Raise (LibraryError "ValueError: could not convert string to float");
     one_hot_encoder := one_hot_encoder Sample.lib;
     kmeans := kmeans Sample.lib;
     silhouette_score := silhouette_score Sample.lib;
     gaussian_nb := gaussian_nb Sample.lib |}.

End SampleFaults.

(** * Properties *)

(** ** Comparisons and division *)

Lemma Qleb_le (x y : Q) : Qleb x y = true <-> x <= y.
Proof. apply Qle_bool_iff. Qed.

Lemma Qleb_gt (x y : Q) : Qleb x y = false <-> y < x.
Proof.
  unfold Qleb. split; intro H.
  - apply Qnot_le_lt. intro L. apply Qle_bool_iff in L. congruence.
  - destruct (Qle_bool x y) eqn:E; [|reflexivity].
    apply Qle_bool_iff in E. lra.
Qed.

Lemma Qltb_lt (x y : Q) : Qltb x y = true <-> x < y.
Proof. unfold Qltb. rewrite negb_true_iff. apply Qleb_gt. Qed.

Lemma Qltb_ge (x y : Q) : Qltb x y = false <-> y <= x.
Proof. unfold Qltb. rewrite negb_false_iff. apply Qleb_le. Qed.

Lemma py_truediv_zero (x y : Q) : y == 0 -> py_truediv x y = Raise ZeroDivisionError.
Proof.
  intro H. unfold py_truediv. apply Qeq_bool_iff in H. now rewrite H.
Qed.

Lemma py_truediv_nonzero (x y : Q) : ~ y == 0 -> py_truediv x y = Ok (x / y).
Proof.
  intro H. unfold py_truediv. destruct (Qeq_bool y 0) eqn:E; [|reflexivity].
  apply Qeq_bool_iff in E. contradiction.
Qed.

(** Turns the boolean tests of the embedding into order facts. *)
Ltac qbool :=
  repeat match goal with
  | H : andb _ _ = true |- _ => apply andb_true_iff in H; destruct H
  | H : andb _ _ = false |- _ => apply andb_false_iff in H; destruct H
  | H : negb _ = true |- _ => apply negb_true_iff in H
  | H : negb _ = false |- _ => apply negb_false_iff in H
  | H : Qleb _ _ = true |- _ => apply Qleb_le in H
  | H : Qleb _ _ = false |- _ => apply Qleb_gt in H
  | H : Qltb _ _ = true |- _ => apply Qltb_lt in H
  | H : Qltb _ _ = false |- _ => apply Qltb_ge in H
  | H : Qeq_bool _ _ = true |- _ => apply Qeq_bool_iff in H
  | H : Qeq_bool _ _ = false |- _ => apply Qeq_bool_neq in H
  end.

(** ** The certainty-factor algebra *)

Section CFFacts.

Import CF.

Lemma Qabs_nonneg_eq (x : Q) : 0 <= x -> Qabs x == x.
Proof. apply Qabs_pos. Qed.

Lemma Qabs_neg_eq (x : Q) : x < 0 -> Qabs x == - x.
Proof. intro H. apply Qabs_neg. lra. Qed.

(** The minimum of the magnitudes, case by case. *)
Lemma Qmin_cases (x y : Q) :
  (x <= y /\ Qmin x y == x) \/ (y <= x /\ Qmin x y == y).
Proof.
  destruct (Qlt_le_dec y x) as [H|H].
  - right. split; [lra|]. apply Q.min_r. lra.
  - left. split; [exact H|]. now apply Q.min_l.
Qed.

Lemma combine_nonneg (cf1 cf2 : Q) :
  both_nonneg cf1 cf2 -> calculate_cf_combination cf1 cf2 = Ok (cf1 + cf2 * (1 - cf1)).
Proof.
  intros [H1 H2]. unfold calculate_cf_combination.
  apply Qleb_le in H1, H2. now rewrite H1, H2.
Qed.

Lemma combine_neg (cf1 cf2 : Q) :
  both_neg cf1 cf2 -> calculate_cf_combination cf1 cf2 = Ok (cf1 + cf2 * (1 + cf1)).
Proof.
  intros [H1 H2]. unfold calculate_cf_combination.
  assert (E1 : Qleb 0 cf1 = false) by now apply Qleb_gt.
  apply Qltb_lt in H1, H2. now rewrite E1, H1, H2.
Qed.

Lemma combine_mixed (cf1 cf2 : Q) :
  mixed_sign cf1 cf2 ->
  calculate_cf_combination cf1 cf2 =
  py_truediv (cf1 + cf2) (1 - Qmin (Qabs cf1) (Qabs cf2)).
Proof.
  intros [[H1 H2]|[H1 H2]]; unfold calculate_cf_combination.
  - assert (E1 : Qleb 0 cf1 = false) by now apply Qleb_gt.
    assert (E2 : Qltb cf2 0 = false) by now apply Qltb_ge.
    rewrite E1, E2. simpl. now rewrite andb_false_r.
  - assert (E1 : Qleb 0 cf2 = false) by now apply Qleb_gt.
    assert (E2 : Qltb cf1 0 = false) by now apply Qltb_ge.
    rewrite E1, E2. simpl. now rewrite andb_false_r.
Qed.

Lemma sign_classes (cf1 cf2 : Q) :
  both_nonneg cf1 cf2 \/ both_neg cf1 cf2 \/ mixed_sign cf1 cf2.
Proof.
  unfold both_nonneg, both_neg, mixed_sign.
  destruct (Qlt_le_dec cf1 0), (Qlt_le_dec cf2 0); intuition.
Qed.

Lemma mixed_boundary_spec (cf1 cf2 : Q) :
  mixed_boundary cf1 cf2 = true <->
  mixed_sign cf1 cf2 /\ Qmin (Qabs cf1) (Qabs cf2) == 1.
Proof.
  unfold mixed_boundary, mixed_sign. split.
  - intro H. qbool; (split; [|assumption]);
      first [ exfalso; lra | left; split; lra | right; split; lra ].
  - intros [M E]. apply Qeq_bool_iff in E. rewrite E, andb_true_r.
    destruct M as [[H1 H2]|[H1 H2]].
    + assert (E1 : Qleb 0 cf1 = false) by now apply Qleb_gt.
      assert (E2 : Qltb cf2 0 = false) by now apply Qltb_ge.
      rewrite E1, E2. simpl. now rewrite andb_false_r.
    + assert (E1 : Qleb 0 cf2 = false) by now apply Qleb_gt.
      assert (E2 : Qltb cf1 0 = false) by now apply Qltb_ge.
      rewrite E1, E2. simpl. now rewrite andb_false_r.
Qed.

(** Within [-1, 1] the divisor vanishes at two pairs only. *)
Lemma mixed_boundary_pairs (cf1 cf2 : Q) :
  in_unit cf1 -> in_unit cf2 ->
  (mixed_boundary cf1 cf2 = true <->
   (cf1 == 1 /\ cf2 == -1) \/ (cf1 == -1 /\ cf2 == 1)).
Proof.
  intros [L1 U1] [L2 U2]. rewrite mixed_boundary_spec. unfold mixed_sign.
  split.
  - intros [[[H1 H2]|[H1 H2]] E].
    + right. rewrite (Qabs_neg_eq _ H1), (Qabs_nonneg_eq _ H2) in E.
      destruct (Qmin_cases (- cf1) cf2) as [[A B]|[A B]]; rewrite B in E; split; lra.
    + left. rewrite (Qabs_nonneg_eq _ H1), (Qabs_neg_eq _ H2) in E.
      destruct (Qmin_cases cf1 (- cf2)) as [[A B]|[A B]]; rewrite B in E; split; lra.
  - intros [[E1 E2]|[E1 E2]]; rewrite E1, E2; split; try reflexivity.
    + right. lra.
    + left. lra.
Qed.

End CFFacts.

Section CFRange.

Import CF.

Lemma combine_mixed_range (cf1 cf2 : Q) :
  in_unit cf1 -> in_unit cf2 -> mixed_sign cf1 cf2 ->
  ~ Qmin (Qabs cf1) (Qabs cf2) == 1 ->
  in_unit ((cf1 + cf2) / (1 - Qmin (Qabs cf1) (Qabs cf2))).
Proof.
  intros [L1 U1] [L2 U2] M N. unfold in_unit.
  destruct M as [[H1 H2]|[H1 H2]].
  - rewrite (Qabs_neg_eq _ H1), (Qabs_nonneg_eq _ H2) in *.
    destruct (Qmin_cases (- cf1) cf2) as [[A B]|[A B]]; rewrite B in *.
    + assert (D : 0 < 1 - - cf1) by lra. split.
      * apply Qle_shift_div_l; [exact D|lra].
      * apply Qle_shift_div_r; [exact D|lra].
    + assert (D : 0 < 1 - cf2) by lra. split.
      * apply Qle_shift_div_l; [exact D|lra].
      * apply Qle_shift_div_r; [exact D|lra].
  - rewrite (Qabs_nonneg_eq _ H1), (Qabs_neg_eq _ H2) in *.
    destruct (Qmin_cases cf1 (- cf2)) as [[A B]|[A B]]; rewrite B in *.
    + assert (D : 0 < 1 - cf1) by lra. split.
      * apply Qle_shift_div_l; [exact D|lra].
      * apply Qle_shift_div_r; [exact D|lra].
    + assert (D : 0 < 1 - - cf2) by lra. split.
      * apply Qle_shift_div_l; [exact D|lra].
      * apply Qle_shift_div_r; [exact D|lra].
Qed.

Lemma combine_same_sign_range (cf1 cf2 : Q) :
  in_unit cf1 -> in_unit cf2 ->
  (both_nonneg cf1 cf2 -> in_unit (cf1 + cf2 * (1 - cf1))) /\
  (both_neg cf1 cf2 -> in_unit (cf1 + cf2 * (1 + cf1))).
Proof.
  intros [L1 U1] [L2 U2]. unfold in_unit, both_nonneg, both_neg.
  split; intros [H1 H2]; split; nra.
Qed.

(** C1, the counterexample.  Both [1] and [-1] lie in [-1, 1], yet
    [calculate_cf_combination(1.0, -1.0)] raises [ZeroDivisionError]: the
    division of the mixed-sign branch is not guarded, so the claim that every
    pair of [-1, 1] yields a value of [-1, 1] is false. *)
Lemma cf_combination_unguarded :
  in_unit 1 /\ in_unit (-1) /\
  calculate_cf_combination 1 (-1) = Raise ZeroDivisionError /\
  ~ (forall cf1 cf2 : Q, in_unit cf1 -> in_unit cf2 ->
       exists v, calculate_cf_combination cf1 cf2 = Ok v /\ in_unit v).
Proof.
  assert (I1 : in_unit 1) by (unfold in_unit; lra).
  assert (I2 : in_unit (-1)) by (unfold in_unit; lra).
  repeat split; try apply I1; try apply I2.
  intro H. destruct (H 1 (-1) I1 I2) as [v [E _]].
  vm_compute in E. discriminate E.
Qed.

(** C1, as amended.  For [cf1] and [cf2] in [-1, 1],
    [calculate_cf_combination] returns a value in [-1, 1] except at the two
    mixed-sign pairs where [min(|cf1|,|cf2|)] is 1, that is (1, -1) and
    (-1, 1); there the division is not guarded and [ZeroDivisionError] is
    raised. *)
Theorem cf_combination_range (cf1 cf2 : Q) :
  in_unit cf1 -> in_unit cf2 ->
  (mixed_boundary cf1 cf2 = true <->
   (cf1 == 1 /\ cf2 == -1) \/ (cf1 == -1 /\ cf2 == 1)) /\
  (if mixed_boundary cf1 cf2
   then calculate_cf_combination cf1 cf2 = Raise ZeroDivisionError
   else exists v, calculate_cf_combination cf1 cf2 = Ok v /\ in_unit v).
Proof.
  intros I1 I2. split; [now apply mixed_boundary_pairs|].
  destruct (mixed_boundary cf1 cf2) eqn:B.
  - apply mixed_boundary_spec in B. destruct B as [M E].
    rewrite (combine_mixed _ _ M). apply py_truediv_zero. rewrite E. reflexivity.
  - destruct (combine_same_sign_range cf1 cf2 I1 I2) as [P N].
    destruct (sign_classes cf1 cf2) as [S|[S|S]].
    + rewrite (combine_nonneg _ _ S). eexists. split; [reflexivity|]. now apply P.
    + rewrite (combine_neg _ _ S). eexists. split; [reflexivity|]. now apply N.
    + assert (NE : ~ Qmin (Qabs cf1) (Qabs cf2) == 1).
      { intro E. assert (T : mixed_boundary cf1 cf2 = true)
          by (apply mixed_boundary_spec; now split).
        congruence. }
      rewrite (combine_mixed _ _ S), py_truediv_nonzero.
      * eexists. split; [reflexivity|]. now apply combine_mixed_range.
      * intro Z. apply NE. lra.
Qed.

(** The range theorem at the mixed-sign pair (0.9, -0.2). *)
Lemma cf_combination_range_witness :
  exists v, calculate_cf_combination 0.9 (-0.2) = Ok v /\ in_unit v.
Proof.
  assert (I1 : in_unit 0.9) by (unfold in_unit; lra).
  assert (I2 : in_unit (-0.2)) by (unfold in_unit; lra).
  exact (proj2 (cf_combination_range 0.9 (-0.2) I1 I2)).
Defined.

(** C3.  [calculate_cf_combination(cf1, cf2)] is [cf1 + cf2*(1-cf1)] when
    both are >= 0, [cf1 + cf2*(1+cf1)] when both are < 0, and the quotient
    [(cf1+cf2) / (1 - min(|cf1|,|cf2|))] when the signs are mixed (a Python
    division: it raises when the divisor is 0 and is the quotient
    otherwise). *)
Theorem cf_combination_formula (cf1 cf2 : Q) :
  (both_nonneg cf1 cf2 ->
   calculate_cf_combination cf1 cf2 = Ok (cf1 + cf2 * (1 - cf1))) /\
  (both_neg cf1 cf2 ->
   calculate_cf_combination cf1 cf2 = Ok (cf1 + cf2 * (1 + cf1))) /\
  (mixed_sign cf1 cf2 ->
   calculate_cf_combination cf1 cf2 =
     py_truediv (cf1 + cf2) (1 - Qmin (Qabs cf1) (Qabs cf2)) /\
   (~ Qmin (Qabs cf1) (Qabs cf2) == 1 ->
    calculate_cf_combination cf1 cf2 =
      Ok ((cf1 + cf2) / (1 - Qmin (Qabs cf1) (Qabs cf2))))).
Proof.
  split; [apply combine_nonneg|]. split; [apply combine_neg|].
  intro M. split; [now apply combine_mixed|].
  intro N. rewrite (combine_mixed _ _ M). apply py_truediv_nonzero.
  intro Z. apply N. lra.
Qed.

(** One pair for each of the three sign classes. *)
Lemma cf_combination_formula_witness :
  calculate_cf_combination 0.9 0.7 = Ok (0.9 + 0.7 * (1 - 0.9)) /\
  calculate_cf_combination (-0.2) (-0.6) = Ok (-0.2 + -0.6 * (1 + -0.2)) /\
  calculate_cf_combination 0.9 (-0.2) =
    Ok ((0.9 + -0.2) / (1 - Qmin (Qabs 0.9) (Qabs (-0.2)))).
Proof.
  split; [|split].
  - apply (proj1 (cf_combination_formula 0.9 0.7)).
    unfold both_nonneg. split; lra.
  - apply (proj1 (proj2 (cf_combination_formula (-0.2) (-0.6)))).
    unfold both_neg. split; lra.
  - apply (proj2 (proj2 (cf_combination_formula 0.9 (-0.2)))).
    + unfold mixed_sign. right. split; lra.
    + vm_compute. intro H. discriminate H.
Defined.

End CFRange.

(** ** The priority scorer and the campaign objective *)

Section ScorerFacts.

Import CF Stats Profiles Scorer Rules.

Open Scope string_scope.

Lemma kriteria_skipped (poin : Z) (level : string) (st : Z * Q) :
  kriteria false poin level st = Ok st.
Proof. reflexivity. Qed.

Lemma kriteria_fires (poin : Z) (level : string) (skor : Z) (c c' : Q) :
  calculate_cf_combination c (cf level) = Ok c' ->
  kriteria true poin level (skor, c) = Ok ((skor + poin)%Z, c').
Proof. intro H. unfold kriteria. simpl. now rewrite H. Qed.

(** The branch of the chain taken for the churn objective. *)
Lemma kriteria_kampanye_churn (df : DataFrame) (profile : Profile) (st : Z * Q) :
  kriteria_kampanye df profile "mencegah pelanggan churn" st =
  obind (kriteria (Target_Churn profile) 3 "pasti" st)
        (kriteria (gt_mean (Last_Purchase_Days_Ago profile)
                           (col_mean Last_Purchase_Days_Ago df)) 2 "hampir_pasti").
Proof. reflexivity. Qed.

(** A label outside the five recognised ones fails every test of the chain. *)
Lemma not_dikenal_eqb (tujuan label : string) :
  ~ In tujuan tujuan_dikenal -> In label tujuan_dikenal -> (tujuan =? label) = false.
Proof.
  intros N I. destruct (String.eqb_spec tujuan label) as [E|E]; [|reflexivity].
  subst. contradiction.
Qed.

Lemma kriteria_kampanye_unrecognized (tujuan : string) :
  ~ In tujuan tujuan_dikenal ->
  forall df profile st, kriteria_kampanye df profile tujuan st = Ok st.
Proof.
  intros N df profile st. unfold kriteria_kampanye.
  rewrite !(not_dikenal_eqb tujuan) by (assumption || (simpl; tauto)).
  reflexivity.
Qed.

Lemma backward_chaining_unrecognized (tujuan : string) :
  ~ In tujuan tujuan_dikenal ->
  forall df profiles descriptions n,
    backward_chaining df profiles descriptions n tujuan = Ok [].
Proof.
  intros N df profiles descriptions n. unfold backward_chaining.
  assert (G : get tujuan (marketing_rules_bc df) = None).
  { unfold marketing_rules_bc, get.
    rewrite !(String.eqb_sym _ tujuan).
    rewrite !(not_dikenal_eqb tujuan) by (assumption || (simpl; tauto)).
    reflexivity. }
  now rewrite G.
Qed.

(** The two general blocks yield non-negative certainty factors in [0, 1]. *)
Lemma daya_beli_cf (profile : Profile) (harga : Q) (skor : Z) :
  0 <= snd (daya_beli profile harga skor) <= 1.
Proof.
  unfold daya_beli.
  destruct (Qltb _ _); [|destruct (Qltb _ _)]; simpl; vm_compute; intuition discriminate.
Qed.

Lemma spend_cf (profile : Profile) (harga : Q) (skor : Z) :
  0 <= snd (spend profile harga skor) <= 1.
Proof.
  unfold spend.
  destruct (Qltb _ _); [|destruct (Qltb _ _)]; simpl; vm_compute; intuition discriminate.
Qed.

(** The shape of the scorer's result, given what the objective-specific
    block returns. *)
Lemma hitung_skor_shape (df : DataFrame) (profile : Profile) (harga : Q)
    (tujuan : string) (s1 s2 skor' : Z) (c1 c2 ck : Q) :
  daya_beli profile harga 0 = (s1, c1) ->
  spend profile harga s1 = (s2, c2) ->
  kriteria_kampanye df profile tujuan (s2, 0.0%Q) = Ok (skor', ck) ->
  0 <= ck <= 1 ->
  exists cf_total,
    hitung_skor_prioritas_cf df profile harga tujuan = Ok (skor', cf_total) /\
    cf_total == (c1 + c2 * (1 - c1)) + ck * (1 - (c1 + c2 * (1 - c1))) /\
    0 <= cf_total <= 1.
Proof.
  intros Edb Esp K C. unfold hitung_skor_prioritas_cf.
  rewrite Edb, Esp, K. simpl obind.
  assert (B1 : 0 <= c1 <= 1).
  { pose proof (daya_beli_cf profile harga 0) as H. now rewrite Edb in H. }
  assert (B2 : 0 <= c2 <= 1).
  { pose proof (spend_cf profile harga s1) as H. now rewrite Esp in H. }
  rewrite (combine_nonneg c1 c2) by (split; lra). simpl obind.
  assert (B3 : 0 <= c1 + c2 * (1 - c1) <= 1) by (split; nra).
  rewrite (combine_nonneg _ ck) by (split; lra). simpl obind.
  eexists. split; [reflexivity|]. split; [reflexivity|]. split; nra.
Qed.

End ScorerFacts.

Section ObjectiveClaims.

Import CF Stats Profiles Scorer Rules Text Pipeline.

Open Scope string_scope.

(** C5.  For the objective "mencegah pelanggan churn" and a profile that is
    churn-flagged and whose recency is above the dataset mean, the
    objective-specific block adds exactly 5 (3 + 2) to the score, and its
    certainty factor, [0.0] combined with "pasti" (1.0) and then with
    "hampir_pasti" (0.8), is exactly 1.0; the total certainty factor of the
    segment is then 1.0 as well. *)
Theorem churn_objective_block (df : DataFrame) (profile : Profile) (harga : Q) (skor : Z) :
  Target_Churn profile = true ->
  (exists m, col_mean Last_Purchase_Days_Ago df = Some m /\
             (m < Last_Purchase_Days_Ago profile)%Q) ->
  (cf "pasti" == 1.0)%Q /\ (cf "hampir_pasti" == 0.8)%Q /\
  exists c1 c2 : Q,
    calculate_cf_combination 0.0%Q (cf "pasti") = Ok c1 /\
    calculate_cf_combination c1 (cf "hampir_pasti") = Ok c2 /\
    (c2 == 1.0)%Q /\
    kriteria_kampanye df profile "mencegah pelanggan churn" (skor, 0.0%Q)
      = Ok ((skor + 5)%Z, c2) /\
    exists cf_total : Q,
      hitung_skor_prioritas_cf df profile harga "mencegah pelanggan churn"
        = Ok ((fst (spend profile harga (fst (daya_beli profile harga 0))) + 5)%Z, cf_total) /\
      (cf_total == 1.0)%Q.
Proof.
  intros Hchurn [m [Hm Hgt]].
  assert (G : gt_mean (Last_Purchase_Days_Ago profile)
                      (col_mean Last_Purchase_Days_Ago df) = true).
  { rewrite Hm. simpl. now apply Qltb_lt. }
  split; [reflexivity|]. split; [reflexivity|].
  destruct (calculate_cf_combination 0.0%Q (cf "pasti")) as [c1|] eqn:E1;
    [|vm_compute in E1; discriminate E1].
  assert (V1 : (c1 == 1)%Q)
    by (vm_compute in E1; injection E1 as <-; reflexivity).
  assert (E2 : calculate_cf_combination c1 (cf "hampir_pasti")
               = Ok (c1 + cf "hampir_pasti" * (1 - c1))%Q).
  { apply combine_nonneg. split; [lra|]. vm_compute. discriminate. }
  set (c2 := (c1 + cf "hampir_pasti" * (1 - c1))%Q) in *.
  assert (V2 : (c2 == 1)%Q) by (unfold c2; rewrite V1; ring).
  assert (K : forall s, kriteria_kampanye df profile "mencegah pelanggan churn" (s, 0.0%Q)
                        = Ok ((s + 5)%Z, c2)).
  { intro s. rewrite kriteria_kampanye_churn, Hchurn, G.
    rewrite (kriteria_fires 3 "pasti" s _ c1 E1). cbn [obind].
    rewrite (kriteria_fires 2 "hampir_pasti" _ _ c2 E2).
    do 2 f_equal. lia. }
  exists c1, c2.
  split; [reflexivity|]. split; [exact E2|]. split; [rewrite V2; reflexivity|]. split; [apply K|].
  destruct (daya_beli profile harga 0) as [s1 d1] eqn:Edb.
  destruct (spend profile harga s1) as [s2 d2] eqn:Esp.
  assert (C2 : (0 <= c2 <= 1)%Q) by (rewrite V2; split; lra).
  destruct (hitung_skor_shape df profile harga _ s1 s2 _ d1 d2 c2 Edb Esp (K s2) C2)
    as [t [Ht [Vt _]]].
  exists t. simpl fst. rewrite Esp. simpl fst. split; [exact Ht|].
  rewrite Vt, V2. lra.
Qed.

(** The churn objective on segment 0 of the sample. *)
Lemma churn_objective_block_witness :
  exists c : Q,
    kriteria_kampanye Sample.data Sample.profil_0 "mencegah pelanggan churn" (0%Z, 0.0%Q)
      = Ok (5%Z, c) /\ (c == 1.0)%Q.
Proof.
  assert (H1 : Target_Churn Sample.profil_0 = true) by reflexivity.
  assert (H2 : exists m, col_mean Last_Purchase_Days_Ago Sample.data = Some m /\
                         (m < Last_Purchase_Days_Ago Sample.profil_0)%Q).
  { eexists. split; [reflexivity|]. vm_compute. reflexivity. }
  destruct (churn_objective_block Sample.data Sample.profil_0 150000 0 H1 H2)
    as [_ [_ [c1 [c2 [_ [_ [V [K _]]]]]]]].
  exists c2. split; [exact K|exact V].
Defined.

(** C6.  For every objective label outside the recognised set, the
    objective-specific block of the scorer leaves the score and the
    certainty factor as they were (contribution 0 and 0.0) and does not
    raise, the scorer returns the score and the combined certainty of the two
    general blocks alone, and backward chaining returns the empty list. *)
Theorem unrecognized_objective (tujuan : string) :
  ~ In tujuan tujuan_dikenal ->
  (forall df profile st, kriteria_kampanye df profile tujuan st = Ok st) /\
  (forall df profile harga,
     exists cf_total : Q,
       hitung_skor_prioritas_cf df profile harga tujuan
         = Ok (fst (spend profile harga (fst (daya_beli profile harga 0))), cf_total) /\
       Ok cf_total = obind (calculate_cf_combination
                              (snd (daya_beli profile harga 0))
                              (snd (spend profile harga (fst (daya_beli profile harga 0)))))
                           (fun c => calculate_cf_combination c 0.0%Q)) /\
  (forall df profiles descriptions n,
     backward_chaining df profiles descriptions n tujuan = Ok []).
Proof.
  intro N. split; [now apply kriteria_kampanye_unrecognized|].
  split; [|now apply backward_chaining_unrecognized].
  intros df profile harga. unfold hitung_skor_prioritas_cf.
  destruct (daya_beli profile harga 0) as [s1 d1] eqn:Edb.
  simpl fst; simpl snd.
  destruct (spend profile harga s1) as [s2 d2] eqn:Esp.
  simpl fst; simpl snd.
  rewrite (kriteria_kampanye_unrecognized tujuan N). simpl obind.
  assert (B1 : (0 <= d1 <= 1)%Q).
  { pose proof (daya_beli_cf profile harga 0) as H. now rewrite Edb in H. }
  assert (B2 : (0 <= d2 <= 1)%Q).
  { pose proof (spend_cf profile harga s1) as H. now rewrite Esp in H. }
  rewrite (combine_nonneg d1 d2) by (split; lra). simpl obind.
  rewrite (combine_nonneg _ 0.0%Q) by (split; [nra|lra]).
  eexists. split; reflexivity.
Qed.

(** An objective that is not one of the five. *)
Lemma unrecognized_objective_witness :
  kriteria_kampanye Sample.data Sample.profil_0 "menaikkan laba" (3%Z, 0.7%Q)
    = Ok (3%Z, 0.7%Q) /\
  backward_chaining Sample.data [] [] 2 "menaikkan laba" = Ok [].
Proof.
  assert (N : ~ In "menaikkan laba" tujuan_dikenal).
  { simpl. intros [H|[H|[H|[H|[H|[]]]]]]; discriminate H. }
  destruct (unrecognized_objective "menaikkan laba" N) as [K [_ B]].
  split; [apply K|apply B].
Defined.

End ObjectiveClaims.

Section CaseSensitivity.

Import CF Stats Profiles Scorer Rules Text Pipeline.

Open Scope string_scope.

(** The recognised labels are in lower case already. *)
Lemma tujuan_dikenal_lower (label : string) :
  In label tujuan_dikenal -> lower label = label.
Proof.
  simpl. intros [H|[H|[H|[H|[H|[]]]]]]; subst; reflexivity.
Qed.

Lemma other_casing_unrecognized (s : string) :
  s <> lower s -> ~ In s tujuan_dikenal.
Proof.
  intros N I. apply N. symmetry. now apply tujuan_dikenal_lower.
Qed.

(** C7, the counterexample.  "Mencegah Pelanggan Churn" is a casing of the
    recognised label "mencegah pelanggan churn", yet on the churn-flagged
    profile of the sample the objective-specific block adds 5 for the
    lower-case label and nothing for the capitalised one, and backward
    chaining finds segment 0 for the former and nothing for the latter: the
    comparison is sensitive to case. *)
Lemma objective_comparison_case_sensitive :
  lower "Mencegah Pelanggan Churn" = "mencegah pelanggan churn" /\
  kriteria_kampanye Sample.data Sample.profil_0 "Mencegah Pelanggan Churn" (0%Z, 0.0%Q)
    = Ok (0%Z, 0.0%Q) /\
  (exists c, kriteria_kampanye Sample.data Sample.profil_0 "mencegah pelanggan churn"
               (0%Z, 0.0%Q) = Ok (5%Z, c)) /\
  (let profiles := build_profiles (rows Sample.data) Sample.labels in
   let descriptions := [(0%nat, "a"); (1%nat, "b")] in
   backward_chaining Sample.data profiles descriptions 2 "Mencegah Pelanggan Churn" = Ok [] /\
   backward_chaining Sample.data profiles descriptions 2 "mencegah pelanggan churn"
     = Ok [ {| bc_Klaster_ID := 0; bc_Deskripsi := "a";
               bc_Strategi := "Luncurkan kampanye retensi agresif." |} ]).
Proof.
  split; [reflexivity|]. split; [reflexivity|].
  split; [eexists; vm_compute; reflexivity|].
  split; vm_compute; reflexivity.
Qed.

(** C7, as amended.  [run_full_analysis] compares the objective by exact
    string equality with the lower-case labels: a label that is another
    casing of a recognised one (its lower-case form is recognised, the label
    itself is not in lower case) is treated as unrecognised, so the
    objective-specific block contributes nothing and backward chaining
    returns the empty list.  Case is folded by the caller: [app.py] passes
    the lower-case form of the chosen label, so a run started there is the
    run for the lower-case label. *)
Theorem objective_compared_exactly (s : string) :
  In (lower s) tujuan_dikenal -> s <> lower s ->
  (forall df profile st, kriteria_kampanye df profile s st = Ok st) /\
  (forall df profiles descriptions n,
     backward_chaining df profiles descriptions n s = Ok []) /\
  (forall lib file_path n harga,
     app_run lib file_path n harga s = run lib file_path n harga (lower s)).
Proof.
  intros _ N. pose proof (other_casing_unrecognized s N) as U.
  split; [now apply kriteria_kampanye_unrecognized|].
  split; [now apply backward_chaining_unrecognized|].
  reflexivity.
Qed.

(** The capitalised label on the sample. *)
Lemma objective_compared_exactly_witness :
  kriteria_kampanye Sample.data Sample.profil_0 "Mencegah Pelanggan Churn" (0%Z, 0.0%Q)
    = Ok (0%Z, 0.0%Q) /\
  app_run Sample.lib "pelanggan.csv" 2 150000 "Mencegah Pelanggan Churn"
    = run Sample.lib "pelanggan.csv" 2 150000 "mencegah pelanggan churn".
Proof.
  assert (I : In (lower "Mencegah Pelanggan Churn") tujuan_dikenal)
    by (simpl; tauto).
  assert (N : "Mencegah Pelanggan Churn" <> lower "Mencegah Pelanggan Churn")
    by (intro H; discriminate H).
  destruct (objective_compared_exactly "Mencegah Pelanggan Churn" I N) as [K [_ A]].
  split; [apply K|apply A].
Defined.

End CaseSensitivity.

(** ** The order of the priority list *)

Section SortFacts.

Import Priority.

Context {A : Type} (key : A -> Z).

Lemma insert_by_perm (x : A) (l : list A) : Permutation (x :: l) (insert_by key x l).
Proof.
  induction l as [|y l IH]; simpl; [reflexivity|].
  destruct (key x <=? key y)%Z; [reflexivity|].
  rewrite perm_swap. now apply perm_skip.
Qed.

Lemma sort_by_perm (l : list A) : Permutation l (sort_by key l).
Proof.
  induction l as [|x l IH]; simpl; [reflexivity|].
  rewrite <- insert_by_perm. now apply perm_skip.
Qed.

Lemma insert_by_sorted (x : A) (l : list A) :
  StronglySorted (fun a b => (key a <= key b)%Z) l ->
  StronglySorted (fun a b => (key a <= key b)%Z) (insert_by key x l).
Proof.
  induction 1 as [|y l S IH F]; simpl.
  - constructor; constructor.
  - destruct (key x <=? key y)%Z eqn:E.
    + apply Z.leb_le in E. constructor; [now constructor|].
      constructor; [exact E|].
      eapply Forall_impl; [|exact F]. simpl. intros; lia.
    + apply Z.leb_gt in E. constructor; [exact IH|].
      apply (Permutation_Forall (insert_by_perm x l)).
      constructor; [lia|exact F].
Qed.

Lemma sort_by_sorted (l : list A) :
  StronglySorted (fun a b => (key a <= key b)%Z) (sort_by key l).
Proof.
  induction l as [|x l IH]; simpl; [constructor|]. now apply insert_by_sorted.
Qed.

(** An inserted element only passes elements of a strictly smaller key, so
    the elements of any one key keep their order. *)
Lemma insert_by_filter (k : Z) (x : A) (l : list A) :
  filter (has_key key k) (insert_by key x l) = filter (has_key key k) (x :: l).
Proof.
  induction l as [|y l IH]; [reflexivity|].
  simpl insert_by. destruct (key x <=? key y)%Z eqn:E; [reflexivity|].
  apply Z.leb_gt in E.
  change (filter (has_key key k) (y :: insert_by key x l))
    with (if has_key key k y then y :: filter (has_key key k) (insert_by key x l)
          else filter (has_key key k) (insert_by key x l)).
  rewrite IH. simpl. unfold has_key.
  destruct (key y =? k)%Z eqn:Ey, (key x =? k)%Z eqn:Ex; try reflexivity.
  apply Z.eqb_eq in Ey, Ex. lia.
Qed.

Lemma sort_by_stable (k : Z) (l : list A) :
  filter (has_key key k) (sort_by key l) = filter (has_key key k) l.
Proof.
  induction l as [|x l IH]; [reflexivity|].
  simpl sort_by. rewrite insert_by_filter. simpl. now rewrite IH.
Qed.

Lemma StronglySorted_snoc (R : A -> A -> Prop) (l : list A) (x : A) :
  StronglySorted R l -> Forall (fun y => R y x) l -> StronglySorted R (l ++ [x]).
Proof.
  induction 1 as [|y l S IH F]; intro H; simpl.
  - constructor; constructor.
  - inversion H; subst. constructor; [now apply IH|].
    apply Forall_app. split; [exact F|]. now constructor.
Qed.

Lemma StronglySorted_rev (R : A -> A -> Prop) (l : list A) :
  StronglySorted R l -> StronglySorted (fun a b => R b a) (List.rev l).
Proof.
  induction 1 as [|y l S IH F]; simpl; [constructor|].
  apply StronglySorted_snoc; [exact IH|]. now apply Forall_rev.
Qed.

Lemma list_sort_reverse_perm (l : list A) : Permutation l (list_sort key true l).
Proof.
  unfold list_sort. rewrite <- Permutation_rev, <- sort_by_perm. apply Permutation_rev.
Qed.

Lemma list_sort_reverse_sorted (l : list A) :
  StronglySorted (fun a b => (key a >= key b)%Z) (list_sort key true l).
Proof.
  unfold list_sort.
  pose proof (StronglySorted_rev _ _ (sort_by_sorted (List.rev l))) as H.
  induction H; constructor; [assumption|].
  eapply Forall_impl; [|eassumption]. simpl. intros; lia.
Qed.

Lemma list_sort_reverse_stable (k : Z) (l : list A) :
  filter (has_key key k) (list_sort key true l) = filter (has_key key k) l.
Proof.
  unfold list_sort. rewrite filter_rev, sort_by_stable, filter_rev. apply rev_involutive.
Qed.

End SortFacts.

Section SortKeyOnly.

Import Priority.

Context {A B : Type} (key : A -> Z) (key' : B -> Z) (g : A -> B).
Hypothesis key_g : forall x, key' (g x) = key x.

(** The sort reads its elements through the key only. *)
Lemma insert_by_map (x : A) (l : list A) :
  map g (insert_by key x l) = insert_by key' (g x) (map g l).
Proof.
  induction l as [|y l IH]; [reflexivity|].
  simpl. rewrite !key_g. destruct (key x <=? key y)%Z; [reflexivity|].
  simpl. now rewrite IH.
Qed.

Lemma sort_by_map (l : list A) : map g (sort_by key l) = sort_by key' (map g l).
Proof.
  induction l as [|x l IH]; [reflexivity|].
  simpl. now rewrite insert_by_map, IH.
Qed.

Lemma list_sort_map (reverse : bool) (l : list A) :
  map g (list_sort key reverse l) = list_sort key' reverse (map g l).
Proof.
  unfold list_sort. destruct reverse; [|apply sort_by_map].
  now rewrite map_rev, sort_by_map, map_rev.
Qed.

End SortKeyOnly.

Section PriorityOrder.

Import Priority Rules Pipeline.

Lemma for_each_map {X Y : Type} (body : X -> Outcome Y) (f : Y -> X) (xs : list X)
    (ys : list Y) :
  (forall x y, body x = Ok y -> f y = x) ->
  for_each body xs = Ok ys -> map f ys = xs.
Proof.
  intro H. revert ys. induction xs as [|x xs IH]; intros ys E; simpl in E.
  - now injection E as <-.
  - destruct (body x) as [y|] eqn:Ey; [|discriminate E]. simpl in E.
    destruct (for_each body xs) as [ys'|]; [|discriminate E]. simpl in E.
    injection E as <-. simpl. f_equal; [now apply H|now apply IH].
Qed.

(** The list built by the scoring loop lists the segment ids in ascending
    order, [0 .. K-1]. *)
Lemma score_clusters_ids (df : DataFrame) (profiles : list (nat * Profile))
    (descriptions : list (nat * string)) (n : nat) (harga : Q) (tujuan : string)
    (l : list Prioritas) :
  score_clusters df profiles descriptions n harga tujuan = Ok l ->
  map Klaster_ID l = seq 0 n.
Proof.
  apply for_each_map. intros cid y E.
  destruct (Profiles.loc profiles cid); [|discriminate E]. simpl in E.
  destruct (Scorer.hitung_skor_prioritas_cf _ _ _ _); [|discriminate E]. simpl in E.
  destruct (Profiles.loc descriptions cid); [|discriminate E]. simpl in E.
  now injection E as <-.
Qed.

Lemma StronglySorted_filter_map {X : Type} (f : X -> nat) (p : X -> bool) (l : list X) :
  StronglySorted lt (map f l) -> StronglySorted lt (map f (filter p l)).
Proof.
  induction l as [|x l IH]; simpl; intro S; [constructor|].
  apply StronglySorted_inv in S. destruct S as [S F].
  destruct (p x); [|now apply IH]. simpl. constructor; [now apply IH|].
  rewrite Forall_map in *. rewrite Forall_forall in *.
  intros y I. apply F. apply filter_In in I. tauto.
Qed.

Lemma seq_StronglySorted (start len : nat) : StronglySorted lt (seq start len).
Proof.
  revert start. induction len as [|len IH]; intro start; simpl; constructor.
  - apply IH.
  - apply Forall_forall. intros y I. apply in_seq in I. lia.
Qed.

(** The sort of the priority list: the sorted list is a permutation of its
    input, its scores never increase, the entries of any one score keep their
    input order, two lists that agree on ids and scores are put in the same
    order, and on the list built by the scoring loop the entries of one score
    are listed by ascending id. *)
Lemma sort_prioritas_spec (l : list Prioritas) :
  Permutation l (sort_prioritas l) /\
  StronglySorted (fun a b => (Skor_Prioritas a >= Skor_Prioritas b)%Z) (sort_prioritas l) /\
  (forall k, filter (has_key Skor_Prioritas k) (sort_prioritas l)
             = filter (has_key Skor_Prioritas k) l) /\
  (forall l',
     map (fun p => (Klaster_ID p, Skor_Prioritas p)) l'
       = map (fun p => (Klaster_ID p, Skor_Prioritas p)) l ->
     map Klaster_ID (sort_prioritas l') = map Klaster_ID (sort_prioritas l)) /\
  (forall df profiles descriptions n harga tujuan,
     score_clusters df profiles descriptions n harga tujuan = Ok l ->
     map Klaster_ID l = seq 0 n /\
     forall k, StronglySorted lt
                 (map Klaster_ID (filter (has_key Skor_Prioritas k) (sort_prioritas l)))).
Proof.
  unfold sort_prioritas.
  split; [apply list_sort_reverse_perm|].
  split; [apply list_sort_reverse_sorted|].
  split; [intro k; apply list_sort_reverse_stable|].
  split.
  - intros l' E.
    set (g := fun p : Prioritas => (Klaster_ID p, Skor_Prioritas p)) in *.
    assert (M : forall m, map Klaster_ID (list_sort Skor_Prioritas true m)
                          = map fst (list_sort snd true (map g m))).
    { intro m. rewrite <- (list_sort_map Skor_Prioritas snd g) by reflexivity.
      rewrite map_map. reflexivity. }
    now rewrite !M, E.
  - intros df profiles descriptions n harga tujuan E.
    pose proof (score_clusters_ids _ _ _ _ _ _ _ E) as I.
    split; [exact I|]. intro k. rewrite list_sort_reverse_stable.
    apply StronglySorted_filter_map. rewrite I. apply seq_StronglySorted.
Qed.

End PriorityOrder.

(** A list sorted by descending score whose entries of one score are in
    ascending order of id is sorted for [ranked_before]. *)
Lemma ranked_of_stable (l : list Priority.Prioritas) :
  StronglySorted (fun a b => (Priority.Skor_Prioritas a >= Priority.Skor_Prioritas b)%Z) l ->
  (forall k, StronglySorted lt
               (map Priority.Klaster_ID
                    (filter (Priority.has_key Priority.Skor_Prioritas k) l))) ->
  StronglySorted Priority.ranked_before l.
Proof.
  induction l as [|a l IH]; intros S T; [constructor|].
  inversion S as [|a' l' S' F]; subst. constructor.
  - apply IH; [exact S'|]. intro k. specialize (T k). simpl in T.
    destruct (Priority.has_key Priority.Skor_Prioritas k a); [|exact T].
    simpl in T. now inversion T.
  - apply Forall_forall. intros b I. rewrite Forall_forall in F.
    pose proof (F b I) as G.
    destruct (Z.eq_dec (Priority.Skor_Prioritas a) (Priority.Skor_Prioritas b)) as [E|N].
    + right. split; [exact E|].
      specialize (T (Priority.Skor_Prioritas a)). simpl in T.
      assert (Ka : Priority.has_key Priority.Skor_Prioritas (Priority.Skor_Prioritas a) a = true)
        by (unfold Priority.has_key; apply Z.eqb_refl).
      assert (Kb : Priority.has_key Priority.Skor_Prioritas (Priority.Skor_Prioritas a) b = true)
        by (unfold Priority.has_key; rewrite <- E; apply Z.eqb_refl).
      rewrite Ka in T. simpl in T. inversion T as [|x xs _ Fa]; subst.
      rewrite Forall_forall in Fa. apply Fa. apply in_map.
      apply filter_In. now split.
    + left. lia.
Qed.

(** ** The orchestrator: early exits *)

Section EarlyExits.

Import Pipeline.

Open Scope string_scope.

Lemma has_column_In (df : DataFrame) (col : string) :
  has_column df col = true <-> In col (columns df).
Proof.
  unfold has_column. rewrite existsb_exists. split.
  - intros [c [I E]]. apply String.eqb_eq in E. now subst.
  - intro I. exists col. split; [exact I|apply String.eqb_refl].
Qed.

Lemma first_missing_none (df : DataFrame) (cols : list string) :
  first_missing df cols = None <-> (forall col, In col cols -> In col (columns df)).
Proof.
  induction cols as [|c cols IH]; simpl.
  - split; [intros _ col []|reflexivity].
  - destruct (has_column df c) eqn:E.
    + apply has_column_In in E. rewrite IH. split.
      * intros H col [<-|I]; [exact E|now apply H].
      * intros H col I. apply H. now right.
    + split; [discriminate|]. intro H.
      assert (T : has_column df c = true) by (apply has_column_In, H; now left).
      congruence.
Qed.

(** The column reported is the first one, in the order of the two lists,
    that the table lacks. *)
Lemma first_missing_some (df : DataFrame) (cols : list string) (col : string) :
  first_missing df cols = Some col ->
  exists before after,
    cols = (before ++ col :: after)%list /\
    ~ In col (columns df) /\
    (forall c, In c before -> In c (columns df)).
Proof.
  induction cols as [|c cols IH]; simpl; [discriminate|].
  destruct (has_column df c) eqn:E.
  - intro H. destruct (IH H) as [before [after [-> [N B]]]].
    exists (c :: before), after. repeat split; try assumption.
    intros c' [<-|I]; [now apply has_column_In|now apply B].
  - intro H. injection H as <-. exists [], cols. repeat split.
    + intro I. apply has_column_In in I. congruence.
    + intros c' [].
Qed.

Lemma run_after_read (lib : Oracle) (file_path : string) (n : nat) (harga : Q)
    (tujuan : string) (df : DataFrame) :
  read_csv lib file_path = Ok df ->
  run lib file_path n harga tujuan =
  match first_missing df required with
  | Some col => ([EvReadCsv file_path], Ok (ErrorDict (pesan_kolom col)))
  | None =>
      bind (analyse lib df n harga tujuan) (fun r => ret (ResultDict r))
           [EvReadCsv file_path]
  end.
Proof.
  intro H. unfold run, run_full_analysis, call. now rewrite H.
Qed.

(** C10.  When [pd.read_csv] raises [FileNotFoundError] for the path,
    [run_full_analysis] raises nothing and returns the dictionary whose only
    entry is ["error"], with a message that ends with the path; the only
    library call made is the attempt to read the file. *)
Theorem missing_file_error (lib : Oracle) (file_path : string) (n : nat) (harga : Q)
    (tujuan : string) :
  read_csv lib file_path = Raise FileNotFoundError ->
  run lib file_path n harga tujuan
    = ([EvReadCsv file_path], Ok (ErrorDict (pesan_file file_path))) /\
  keys (ErrorDict (pesan_file file_path)) = ["error"] /\
  pesan_file file_path = "File tidak ditemukan di path: " ++ file_path.
Proof.
  intro H. unfold run, run_full_analysis, call. rewrite H. repeat split.
Qed.

(** A path that the sample libraries do not know. *)
Lemma missing_file_error_witness :
  run Sample.lib "tidak_ada.csv" 3 150000 "mencegah pelanggan churn"
    = ([EvReadCsv "tidak_ada.csv"],
       Ok (ErrorDict "File tidak ditemukan di path: tidak_ada.csv")).
Proof.
  exact (proj1 (missing_file_error Sample.lib "tidak_ada.csv" 3 150000
                  "mencegah pelanggan churn" eq_refl)).
Defined.

(** C2.  When the table lacks a required numeric or categorical column,
    [run_full_analysis] returns the dictionary whose only entry is ["error"],
    with a message that names the first such column, and the log shows the
    reading of the file and nothing else: no scaling, encoding or clustering
    was started and no result is returned.  When every required column is
    present, no error dictionary is returned. *)
Theorem missing_column_fails_fast (lib : Oracle) (file_path : string) (n : nat)
    (harga : Q) (tujuan : string) (df : DataFrame) :
  read_csv lib file_path = Ok df ->
  ((exists col, In col required /\ ~ In col (columns df)) ->
   exists col,
     In col required /\ ~ In col (columns df) /\
     first_missing df required = Some col /\
     run lib file_path n harga tujuan
       = ([EvReadCsv file_path], Ok (ErrorDict (pesan_kolom col))) /\
     keys (ErrorDict (pesan_kolom col)) = ["error"] /\
     pesan_kolom col
       = "Kolom yang dibutuhkan '" ++ col ++ "' tidak ditemukan di dalam file CSV Anda.") /\
  ((forall col, In col required -> In col (columns df)) ->
   forall msg, snd (run lib file_path n harga tujuan) <> Ok (ErrorDict msg)).
Proof.
  intro R. rewrite (run_after_read _ _ _ _ _ _ R). split.
  - intros [c [I N]].
    destruct (first_missing df required) as [col|] eqn:F.
    + destruct (first_missing_some _ _ _ F) as [before [after [E [M _]]]].
      exists col. repeat split; try assumption.
      rewrite E. apply in_or_app. right. now left.
    + exfalso. apply N. now apply (proj1 (first_missing_none df required) F).
  - intros A msg. rewrite (proj2 (first_missing_none df required) A).
    unfold bind, ret.
    destruct (analyse lib df n harga tujuan [EvReadCsv file_path]) as [t [r|e]];
      simpl; discriminate.
Qed.

(** The sample table without its column [Total_Spend]. *)
Lemma missing_column_fails_fast_witness :
  exists col,
    In col required /\ ~ In col (columns Sample.data_tanpa_kolom) /\
    run Sample.lib "tanpa_kolom.csv" 3 150000 "mencegah pelanggan churn"
      = ([EvReadCsv "tanpa_kolom.csv"], Ok (ErrorDict (pesan_kolom col))).
Proof.
  assert (M : exists col, In col required /\ ~ In col (columns Sample.data_tanpa_kolom)).
  { exists "Total_Spend". split; [simpl; tauto|].
    simpl. intros H. repeat (destruct H as [H|H]; [discriminate H|]). exact H. }
  destruct (proj1 (missing_column_fails_fast Sample.lib "tanpa_kolom.csv" 3 150000
                     "mencegah pelanggan churn" Sample.data_tanpa_kolom eq_refl) M)
    as [col [I [N [_ [E _]]]]].
  exists col. repeat split; assumption.
Defined.

End EarlyExits.

(** ** The orchestrator: a degenerate partition *)

Section Degenerate.

Import Profiles Rules Pipeline.

Lemma bind_ok {X Y : Type} (m : M X) (k : X -> M Y) (t t' : list Event) (x : X) :
  m t = (t', Ok x) -> bind m k t = k x t'.
Proof. intro H. unfold bind. now rewrite H. Qed.

Lemma bind_raise {X Y : Type} (m : M X) (k : X -> M Y) (t t' : list Event) (e : Exn) :
  m t = (t', Raise e) -> bind m k t = (t', Raise e).
Proof. intro H. unfold bind. now rewrite H. Qed.

Lemma assoc_map_keys {X : Type} (f : nat -> X) (ks : list nat) (i : nat) :
  assoc i (map (fun k => (k, f k)) ks) =
  if existsb (Nat.eqb i) ks then Some (f i) else None.
Proof.
  induction ks as [|k ks IH]; [reflexivity|].
  simpl. rewrite (Nat.eqb_sym i k).
  destruct (Nat.eqb_spec k i) as [->|N]; [reflexivity|exact IH].
Qed.

Lemma existsb_eqb_In (i : nat) (l : list nat) :
  existsb (Nat.eqb i) l = true <-> In i l.
Proof.
  rewrite existsb_exists. split.
  - intros [x [I E]]. apply Nat.eqb_eq in E. now subst.
  - intro I. exists i. split; [exact I|apply Nat.eqb_refl].
Qed.

Lemma group_keys_In (labels : list nat) (i : nat) :
  In i (group_keys labels) <-> In i labels.
Proof.
  unfold group_keys. rewrite filter_In, in_seq, existsb_eqb_In. split; [tauto|].
  intro I. split; [|exact I].
  assert (H : Forall (fun k => k <= list_max labels)%nat labels)
    by now apply list_max_le.
  rewrite Forall_forall in H. specialize (H i I). lia.
Qed.

(** A segment id has a profile exactly when some record carries it. *)
Lemma loc_build_profiles (rs : list Row) (labels : list nat) (i : nat) :
  (In i labels -> loc (build_profiles rs labels) i = Ok (agg (members rs labels i))) /\
  (~ In i labels -> loc (build_profiles rs labels) i = Raise (KeyError i)).
Proof.
  unfold loc, build_profiles. rewrite assoc_map_keys.
  destruct (existsb (Nat.eqb i) (group_keys labels)) eqn:E.
  - apply existsb_eqb_In in E. apply (proj1 (group_keys_In _ _)) in E. split; [reflexivity|intro; contradiction].
  - split; [|reflexivity]. intro I.
    apply (proj2 (group_keys_In _ _)) in I. apply (proj2 (existsb_eqb_In _ _)) in I.
      congruence.
Qed.

(** The groups of [groupby] are never empty. *)
Lemma members_nonempty (rs : list Row) (labels : list nat) (i : nat) :
  List.length labels = List.length rs -> In i labels -> members rs labels i <> [].
Proof.
  revert labels. induction rs as [|r rs IH]; intros [|k labels] L I; simpl in *;
    try contradiction; try discriminate.
  unfold members. simpl. destruct (Nat.eqb_spec k i) as [->|N]; [discriminate|].
  destruct I as [E|I]; [congruence|]. apply IH; [lia|exact I].
Qed.

(** The description loop stops at the first segment id without a profile. *)
Lemma describe_from (df : DataFrame) (profiles : list (nat * Profile)) (len s : nat) :
  (exists i, (s <= i < s + len)%nat /\ assoc i profiles = None) ->
  exists i,
    (s <= i < s + len)%nat /\ assoc i profiles = None /\
    (forall j, (s <= j < i)%nat -> assoc j profiles <> None) /\
    for_each
      (fun i => obind (loc profiles i)
                      (fun p => Ok (i, Describe.cluster_description df i p)))
      (seq s len) = Raise (KeyError i).
Proof.
  revert s. induction len as [|len IH]; intros s [i [B N]]; [lia|].
  simpl. unfold loc at 1. destruct (assoc s profiles) as [p|] eqn:E.
  - assert (B' : (S s <= i < S s + len)%nat).
    { destruct (Nat.eq_dec i s) as [->|D]; [congruence|lia]. }
    destruct (IH (S s) (ex_intro _ i (conj B' N))) as [i0 [B0 [N0 [L0 R0]]]].
    exists i0. split; [lia|]. split; [exact N0|]. split.
    + intros j J. destruct (Nat.eq_dec j s) as [->|D]; [congruence|]. apply L0. lia.
    + simpl. now rewrite R0.
  - exists s. split; [lia|]. split; [exact E|]. split; [intros j J; lia|reflexivity].
Qed.

Lemma describe_clusters_degenerate (df : DataFrame) (rs : list Row) (labels : list nat)
    (n : nat) :
  (exists i, (i < n)%nat /\ ~ In i labels) ->
  exists i,
    (i < n)%nat /\ ~ In i labels /\ (forall j, (j < i)%nat -> In j labels) /\
    describe_clusters df (build_profiles rs labels) n = Raise (KeyError i).
Proof.
  intros [i [B N]].
  assert (A : forall k, assoc k (build_profiles rs labels) = None <-> ~ In k labels).
  { intro k. unfold build_profiles. rewrite assoc_map_keys.
    destruct (existsb (Nat.eqb k) (group_keys labels)) eqn:E.
    - apply existsb_eqb_In in E. apply (proj1 (group_keys_In _ _)) in E. split; [discriminate|intro; contradiction].
    - split; [|reflexivity]. intros _ I.
      apply (proj2 (group_keys_In _ _)) in I. apply (proj2 (existsb_eqb_In _ _)) in I.
      congruence. }
  destruct (describe_from df (build_profiles rs labels) n 0) as [i0 [B0 [N0 [L0 R0]]]].
  { exists i. split; [lia|]. now apply A. }
  exists i0. split; [lia|]. split; [now apply A|]. split; [|exact R0].
  intros j J. destruct (in_dec Nat.eq_dec j labels) as [I|I]; [exact I|].
  exfalso. apply (L0 j); [lia|]. now apply A.
Qed.

End Degenerate.

Section DegenerateClaims.

Import Profiles Rules Pipeline.

Open Scope string_scope.

(** C8, the counterexample.  On the sample the fitted partition for K = 3
    has two non-empty groups only; no error dictionary is returned for it,
    the run is aborted by the [KeyError] of the profile lookup for segment 2. *)
Lemma degenerate_partition_not_reported :
  (exists fitted, kmeans Sample.lib 3 [] = Ok fitted /\
                  labels_ fitted = Sample.labels /\ ~ In 2%nat (labels_ fitted)) /\
  snd (run Sample.lib "pelanggan.csv" 3 150000 "mencegah pelanggan churn")
    = Raise (KeyError 2) /\
  (forall msg, snd (run Sample.lib "pelanggan.csv" 3 150000 "mencegah pelanggan churn")
               <> Ok (ErrorDict msg)).
Proof.
  split.
  - eexists. split; [reflexivity|]. split; [reflexivity|].
    simpl. intro H. repeat (destruct H as [H|H]; [discriminate H|]). exact H.
  - assert (E : snd (run Sample.lib "pelanggan.csv" 3 150000 "mencegah pelanggan churn")
                = Raise (KeyError 2)) by (vm_compute; reflexivity).
    split; [exact E|]. intro msg. rewrite E. discriminate.
Qed.

(** C8, as amended.  The code makes no check of the fitted partition and has
    no error for a degenerate one.  When the reading, the column check, the
    preprocessing and the evaluation sweep have succeeded and the labels
    fitted for K leave some segment id below K without a record,
    [run_full_analysis] returns nothing, neither results nor an error
    dictionary: the profile lookup for the smallest such id raises
    [KeyError], right after the clustering call. *)
Theorem degenerate_partition_raises (lib : Oracle) (file_path : string) (n : nat)
    (harga : Q) (tujuan : string) (df : DataFrame) (X1 X2 : Matrix)
    (t : list Event) (fig : Figure) (fitted : KMeansFit) :
  read_csv lib file_path = Ok df ->
  (forall col, In col required -> In col (columns df)) ->
  standard_scaler lib (rows df) = Ok X1 ->
  one_hot_encoder lib (rows df) = Ok X2 ->
  evaluate lib (concat_columns X1 X2)
           [EvReadCsv file_path; EvStandardScaler; EvOneHotEncoder] = (t, Ok fig) ->
  kmeans lib n (concat_columns X1 X2) = Ok fitted ->
  List.length (labels_ fitted) = List.length (rows df) ->
  (exists i, (i < n)%nat /\ ~ In i (labels_ fitted)) ->
  exists i,
    (i < n)%nat /\ ~ In i (labels_ fitted) /\
    (forall j, (j < i)%nat -> In j (labels_ fitted)) /\
    run lib file_path n harga tujuan = ((t ++ [EvKMeans n])%list, Raise (KeyError i)) /\
    (forall d, snd (run lib file_path n harga tujuan) <> Ok d).
Proof.
  intros R A S1 S2 Ev Km Len D.
  destruct (describe_clusters_degenerate
              {| columns := if has_column df "Cluster" then columns df
                            else (columns df ++ ["Cluster"])%list;
                 rows := rows df |}
              (rows df) (labels_ fitted) n D) as [i [B [N [L Dc]]]].
  exists i. split; [exact B|]. split; [exact N|]. split; [exact L|].
  assert (Run : run lib file_path n harga tujuan
                = ((t ++ [EvKMeans n])%list, Raise (KeyError i))).
  { rewrite (run_after_read _ _ _ _ _ _ R).
    rewrite (proj2 (first_missing_none df required) A).
    unfold analyse.
    apply bind_raise.
    erewrite bind_ok by (unfold call; rewrite S1; reflexivity).
    erewrite bind_ok by (unfold call; rewrite S2; reflexivity).
    erewrite bind_ok by (simpl; exact Ev).
    erewrite bind_ok by (unfold call; rewrite Km; reflexivity).
    unfold set_cluster. rewrite Len, Nat.eqb_refl.
    erewrite bind_ok by (unfold lift; reflexivity).
    cbn [frame Cluster rows].
    apply bind_raise. unfold lift. now rewrite Dc. }
  split; [exact Run|]. intro d. rewrite Run. discriminate.
Qed.

(** Three clusters asked for on the sample, which has two groups. *)
Lemma degenerate_partition_raises_witness :
  exists t, run Sample.lib "pelanggan.csv" 3 150000 "mencegah pelanggan churn"
            = (t, Raise (KeyError 2)).
Proof.
  destruct (standard_scaler Sample.lib (rows Sample.data)) as [X1|e] eqn:S1;
    [|vm_compute in S1; discriminate S1].
  destruct (one_hot_encoder Sample.lib (rows Sample.data)) as [X2|e] eqn:S2;
    [|vm_compute in S2; discriminate S2].
  destruct (evaluate Sample.lib (concat_columns X1 X2)
              [EvReadCsv "pelanggan.csv"; EvStandardScaler; EvOneHotEncoder])
    as [t [fig|e]] eqn:Ev; [|vm_compute in Ev; discriminate Ev].
  assert (A : forall col, In col required -> In col (columns Sample.data)).
  { intros col I. simpl. right. exact I. }
  assert (D : exists i, (i < 3)%nat /\ ~ In i Sample.labels).
  { exists 2%nat. split; [lia|]. simpl. intro H.
    repeat (destruct H as [H|H]; [discriminate H|]). exact H. }
  destruct (degenerate_partition_raises Sample.lib "pelanggan.csv" 3 150000
              "mencegah pelanggan churn" Sample.data X1 X2 t fig
              {| inertia_ := 0; labels_ := Sample.labels |}
              eq_refl A S1 S2 Ev eq_refl eq_refl D)
    as [i [B [N [L [Run _]]]]].
  assert (I2 : i = 2%nat).
  { destruct (Nat.eq_dec i 0) as [->|N0]; [exfalso; apply N; simpl; tauto|].
    destruct (Nat.eq_dec i 1) as [->|N1]; [exfalso; apply N; simpl; tauto|]. lia. }
  subst i. eexists. exact Run.
Defined.

End DegenerateClaims.

(** ** Rounding and the rendering of numbers *)

Section RoundingFacts.

Import Text.

Lemma Qltb_comp (x x' y y' : Q) : x == x' -> y == y' -> Qltb x y = Qltb x' y'.
Proof. intros Hx Hy. unfold Qltb. now rewrite Hx, Hy. Qed.

Lemma round_half_even_comp (q q' : Q) : q == q' -> round_half_even q = round_half_even q'.
Proof.
  intro H. unfold round_half_even. rewrite (Qfloor_comp _ _ H).
  rewrite (Qltb_comp (q - inject_Z (Qfloor q')) (q' - inject_Z (Qfloor q')) (1 # 2) (1 # 2))
    by (rewrite ?H; reflexivity).
  rewrite (Qltb_comp (1 # 2) (1 # 2) (q - inject_Z (Qfloor q')) (q' - inject_Z (Qfloor q')))
    by (rewrite ?H; reflexivity).
  reflexivity.
Qed.



Lemma round_half_even_Z (n : Z) : round_half_even (inject_Z n) = n.
Proof.
  unfold round_half_even. rewrite Qfloor_Z.
  assert (E : Qltb (inject_Z n - inject_Z n) (1 # 2) = true)
    by (apply Qltb_lt; generalize (inject_Z n); intro x; lra).
  now rewrite E.
Qed.



Lemma round2_hundredths (q : Q) : round2 q * 100 == inject_Z (round_half_even (q * 100)).
Proof. unfold round2. field. Qed.


Lemma round2_idempotent (q : Q) : round2 (round2 q) == round2 q.
Proof.
  unfold round2 at 1.
  rewrite (round_half_even_comp _ _ (round2_hundredths q)), round_half_even_Z.
  reflexivity.
Qed.



End RoundingFacts.

Section ReadingFacts.

Import Text Reading.

Open Scope string_scope.












End ReadingFacts.

Section RenderingFacts.

Import Text Reading.

Open Scope string_scope.






End RenderingFacts.

Section DescriptionClaims.

Import Text Reading Stats Profiles Describe.

Open Scope string_scope.





End DescriptionClaims.


(** ** The scorer never divides by zero *)

Section ScorerSafety.

Import CF Stats Scorer.

Open Scope string_scope.

(** A criterion keeps the certainty factor of the block within [0, 1]. *)
Lemma kriteria_safe (cond : bool) (poin : Z) (level : string) (skor : Z) (c : Q) :
  (0 <= cf level <= 1)%Q -> (0 <= c <= 1)%Q ->
  exists skor' c', kriteria cond poin level (skor, c) = Ok (skor', c') /\
                   (0 <= c' <= 1)%Q.
Proof.
  intros L C. destruct cond.
  - exists (skor + poin)%Z, (c + cf level * (1 - c))%Q. split.
    + apply kriteria_fires. apply combine_nonneg. split; lra.
    + split; nra.
  - exists skor, c. split; [reflexivity|exact C].
Qed.

Lemma levels_in_unit :
  (0 <= cf "pasti" <= 1)%Q /\ (0 <= cf "hampir_pasti" <= 1)%Q /\ (0 <= cf "tinggi" <= 1)%Q.
Proof. repeat split; vm_compute; discriminate. Qed.

Lemma kriteria_kampanye_safe (df : DataFrame) (profile : Profile) (tujuan : string)
    (skor : Z) :
  exists skor' c', kriteria_kampanye df profile tujuan (skor, 0.0%Q) = Ok (skor', c') /\
                   (0 <= c' <= 1)%Q.
Proof.
  destruct levels_in_unit as [P [H T]].
  assert (Z0 : (0 <= 0.0 <= 1)%Q) by (split; lra).
  unfold kriteria_kampanye.
  repeat match goal with
  | |- context [if ?b then _ else _] => destruct b
  | |- exists s c, obind (kriteria ?cond ?poin ?level (?s0, ?c0)) _ = _ /\ _ =>
      let s1 := fresh "s" in let c1 := fresh "c" in
      let E := fresh "E" in let B := fresh "B" in
      destruct (kriteria_safe cond poin level s0 c0) as [s1 [c1 [E B]]];
        [assumption|assumption|rewrite E; cbn [obind]]
  | |- exists s c, kriteria ?cond ?poin ?level (?s0, ?c0) = _ /\ _ =>
      apply kriteria_safe; assumption
  | |- exists s c, Ok (?s0, ?c0) = _ /\ _ =>
      exists s0, c0; split; [reflexivity|assumption]
  end.
Qed.

(** Whatever the table, the profile, the price and the objective,
    [hitung_skor_prioritas_cf] returns a score and a certainty factor in
    [0, 1]: the mixed-sign division is never reached from the pipeline. *)
Lemma hitung_skor_never_raises (df : DataFrame) (profile : Profile) (harga : Q)
    (tujuan : string) :
  exists skor cf_total,
    hitung_skor_prioritas_cf df profile harga tujuan = Ok (skor, cf_total) /\
    (0 <= cf_total <= 1)%Q.
Proof.
  destruct (daya_beli profile harga 0) as [s1 c1] eqn:Edb.
  destruct (spend profile harga s1) as [s2 c2] eqn:Esp.
  destruct (kriteria_kampanye_safe df profile tujuan s2) as [s3 [c3 [K B]]].
  destruct (hitung_skor_shape df profile harga tujuan s1 s2 s3 c1 c2 c3 Edb Esp K B)
    as [t [Ht [_ Bt]]].
  now exists s3, t.
Qed.

End ScorerSafety.

(** ** The pipeline on the sample *)

Section SampleRun.

Import Pipeline Priority.

Open Scope string_scope.

(** With two clusters the run on the sample completes: the log shows the
    preprocessing, the nine fits of the sweep, the final fit and the
    classifier; segment 0 is ranked first, with score 7 against 5; no
    backward rule exists for this objective, so the plan comes from the first
    forward rule that fires for segment 0, and every entry of the result is
    present. *)
Example sample_run_two_clusters :
  exists r,
    run Sample.lib "pelanggan.csv" 2 150000 "meningkatkan penjualan umum"
      = ([EvReadCsv "pelanggan.csv"; EvStandardScaler; EvOneHotEncoder;
          EvKMeans 2; EvSilhouette; EvKMeans 3; EvSilhouette; EvKMeans 4; EvSilhouette;
          EvKMeans 5; EvSilhouette; EvKMeans 6; EvSilhouette; EvKMeans 7; EvSilhouette;
          EvKMeans 8; EvSilhouette; EvKMeans 9; EvSilhouette; EvKMeans 10; EvSilhouette;
          EvKMeans 2; EvGaussianNB],
         Ok (ResultDict r)) /\
    map (fun p => (Klaster_ID p, Skor_Prioritas p)) (prioritas_klaster r)
      = [(0%nat, 7%Z); (1%nat, 5%Z)] /\
    backward_chaining_results r = [] /\
    top_strategy_for_plan r = Some "Luncurkan kampanye retensi dengan diskon menarik" /\
    keys (ResultDict r)
      = ["evaluation_plot"; "df_with_clusters"; "cluster_profiles"; "cluster_descriptions";
         "prioritas_klaster"; "forward_chaining_results"; "backward_chaining_results";
         "hierarchical_plan"; "top_strategy_for_plan"; "final_summary"].
Proof.
  eexists. split; [vm_compute; reflexivity|].
  split; [vm_compute; reflexivity|]. split; [vm_compute; reflexivity|].
  split; vm_compute; reflexivity.
Qed.

End SampleRun.

(** * Further properties of the code *)

(** ** The algebra of [calculate_cf_combination] *)

Section CFAlgebra.

Import CF.

Lemma py_truediv_comp (x x' y y' : Q) :
  x == x' -> y == y' ->
  (py_truediv x y = Raise ZeroDivisionError /\ py_truediv x' y' = Raise ZeroDivisionError) \/
  (py_truediv x y = Ok (x / y) /\ py_truediv x' y' = Ok (x' / y') /\ x / y == x' / y').
Proof.
  intros Hx Hy. destruct (Qeq_dec y 0) as [Z|N].
  - left. split; apply py_truediv_zero; [exact Z|now rewrite <- Hy].
  - right. split; [now apply py_truediv_nonzero|].
    split; [apply py_truediv_nonzero; now rewrite <- Hy|now rewrite Hx, Hy].
Qed.

Lemma mixed_sign_sym (cf1 cf2 : Q) : mixed_sign cf1 cf2 -> mixed_sign cf2 cf1.
Proof. unfold mixed_sign. tauto. Qed.

(** In exact arithmetic the two orders of the arguments agree. *)
Lemma combine_comm (cf1 cf2 : Q) :
  (forall v, calculate_cf_combination cf1 cf2 = Ok v ->
             exists w, calculate_cf_combination cf2 cf1 = Ok w /\ w == v) /\
  (forall e, calculate_cf_combination cf1 cf2 = Raise e ->
             calculate_cf_combination cf2 cf1 = Raise e).
Proof.
  destruct (sign_classes cf1 cf2) as [S|[S|S]].
  - assert (S' : both_nonneg cf2 cf1) by (destruct S; now split).
    rewrite (combine_nonneg _ _ S), (combine_nonneg _ _ S'). split.
    + intros v E. injection E as <-. eexists. split; [reflexivity|ring].
    + intros e E. discriminate E.
  - assert (S' : both_neg cf2 cf1) by (destruct S; now split).
    rewrite (combine_neg _ _ S), (combine_neg _ _ S'). split.
    + intros v E. injection E as <-. eexists. split; [reflexivity|ring].
    + intros e E. discriminate E.
  - rewrite (combine_mixed _ _ S), (combine_mixed _ _ (mixed_sign_sym _ _ S)).
    destruct (py_truediv_comp (cf1 + cf2) (cf2 + cf1)
                (1 - Qmin (Qabs cf1) (Qabs cf2)) (1 - Qmin (Qabs cf2) (Qabs cf1)))
      as [[E1 E2]|[E1 [E2 V]]].
    + ring.
    + now rewrite Q.min_comm.
    + rewrite E1, E2. split; [intros v E; discriminate E|].
      intros e E. now injection E as <-.
    + rewrite E1, E2. split; [|intros e E; discriminate E].
      intros v E. injection E as <-. eexists. split; [reflexivity|]. now symmetry.
Qed.

(** X2.  The certainty factor 0.0 ("tidak_tahu") is neutral: combined with
    any [c], on either side, it gives [c] back and never raises. *)
Theorem cf_combination_neutral (c : Q) :
  (exists v, calculate_cf_combination c 0 = Ok v /\ v == c) /\
  (exists v, calculate_cf_combination 0 c = Ok v /\ v == c).
Proof.
  assert (R : exists v, calculate_cf_combination c 0 = Ok v /\ v == c).
  { destruct (Qlt_le_dec c 0) as [N|P].
    - assert (M : mixed_sign c 0) by (left; split; [exact N|lra]).
      assert (D : Qmin (Qabs c) (Qabs 0) == 0).
      { apply Q.min_r. change (Qabs 0) with 0. apply Qabs_nonneg. }
      rewrite (combine_mixed _ _ M), py_truediv_nonzero by (rewrite D; lra).
      eexists. split; [reflexivity|]. rewrite D. field.
    - rewrite (combine_nonneg c 0) by (split; [exact P|lra]).
      eexists. split; [reflexivity|]. ring. }
  split; [exact R|].
  destruct R as [v [E V]].
  destruct (proj1 (combine_comm c 0) v E) as [w [E' V']].
  exists w. split; [exact E'|]. now rewrite V'.
Qed.

End CFAlgebra.

Section CFEvidence.

Import CF.

(** X3.  Supporting evidence accumulates: for [cf1] and [cf2] in [0, 1] the
    combination returns a value that is at least [cf1], the factor
    accumulated so far, and at most 1, and it is 1 as soon as one of the two
    is 1. *)
Theorem cf_combination_accumulates (cf1 cf2 : Q) :
  0 <= cf1 <= 1 -> 0 <= cf2 <= 1 ->
  exists v, calculate_cf_combination cf1 cf2 = Ok v /\
            cf1 <= v /\ v <= 1 /\
            (cf1 == 1 \/ cf2 == 1 -> v == 1).
Proof.
  intros [L1 U1] [L2 U2].
  rewrite (combine_nonneg cf1 cf2) by now split.
  eexists. split; [reflexivity|].
  split; [nra|]. split; [nra|].
  intros [E|E]; rewrite E; ring.
Qed.

(** The theorem at "sangat_tinggi" and "pasti". *)
Lemma cf_combination_accumulates_witness :
  exists v, calculate_cf_combination 0.9 1.0 = Ok v /\ 0.9 <= v /\ v == 1.
Proof.
  assert (I1 : 0 <= 0.9 <= 1) by (split; lra).
  assert (I2 : 0 <= 1.0 <= 1) by (split; lra).
  destruct (cf_combination_accumulates 0.9 1.0 I1 I2) as [v [E [A [_ C]]]].
  exists v. split; [exact E|]. split; [exact A|]. apply C. right. reflexivity.
Defined.

(** X5.  Negating both arguments negates the result: the branch for two
    negative factors mirrors the branch for two positive ones, and the
    mixed-sign branch mirrors itself, raising at the same pairs. *)
Theorem cf_combination_negation (cf1 cf2 : Q) :
  (forall v, calculate_cf_combination cf1 cf2 = Ok v ->
             exists w, calculate_cf_combination (- cf1) (- cf2) = Ok w /\ w == - v) /\
  (forall e, calculate_cf_combination cf1 cf2 = Raise e ->
             calculate_cf_combination (- cf1) (- cf2) = Raise e).
Proof.
  assert (Mx : forall x y, mixed_sign x y ->
               (forall v, py_truediv (x + y) (1 - Qmin (Qabs x) (Qabs y)) = Ok v ->
                  exists w, py_truediv (- x + - y) (1 - Qmin (Qabs (- x)) (Qabs (- y))) = Ok w
                            /\ w == - v) /\
               (forall e, py_truediv (x + y) (1 - Qmin (Qabs x) (Qabs y)) = Raise e ->
                  py_truediv (- x + - y) (1 - Qmin (Qabs (- x)) (Qabs (- y))) = Raise e)).
  { intros x y _.
    assert (Hd : 1 - Qmin (Qabs (- x)) (Qabs (- y)) == 1 - Qmin (Qabs x) (Qabs y))
      by (rewrite !Qabs_opp; reflexivity).
    destruct (Qeq_dec (1 - Qmin (Qabs x) (Qabs y)) 0) as [Z|N].
    - rewrite (py_truediv_zero _ _ Z), py_truediv_zero by (now rewrite Hd).
      split; [intros v E; discriminate E|tauto].
    - rewrite (py_truediv_nonzero _ _ N), py_truediv_nonzero by (now rewrite Hd).
      split; [|intros e E; discriminate E].
      intros v E. injection E as <-. eexists. split; [reflexivity|].
      rewrite Hd. now field. }
  assert (Zero : forall x y, x == 0 -> Qmin (Qabs x) (Qabs y) == 0 /\
                                      Qmin (Qabs y) (Qabs x) == 0).
  { intros x y Z. rewrite Z. change (Qabs 0) with 0.
    split; [apply Q.min_l|apply Q.min_r]; apply Qabs_nonneg. }
  destruct (Q_dec cf1 0) as [[N1|P1]|Z1], (Q_dec cf2 0) as [[N2|P2]|Z2].
  - rewrite (combine_neg cf1 cf2) by now split.
    rewrite (combine_nonneg (- cf1) (- cf2)) by (split; lra).
    split; [|intros e E; discriminate E].
    intros v E. injection E as <-. eexists. split; [reflexivity|ring].
  - assert (M : mixed_sign cf1 cf2) by (left; split; lra).
    assert (M' : mixed_sign (- cf1) (- cf2)) by (right; split; lra).
    rewrite (combine_mixed _ _ M), (combine_mixed _ _ M'). now apply Mx.
  - assert (M : mixed_sign cf1 cf2) by (left; split; lra).
    destruct (Zero cf2 cf1 Z2) as [_ D].
    rewrite (combine_mixed _ _ M), py_truediv_nonzero by (rewrite D; lra).
    rewrite (combine_nonneg (- cf1) (- cf2)) by (split; lra).
    split; [|intros e E; discriminate E].
    intros v E. injection E as <-. eexists. split; [reflexivity|].
    rewrite D, Z2. field.
  - assert (M : mixed_sign cf1 cf2) by (right; split; lra).
    assert (M' : mixed_sign (- cf1) (- cf2)) by (left; split; lra).
    rewrite (combine_mixed _ _ M), (combine_mixed _ _ M'). now apply Mx.
  - rewrite (combine_nonneg cf1 cf2) by (split; lra).
    rewrite (combine_neg (- cf1) (- cf2)) by (split; lra).
    split; [|intros e E; discriminate E].
    intros v E. injection E as <-. eexists. split; [reflexivity|ring].
  - rewrite (combine_nonneg cf1 cf2) by (split; lra).
    assert (M' : mixed_sign (- cf1) (- cf2)) by (left; split; lra).
    assert (Z2' : - cf2 == 0) by lra.
    destruct (Zero (- cf2) (- cf1) Z2') as [_ D].
    rewrite (combine_mixed _ _ M'), py_truediv_nonzero by (rewrite D; lra).
    split; [|intros e E; discriminate E].
    intros v E. injection E as <-. eexists. split; [reflexivity|].
    rewrite D, Z2. field.
  - assert (M : mixed_sign cf1 cf2) by (right; split; lra).
    destruct (Zero cf1 cf2 Z1) as [D _].
    rewrite (combine_mixed _ _ M), py_truediv_nonzero by (rewrite D; lra).
    rewrite (combine_nonneg (- cf1) (- cf2)) by (split; lra).
    split; [|intros e E; discriminate E].
    intros v E. injection E as <-. eexists. split; [reflexivity|].
    rewrite D, Z1. field.
  - rewrite (combine_nonneg cf1 cf2) by (split; lra).
    assert (M' : mixed_sign (- cf1) (- cf2)) by (right; split; lra).
    assert (Z1' : - cf1 == 0) by lra.
    destruct (Zero (- cf1) (- cf2) Z1') as [D _].
    rewrite (combine_mixed _ _ M'), py_truediv_nonzero by (rewrite D; lra).
    split; [|intros e E; discriminate E].
    intros v E. injection E as <-. eexists. split; [reflexivity|].
    rewrite D, Z1. field.
  - rewrite (combine_nonneg cf1 cf2) by (split; lra).
    rewrite (combine_nonneg (- cf1) (- cf2)) by (split; lra).
    split; [|intros e E; discriminate E].
    intros v E. injection E as <-. eexists. split; [reflexivity|].
    rewrite Z1, Z2. ring.
Qed.

End CFEvidence.

(** ** The priority scorer: bounds, price and rules *)

Section ScorerBounds.

Import CF Stats Scorer Rules.

Open Scope string_scope.

(** One criterion adds its points or nothing, and keeps the certainty
    factor of the block within [0, 1], never lowering it. *)
Lemma kriteria_step (cond : bool) (poin : Z) (level : string) (c : Q) :
  (0 <= poin)%Z -> (0 <= cf level <= 1)%Q -> (0 <= c <= 1)%Q ->
  exists d c',
    (0 <= d <= poin)%Z /\ (cond = true -> d = poin) /\
    (0 <= c' <= 1)%Q /\ (c <= c')%Q /\
    forall s, kriteria cond poin level (s, c) = Ok ((s + d)%Z, c').
Proof.
  intros P L C. destruct cond.
  - exists poin, (c + cf level * (1 - c))%Q.
    split; [lia|]. split; [reflexivity|]. split; [split; nra|]. split; [nra|].
    intro s. apply kriteria_fires. apply combine_nonneg. split; lra.
  - exists 0%Z, c. split; [lia|]. split; [discriminate|]. split; [exact C|].
    split; [lra|]. intro s. now rewrite Z.add_0_r.
Qed.

Lemma kriteria_chain2 (c1 c2 : bool) (p1 p2 : Z) (l1 l2 : string) :
  (0 <= p1)%Z -> (0 <= p2)%Z -> (0 <= cf l1 <= 1)%Q -> (0 <= cf l2 <= 1)%Q ->
  exists d ck,
    (0 <= d <= p1 + p2)%Z /\ (c1 = true -> c2 = true -> d = (p1 + p2)%Z) /\
    (0 <= ck <= 1)%Q /\
    forall s, obind (kriteria c1 p1 l1 (s, 0.0%Q)) (kriteria c2 p2 l2) = Ok ((s + d)%Z, ck).
Proof.
  intros P1 P2 L1 L2.
  destruct (kriteria_step c1 p1 l1 0.0%Q P1 L1) as [d1 [k1 [B1 [F1 [C1 [_ K1]]]]]];
    [split; lra|].
  destruct (kriteria_step c2 p2 l2 k1 P2 L2 C1) as [d2 [k2 [B2 [F2 [C2 [_ K2]]]]]].
  exists (d1 + d2)%Z, k2. split; [lia|]. split; [intros T1 T2; rewrite F1, F2; auto|].
  split; [exact C2|]. intro s. rewrite K1. cbn [obind]. rewrite K2.
  do 2 f_equal. lia.
Qed.

Lemma kriteria_chain3 (c1 c2 c3 : bool) (p1 p2 p3 : Z) (l1 l2 l3 : string) :
  (0 <= p1)%Z -> (0 <= p2)%Z -> (0 <= p3)%Z ->
  (0 <= cf l1 <= 1)%Q -> (0 <= cf l2 <= 1)%Q -> (0 <= cf l3 <= 1)%Q ->
  exists d ck,
    (0 <= d <= p1 + p2 + p3)%Z /\
    (c1 = true -> c2 = true -> c3 = true -> d = (p1 + p2 + p3)%Z) /\
    (0 <= ck <= 1)%Q /\
    forall s, obind (kriteria c1 p1 l1 (s, 0.0%Q))
                    (fun st1 => obind (kriteria c2 p2 l2 st1) (kriteria c3 p3 l3))
              = Ok ((s + d)%Z, ck).
Proof.
  intros P1 P2 P3 L1 L2 L3.
  destruct (kriteria_step c1 p1 l1 0.0%Q P1 L1) as [d1 [k1 [B1 [F1 [C1 [_ K1]]]]]];
    [split; lra|].
  destruct (kriteria_step c2 p2 l2 k1 P2 L2 C1) as [d2 [k2 [B2 [F2 [C2 [_ K2]]]]]].
  destruct (kriteria_step c3 p3 l3 k2 P3 L3 C2) as [d3 [k3 [B3 [F3 [C3 [_ K3]]]]]].
  exists (d1 + d2 + d3)%Z, k3. split; [lia|].
  split; [intros T1 T2 T3; rewrite F1, F2, F3; auto|].
  split; [exact C3|]. intro s. rewrite K1. cbn [obind]. rewrite K2. cbn [obind].
  rewrite K3. do 2 f_equal. lia.
Qed.

(** What the objective-specific block adds does not depend on the score it
    starts from: between 0 and 6 points, and a certainty factor in [0, 1]. *)
Lemma kriteria_kampanye_delta (df : DataFrame) (profile : Profile) (tujuan : string) :
  exists d ck,
    (0 <= d <= 6)%Z /\ (0 <= ck <= 1)%Q /\
    forall s, kriteria_kampanye df profile tujuan (s, 0.0%Q) = Ok ((s + d)%Z, ck).
Proof.
  destruct levels_in_unit as [P [H T]]. unfold kriteria_kampanye.
  destruct (tujuan =? "meningkatkan penjualan umum").
  { destruct (kriteria_chain2 (Promotion_Response profile =? "Merespons")
                (Qleb 4 (Satisfaction_Score profile)) 2 1 "hampir_pasti" "tinggi")
      as [d [ck [B [_ [C K]]]]]; try lia; try assumption.
    exists d, ck. split; [lia|]. split; assumption. }
  destruct (tujuan =? "mencegah pelanggan churn").
  { destruct (kriteria_chain2 (Target_Churn profile)
                (gt_mean (Last_Purchase_Days_Ago profile)
                         (col_mean Last_Purchase_Days_Ago df)) 3 2 "pasti" "hampir_pasti")
      as [d [ck [B [_ [C K]]]]]; try lia; try assumption.
    exists d, ck. split; [lia|]. split; assumption. }
  destruct (tujuan =? "meningkatkan loyalitas pelanggan").
  { destruct (kriteria_chain3 (negb (Target_Churn profile))
                (gt_mean (Years_as_Customer profile) (col_mean Years_as_Customer df))
                (Qleb 4 (Satisfaction_Score profile)) 3 2 1 "pasti" "hampir_pasti" "tinggi")
      as [d [ck [B [_ [C K]]]]]; try lia; try assumption.
    exists d, ck. split; [lia|]. split; assumption. }
  destruct (tujuan =? "mendapatkan pelanggan baru").
  { destruct (kriteria_chain2 (Promotion_Response profile =? "Merespons")
                (lt_mean (Years_as_Customer profile) (col_mean Years_as_Customer df))
                2 1 "hampir_pasti" "tinggi")
      as [d [ck [B [_ [C K]]]]]; try lia; try assumption.
    exists d, ck. split; [lia|]. split; assumption. }
  destruct (tujuan =? "menjual produk tambahan").
  { destruct (kriteria_chain2
                (gt_mean (Num_of_Purchases profile) (col_mean Num_of_Purchases df))
                (Promotion_Response profile =? "Merespons") 2 1 "hampir_pasti" "tinggi")
      as [d [ck [B [_ [C K]]]]]; try lia; try assumption.
    exists d, ck. split; [lia|]. split; assumption. }
  exists 0%Z, 0.0%Q. split; [lia|]. split; [split; lra|].
  intro s. now rewrite Z.add_0_r.
Qed.

Lemma daya_beli_bounds (profile : Profile) (harga : Q) (skor : Z) :
  (skor + 1 <= fst (daya_beli profile harga skor) <= skor + 3)%Z /\
  (0.4 <= snd (daya_beli profile harga skor) <= 1)%Q.
Proof.
  unfold daya_beli.
  destruct (Qltb _ _); [|destruct (Qltb _ _)]; simpl fst; simpl snd;
    (split; [lia|vm_compute; intuition discriminate]).
Qed.

Lemma spend_bounds (profile : Profile) (harga : Q) (skor : Z) :
  (skor <= fst (spend profile harga skor) <= skor + 2)%Z /\
  (0 <= snd (spend profile harga skor) <= 1)%Q.
Proof.
  unfold spend.
  destruct (Qltb _ _); [|destruct (Qltb _ _)]; simpl fst; simpl snd;
    (split; [lia|vm_compute; intuition discriminate]).
Qed.

End ScorerBounds.

Section ScorerTheorems.

Import CF Stats Scorer Rules.

Open Scope string_scope.

(** X6.  [hitung_skor_prioritas_cf] never raises: whatever the table, the
    profile, the price and the objective, it returns a score between 1 and 11
    and a certainty factor between 0.4 and 1. *)
Theorem scorer_bounds (df : DataFrame) (profile : Profile) (harga : Q) (tujuan : string) :
  exists skor cf_total,
    hitung_skor_prioritas_cf df profile harga tujuan = Ok (skor, cf_total) /\
    (1 <= skor <= 11)%Z /\ (0.4 <= cf_total <= 1)%Q.
Proof.
  destruct (daya_beli profile harga 0) as [s1 c1] eqn:Edb.
  destruct (spend profile harga s1) as [s2 c2] eqn:Esp.
  destruct (kriteria_kampanye_delta df profile tujuan) as [d [ck [Bd [Bk K]]]].
  pose proof (daya_beli_bounds profile harga 0) as [S1 C1]. rewrite Edb in S1, C1.
  pose proof (spend_bounds profile harga s1) as [S2 C2]. rewrite Esp in S2, C2.
  simpl in S1, C1, S2, C2.
  destruct (hitung_skor_shape df profile harga tujuan s1 s2 _ c1 c2 ck Edb Esp (K s2) Bk)
    as [t [Ht [Vt Bt]]].
  exists (s2 + d)%Z, t. split; [exact Ht|]. split; [lia|].
  split; [|apply Bt]. rewrite Vt.
  assert (M : (c1 <= c1 + c2 * (1 - c1) <= 1)%Q) by (split; nra).
  assert (N : (0 <= ck * (1 - (c1 + c2 * (1 - c1))))%Q) by (apply Qmult_le_0_compat; lra).
  lra.
Qed.

Lemma daya_beli_antitone (profile : Profile) (h h' : Q) (skor : Z) :
  (h <= h')%Q ->
  (fst (daya_beli profile h' skor) <= fst (daya_beli profile h skor))%Z /\
  (snd (daya_beli profile h' skor) <= snd (daya_beli profile h skor))%Q.
Proof.
  intro H. unfold daya_beli.
  destruct (Qltb (h' * 10) _) eqn:A'; [|destruct (Qltb (h' * 5) _) eqn:B'];
    (destruct (Qltb (h * 10) _) eqn:A; [|destruct (Qltb (h * 5) _) eqn:B]);
    qbool; try (exfalso; lra); simpl fst; simpl snd;
    (split; [lia|vm_compute; discriminate]).
Qed.

Lemma spend_antitone (profile : Profile) (h h' : Q) (s s' : Z) :
  (h <= h')%Q -> (s' <= s)%Z ->
  (fst (spend profile h' s') <= fst (spend profile h s))%Z /\
  (snd (spend profile h' s') <= snd (spend profile h s))%Q.
Proof.
  intros H S. unfold spend.
  destruct (Qltb (h' * 2) _) eqn:A'; [|destruct (Qltb h' _) eqn:B'];
    (destruct (Qltb (h * 2) _) eqn:A; [|destruct (Qltb h _) eqn:B]);
    qbool; try (exfalso; lra); simpl fst; simpl snd;
    (split; [lia|vm_compute; discriminate]).
Qed.

(** X7.  A higher product price never raises a segment's priority: for the
    same table, profile and objective, the score and the certainty factor at
    the higher price are at most those at the lower price. *)
Theorem score_antitone_in_price (df : DataFrame) (profile : Profile) (tujuan : string)
    (h h' : Q) :
  (h <= h')%Q ->
  exists s c s' c',
    hitung_skor_prioritas_cf df profile h tujuan = Ok (s, c) /\
    hitung_skor_prioritas_cf df profile h' tujuan = Ok (s', c') /\
    (s' <= s)%Z /\ (c' <= c)%Q.
Proof.
  intro H.
  destruct (daya_beli profile h 0) as [s1 c1] eqn:Edb.
  destruct (spend profile h s1) as [s2 c2] eqn:Esp.
  destruct (daya_beli profile h' 0) as [s1' c1'] eqn:Edb'.
  destruct (spend profile h' s1') as [s2' c2'] eqn:Esp'.
  destruct (kriteria_kampanye_delta df profile tujuan) as [d [ck [Bd [Bk K]]]].
  pose proof (daya_beli_antitone profile h h' 0 H) as [D1 D2].
  rewrite Edb, Edb' in D1, D2. simpl in D1, D2.
  pose proof (spend_antitone profile h h' s1 s1' H D1) as [P1 P2].
  rewrite Esp, Esp' in P1, P2. simpl in P1, P2.
  pose proof (daya_beli_bounds profile h 0) as [_ C1]. rewrite Edb in C1.
  pose proof (daya_beli_bounds profile h' 0) as [_ C1']. rewrite Edb' in C1'.
  pose proof (spend_bounds profile h s1) as [_ C2]. rewrite Esp in C2.
  pose proof (spend_bounds profile h' s1') as [_ C2']. rewrite Esp' in C2'.
  simpl in C1, C1', C2, C2'.
  destruct (hitung_skor_shape df profile h tujuan s1 s2 _ c1 c2 ck Edb Esp (K s2) Bk)
    as [t [Ht [Vt _]]].
  destruct (hitung_skor_shape df profile h' tujuan s1' s2' _ c1' c2' ck Edb' Esp' (K s2') Bk)
    as [t' [Ht' [Vt' _]]].
  exists (s2 + d)%Z, t, (s2' + d)%Z, t'.
  split; [exact Ht|]. split; [exact Ht'|]. split; [lia|].
  rewrite Vt, Vt'.
  assert (M : (c1' + c2' * (1 - c1') <= c1 + c2 * (1 - c1))%Q) by nra.
  assert (U : (c1 + c2 * (1 - c1) <= 1)%Q) by nra.
  nra.
Qed.

(** The theorem on segment 0 of the sample, at 150000 and at 1500000. *)
Lemma score_antitone_in_price_witness :
  exists s c s' c',
    hitung_skor_prioritas_cf Sample.data Sample.profil_0 150000 "mencegah pelanggan churn"
      = Ok (s, c) /\
    hitung_skor_prioritas_cf Sample.data Sample.profil_0 1500000 "mencegah pelanggan churn"
      = Ok (s', c') /\
    (s' <= s)%Z /\ (c' <= c)%Q.
Proof.
  apply (score_antitone_in_price Sample.data Sample.profil_0 "mencegah pelanggan churn"
           150000 1500000).
  lra.
Defined.

(** X8.  A segment that backward chaining selects for an objective earns
    every point of that objective in the scorer: the condition of each
    backward rule implies all criteria of the scorer's block for the same
    objective, which then adds 6 points for loyalty, 5 for churn prevention
    and 3 for acquisition. *)
Theorem backward_rule_implies_full_block (df : DataFrame) (profile : Profile)
    (tujuan : string) (rule : BCRule) (skor : Z) :
  get tujuan (marketing_rules_bc df) = Some rule ->
  bc_THEN_IF rule profile = true ->
  exists ck,
    kriteria_kampanye df profile tujuan (skor, 0.0%Q)
      = Ok ((skor + (if String.eqb tujuan "meningkatkan loyalitas pelanggan" then 6
                     else if String.eqb tujuan "mencegah pelanggan churn" then 5
                     else 3))%Z, ck) /\
    (0 <= ck <= 1)%Q.
Proof.
  destruct levels_in_unit as [P [H T]].
  unfold marketing_rules_bc, get.
  destruct (String.eqb_spec "meningkatkan loyalitas pelanggan" tujuan) as [<-|N1].
  { intros E C. injection E as <-. simpl in C. qbool.
    destruct (kriteria_chain3 (negb (Target_Churn profile))
                (gt_mean (Years_as_Customer profile) (col_mean Years_as_Customer df))
                (Qleb 4 (Satisfaction_Score profile)) 3 2 1 "pasti" "hampir_pasti" "tinggi")
      as [d [ck [_ [F [Bk K]]]]]; try lia; try assumption.
    exists ck. split; [|exact Bk].
    change (kriteria_kampanye df profile "meningkatkan loyalitas pelanggan" (skor, 0.0%Q))
      with (obind (kriteria (negb (Target_Churn profile)) 3 "pasti" (skor, 0.0%Q))
              (fun st1 => obind (kriteria (gt_mean (Years_as_Customer profile)
                                                   (col_mean Years_as_Customer df))
                                          2 "hampir_pasti" st1)
                                (kriteria (Qleb 4 (Satisfaction_Score profile)) 1 "tinggi"))).
    rewrite K, F; [reflexivity| | |].
    - now apply negb_true_iff.
    - assumption.
    - now apply Qleb_le. }
  destruct (String.eqb_spec "mencegah pelanggan churn" tujuan) as [<-|N2].
  { intros E C. injection E as <-. simpl in C. qbool.
    destruct (kriteria_chain2 (Target_Churn profile)
                (gt_mean (Last_Purchase_Days_Ago profile)
                         (col_mean Last_Purchase_Days_Ago df)) 3 2 "pasti" "hampir_pasti")
      as [d [ck [_ [F [Bk K]]]]]; try lia; try assumption.
    exists ck. split; [|exact Bk].
    rewrite kriteria_kampanye_churn, K, F by assumption. reflexivity. }
  destruct (String.eqb_spec "mendapatkan pelanggan baru" tujuan) as [<-|N3].
  { intros E C. injection E as <-. simpl in C. qbool.
    destruct (kriteria_chain2 (Promotion_Response profile =? "Merespons")
                (lt_mean (Years_as_Customer profile) (col_mean Years_as_Customer df))
                2 1 "hampir_pasti" "tinggi")
      as [d [ck [_ [F [Bk K]]]]]; try lia; try assumption.
    exists ck. split; [|exact Bk].
    change (kriteria_kampanye df profile "mendapatkan pelanggan baru" (skor, 0.0%Q))
      with (obind (kriteria (Promotion_Response profile =? "Merespons") 2 "hampir_pasti"
                            (skor, 0.0%Q))
                  (kriteria (lt_mean (Years_as_Customer profile)
                                     (col_mean Years_as_Customer df)) 1 "tinggi")).
    rewrite K, F by assumption. reflexivity. }
  discriminate.
Qed.

(** The loyalty rule does not hold on segment 0 of the sample; the churn rule
    does. *)
Lemma backward_rule_implies_full_block_witness :
  exists ck,
    kriteria_kampanye Sample.data Sample.profil_0 "mencegah pelanggan churn" (0%Z, 0.0%Q)
      = Ok (5%Z, ck) /\ (0 <= ck <= 1)%Q.
Proof.
  destruct (get "mencegah pelanggan churn" (marketing_rules_bc Sample.data))
    as [rule|] eqn:G; [|discriminate G].
  assert (C : bc_THEN_IF rule Sample.profil_0 = true).
  { injection G as <-. vm_compute. reflexivity. }
  exact (backward_rule_implies_full_block Sample.data Sample.profil_0
           "mencegah pelanggan churn" rule 0 G C).
Defined.

End ScorerTheorems.

(** ** The rule engine and the planner *)

Section RuleEngine.

Import Stats Profiles Priority Rules Planner.

Open Scope string_scope.

Lemma for_each_Forall2 {X Y : Type} (body : X -> Outcome Y) (xs : list X) (ys : list Y) :
  for_each body xs = Ok ys <-> Forall2 (fun x y => body x = Ok y) xs ys.
Proof.
  revert ys. induction xs as [|x xs IH]; intro ys; simpl.
  - split.
    + intro E. injection E as <-. constructor.
    + intro F. inversion F. reflexivity.
  - split.
    + intro E. destruct (body x) as [y|] eqn:Ey; [|discriminate E]. simpl in E.
      destruct (for_each body xs) as [ys'|] eqn:Es; [|discriminate E]. simpl in E.
      injection E as <-. constructor; [exact Ey|]. now apply IH.
    + intro F. inversion F as [|x' y xs' ys' Ey Fs]; subst.
      rewrite Ey. simpl. apply IH in Fs. now rewrite Fs.
Qed.

(** The loop of backward chaining, for one rule. *)
Lemma backward_loop (rule : BCRule) (profiles : list (nat * Profile))
    (descriptions : list (nat * string)) (xs : list nat) (found : list (list BCResult)) :
  for_each
    (fun cid =>
       obind (loc profiles cid) (fun profile =>
       if bc_THEN_IF rule profile then
         obind (loc descriptions cid) (fun desc =>
         Ok [ {| bc_Klaster_ID := cid; bc_Deskripsi := desc;
                 bc_Strategi := bc_STRATEGY rule |} ])
       else Ok [])) xs = Ok found ->
  map bc_Klaster_ID (List.concat found)
    = filter (fun cid => match loc profiles cid with
                         | Ok p => bc_THEN_IF rule p
                         | Raise _ => false
                         end) xs /\
  Forall (fun r => bc_Strategi r = bc_STRATEGY rule /\
                   loc descriptions (bc_Klaster_ID r) = Ok (bc_Deskripsi r))
         (List.concat found) /\
  Forall (fun cid => exists p, loc profiles cid = Ok p) xs.
Proof.
  revert found. induction xs as [|x xs IH]; intros found E; simpl in E.
  - injection E as <-. simpl. repeat split; constructor.
  - destruct (loc profiles x) as [p|] eqn:Ep; [|discriminate E]. simpl in E.
    destruct (bc_THEN_IF rule p) eqn:C.
    + destruct (loc descriptions x) as [desc|] eqn:Ed; [|discriminate E]. simpl in E.
      destruct (for_each _ xs) as [found'|] eqn:Es; [|discriminate E]. simpl in E.
      injection E as <-. destruct (IH found' eq_refl) as [M [F A]].
      simpl. rewrite Ep, C. simpl. rewrite M. split; [reflexivity|].
      split; [constructor; [split; [reflexivity|exact Ed]|exact F]|].
      constructor; [now exists p|exact A].
    + simpl in E. destruct (for_each _ xs) as [found'|] eqn:Es; [|discriminate E].
      simpl in E. injection E as <-. destruct (IH found' eq_refl) as [M [F A]].
      simpl. rewrite Ep, C. split; [exact M|]. split; [exact F|].
      constructor; [now exists p|exact A].
Qed.

Lemma backward_chaining_strategy (df : DataFrame) (profiles : list (nat * Profile))
    (descriptions : list (nat * string)) (n : nat) (tujuan : string) (rule : BCRule)
    (res : list BCResult) :
  get tujuan (marketing_rules_bc df) = Some rule ->
  backward_chaining df profiles descriptions n tujuan = Ok res ->
  Forall (fun b => bc_Strategi b = bc_STRATEGY rule) res.
Proof.
  intros G E. unfold backward_chaining in E. rewrite G in E.
  destruct (for_each _ (seq 0 n)) as [found|] eqn:Es; [|discriminate E].
  simpl in E. injection E as <-.
  destruct (backward_loop rule profiles descriptions (seq 0 n) found Es) as [_ [F _]].
  eapply Forall_impl; [|exact F]. simpl. tauto.
Qed.

(** X9.  When backward chaining returns for an objective that has a rule,
    its results are exactly the segments below K whose profile satisfies the
    rule, in ascending order of segment id, each with the rule's strategy and
    the segment's own description. *)
Theorem backward_chaining_exact (df : DataFrame) (profiles : list (nat * Profile))
    (descriptions : list (nat * string)) (n : nat) (tujuan : string) (rule : BCRule)
    (res : list BCResult) :
  get tujuan (marketing_rules_bc df) = Some rule ->
  backward_chaining df profiles descriptions n tujuan = Ok res ->
  map bc_Klaster_ID res
    = filter (fun cid => match loc profiles cid with
                         | Ok p => bc_THEN_IF rule p
                         | Raise _ => false
                         end) (seq 0 n) /\
  StronglySorted lt (map bc_Klaster_ID res) /\
  Forall (fun r => bc_Strategi r = bc_STRATEGY rule /\
                   loc descriptions (bc_Klaster_ID r) = Ok (bc_Deskripsi r)) res.
Proof.
  intros G E. unfold backward_chaining in E. rewrite G in E.
  destruct (for_each _ (seq 0 n)) as [found|] eqn:Es; [|discriminate E].
  simpl in E. injection E as <-.
  destruct (backward_loop rule profiles descriptions (seq 0 n) found Es) as [M [F _]].
  split; [exact M|]. split; [|exact F].
  rewrite M. rewrite <- (map_id (filter _ (seq 0 n))).
  apply StronglySorted_filter_map. rewrite map_id. apply seq_StronglySorted.
Qed.

(** The churn objective on the sample: segment 0 and no other. *)
Lemma backward_chaining_exact_witness :
  exists res,
    backward_chaining Sample.data
      (build_profiles (rows Sample.data) Sample.labels)
      [(0%nat, "a"); (1%nat, "b")] 2 "mencegah pelanggan churn" = Ok res /\
    map bc_Klaster_ID res = [0%nat] /\
    StronglySorted lt (map bc_Klaster_ID res).
Proof.
  destruct (get "mencegah pelanggan churn" (marketing_rules_bc Sample.data))
    as [rule|] eqn:G; [|discriminate G].
  destruct (backward_chaining Sample.data
              (build_profiles (rows Sample.data) Sample.labels)
              [(0%nat, "a"); (1%nat, "b")] 2 "mencegah pelanggan churn")
    as [res|e] eqn:E; [|vm_compute in E; discriminate E].
  destruct (backward_chaining_exact _ _ _ _ _ rule res G E) as [M [S _]].
  exists res. split; [reflexivity|]. split; [|exact S].
  pose proof E as E'. vm_compute in E'. injection E' as <-. reflexivity.
Defined.

End RuleEngine.

Section ForwardAndPlans.

Import Stats Profiles Priority Rules Planner.

Open Scope string_scope.

Lemma forward_loop (df : DataFrame) (profiles : list (nat * Profile))
    (items : list Prioritas) (res : list (nat * list FCRule)) :
  forward_chaining df profiles items = Ok res ->
  Forall2 (fun item cr =>
             fst cr = Klaster_ID item /\
             exists p, loc profiles (Klaster_ID item) = Ok p /\
                       snd cr = filter (fun rule => fc_IF rule p) (marketing_rules_fc df))
          items res.
Proof.
  unfold forward_chaining. rewrite for_each_Forall2.
  intro F. eapply Forall2_impl; [|exact F]. simpl. intros item cr E.
  destruct (loc profiles (Klaster_ID item)) as [p|] eqn:Ep; [|discriminate E].
  simpl in E. injection E as <-. simpl. split; [reflexivity|]. now exists p.
Qed.

(** X10.  When forward chaining returns, it holds one entry per entry of the
    priority list, in the same order, and the entry of a segment lists, in
    the order of the catalog, exactly the rules whose condition holds on the
    segment's profile. *)
Theorem forward_chaining_exact (df : DataFrame) (profiles : list (nat * Profile))
    (items : list Prioritas) (res : list (nat * list FCRule)) :
  forward_chaining df profiles items = Ok res ->
  map fst res = map Klaster_ID items /\
  Forall (fun cr =>
            exists p, loc profiles (fst cr) = Ok p /\
                      snd cr = filter (fun rule => fc_IF rule p) (marketing_rules_fc df) /\
                      forall rule, In rule (snd cr) <->
                                   In rule (marketing_rules_fc df) /\ fc_IF rule p = true)
         res.
Proof.
  intro E. apply forward_loop in E.
  induction E as [|item cr items res [I [p [Ep Er]]] F IH]; simpl.
  - split; [reflexivity|constructor].
  - destruct IH as [M A]. split; [now rewrite I, M|].
    constructor; [|exact A]. exists p. rewrite I. split; [exact Ep|]. split; [exact Er|].
    intro rule. rewrite Er. apply filter_In.
Qed.

(** Segment 0 of the sample, alone in the priority list. *)
Lemma forward_chaining_exact_witness :
  exists res,
    forward_chaining Sample.data (build_profiles (rows Sample.data) Sample.labels)
      [ {| Klaster_ID := 0; Skor_Prioritas := 7; CF_Prioritas := 1; Deskripsi := "a" |} ]
      = Ok res /\
    map fst res = [0%nat].
Proof.
  destruct (forward_chaining Sample.data (build_profiles (rows Sample.data) Sample.labels)
              [ {| Klaster_ID := 0; Skor_Prioritas := 7; CF_Prioritas := 1;
                   Deskripsi := "a" |} ])
    as [res|e] eqn:E; [|vm_compute in E; discriminate E].
  exists res. split; [reflexivity|].
  exact (proj1 (forward_chaining_exact _ _ _ _ E)).
Defined.

(** X11.  The backward rule for churn prevention and the forward rule for
    the retention campaign have the same condition: on every profile, the
    one holds exactly when the other fires. *)
Theorem churn_rules_agree (df : DataFrame) (profile : Profile) (rule : BCRule) :
  get "mencegah pelanggan churn" (marketing_rules_bc df) = Some rule ->
  (bc_THEN_IF rule profile = true <->
   In "Luncurkan kampanye retensi dengan diskon menarik"
      (map fc_THEN (filter (fun r => fc_IF r profile) (marketing_rules_fc df)))).
Proof.
  intro G. injection G as <-. unfold marketing_rules_fc. simpl.
  repeat match goal with
  | |- context [if ?b then _ else _] => destruct b
  end; simpl; split; intro H;
  repeat match goal with
  | H : _ \/ _ |- _ => destruct H as [H|H]
  | H : False |- _ => destruct H
  | H : _ = _ |- _ => discriminate H
  end; try reflexivity; tauto.
Qed.

(** Segment 0 of the sample is churn-flagged and stale. *)
Lemma churn_rules_agree_witness :
  In "Luncurkan kampanye retensi dengan diskon menarik"
     (map fc_THEN (filter (fun r => fc_IF r Sample.profil_0)
                          (marketing_rules_fc Sample.data))).
Proof.
  destruct (get "mencegah pelanggan churn" (marketing_rules_bc Sample.data))
    as [rule|] eqn:G; [|discriminate G].
  apply (proj1 (churn_rules_agree Sample.data Sample.profil_0 rule G)).
  injection G as <-. vm_compute. reflexivity.
Defined.

Lemma get_none {X : Type} (key : string) (d : list (string * X)) :
  get key d = None <-> ~ In key (map fst d).
Proof.
  induction d as [|[k v] d IH]; simpl; [tauto|].
  destruct (String.eqb_spec k key) as [->|N].
  - split; [discriminate|]. intro H. exfalso. apply H. now left.
  - rewrite IH. tauto.
Qed.

Lemma catalog_plan (strategy : string) :
  In strategy (map fst plans) ->
  get strategy plans = Some (get_hierarchical_plan strategy) /\
  Mayor (get_hierarchical_plan strategy) <> "Strategi Umum" /\
  List.length (Steps (get_hierarchical_plan strategy)) = 3%nat /\
  strategy <> "".
Proof.
  simpl. intro I.
  repeat (destruct I as [<-|I];
          [split; [reflexivity|split; [discriminate|split; [reflexivity|discriminate]]]|]).
  destruct I.
Qed.

(** X12.  [get_hierarchical_plan] returns the generic plan "Strategi Umum"
    with its two steps for every strategy that is not a key of the catalog,
    and for a key of the catalog a plan of three steps whose major action is
    not the generic one. *)
Theorem plan_lookup (strategy : string) :
  (~ In strategy (map fst plans) ->
   get_hierarchical_plan strategy
     = {| Mayor := "Strategi Umum"; Steps := ["Langkah umum 1"; "Langkah umum 2"] |}) /\
  (In strategy (map fst plans) ->
   get strategy plans = Some (get_hierarchical_plan strategy) /\
   Mayor (get_hierarchical_plan strategy) <> "Strategi Umum" /\
   List.length (Steps (get_hierarchical_plan strategy)) = 3%nat).
Proof.
  split.
  - intro N. unfold get_hierarchical_plan. apply get_none in N. now rewrite N.
  - intro I. destruct (catalog_plan strategy I) as [G [M [L _]]]. now repeat split.
Qed.

(** An unknown strategy and the strategy of the churn rule. *)
Lemma plan_lookup_witness :
  Mayor (get_hierarchical_plan "Bagikan brosur") = "Strategi Umum" /\
  Mayor (get_hierarchical_plan "Luncurkan kampanye retensi agresif.")
    <> "Strategi Umum".
Proof.
  split.
  - rewrite (proj1 (plan_lookup "Bagikan brosur")); [reflexivity|].
    simpl. intro H. repeat (destruct H as [H|H]; [discriminate H|]). exact H.
  - apply (proj2 (plan_lookup "Luncurkan kampanye retensi agresif.")).
    simpl. tauto.
Defined.

End ForwardAndPlans.

(** ** The orchestrator: what it returns and what it raises *)

Section RunSurface.

Import Profiles Rules Pipeline.

Open Scope string_scope.

Lemma bind_inv {X Y : Type} (m : M X) (k : X -> M Y) (t t' : list Event) (y : Y) :
  bind m k t = (t', Ok y) -> exists t1 x, m t = (t1, Ok x) /\ k x t1 = (t', Ok y).
Proof.
  unfold bind. destruct (m t) as [t1 [x|e]]; intro H; [|discriminate H].
  now exists t1, x.
Qed.

Lemma call_inv {X : Type} (ev : Event) (r : Outcome X) (t t' : list Event) (x : X) :
  call ev r t = (t', Ok x) -> r = Ok x /\ t' = (t ++ [ev])%list.
Proof. unfold call. intro H. injection H as <- ->. now split. Qed.

Lemma lift_inv {X : Type} (r : Outcome X) (t t' : list Event) (x : X) :
  lift r t = (t', Ok x) -> r = Ok x /\ t' = t.
Proof. unfold lift. intro H. injection H as <- ->. now split. Qed.

(** X13.  An error dictionary is returned in two situations only, the file
    was not found or a required column is missing, and in both the reading of
    the file is the only library call made.  The key ["error"] is in the
    returned dictionary exactly in these cases, which is what the caller
    tests. *)
Theorem error_dictionary_cases (lib : Oracle) (file_path : string) (n : nat) (harga : Q)
    (tujuan : string) (t : list Event) (d : ReturnDict) :
  run lib file_path n harga tujuan = (t, Ok d) ->
  (In "error" (keys d) <-> exists msg, d = ErrorDict msg) /\
  (forall msg, d = ErrorDict msg ->
     t = [EvReadCsv file_path] /\
     ((read_csv lib file_path = Raise FileNotFoundError /\ msg = pesan_file file_path) \/
      (exists df col, read_csv lib file_path = Ok df /\
                      first_missing df required = Some col /\
                      ~ In col (columns df) /\ msg = pesan_kolom col))).
Proof.
  intro R. split.
  - destruct d as [msg|r]; simpl.
    + split; [intros _; now exists msg|intros _; now left].
    + split; [|intros [msg E]; discriminate E].
      destruct (hierarchical_plan r), (top_strategy_for_plan r); simpl; intro H;
        repeat (destruct H as [H|H]; [discriminate H|]); destruct H.
  - intros msg ->. unfold run, run_full_analysis, call in R.
    destruct (read_csv lib file_path) as [df|e] eqn:Rd.
    + destruct (first_missing df required) as [col|] eqn:F.
      * injection R as <- <-. split; [reflexivity|]. right. exists df, col.
        destruct (first_missing_some _ _ _ F) as [before [after [_ [N _]]]].
        split; [reflexivity|]. split; [exact F|]. split; [exact N|reflexivity].
      * unfold bind, ret in R.
        destruct (analyse lib df n harga tujuan _) as [t' [r|e]]; discriminate R.
    + destruct e; try discriminate R. injection R as <-.
      split; [reflexivity|]. now left.
Qed.

(** A path that is not there, on the sample libraries. *)
Lemma error_dictionary_cases_witness :
  In "error" (keys (ErrorDict (pesan_file "tidak_ada.csv"))) <->
  exists msg, ErrorDict (pesan_file "tidak_ada.csv") = ErrorDict msg.
Proof.
  exact (proj1 (error_dictionary_cases Sample.lib "tidak_ada.csv" 3 150000
                  "mencegah pelanggan churn" _ _ eq_refl)).
Defined.

(** X14.  Only [FileNotFoundError] is caught.  Any other exception raised
    while reading the file, and any exception raised by the scaler or by the
    encoder (a [FileNotFoundError] included), aborts the run and reaches the
    caller unchanged; no later library call is made. *)
Theorem library_failure_propagates (lib : Oracle) (file_path : string) (n : nat)
    (harga : Q) (tujuan : string) (e : Exn) :
  (read_csv lib file_path = Raise e -> e <> FileNotFoundError ->
   run lib file_path n harga tujuan = ([EvReadCsv file_path], Raise e)) /\
  (forall df,
     read_csv lib file_path = Ok df -> first_missing df required = None ->
     standard_scaler lib (rows df) = Raise e ->
     run lib file_path n harga tujuan
       = ([EvReadCsv file_path; EvStandardScaler], Raise e)) /\
  (forall df X1,
     read_csv lib file_path = Ok df -> first_missing df required = None ->
     standard_scaler lib (rows df) = Ok X1 ->
     one_hot_encoder lib (rows df) = Raise e ->
     run lib file_path n harga tujuan
       = ([EvReadCsv file_path; EvStandardScaler; EvOneHotEncoder], Raise e)).
Proof.
  split; [|split].
  - intros R N. unfold run, run_full_analysis, call. rewrite R.
    destruct e; try reflexivity. congruence.
  - intros df R F S. rewrite (run_after_read _ _ _ _ _ _ R), F.
    apply bind_raise. unfold analyse. apply bind_raise. unfold call. now rewrite S.
  - intros df X1 R F S1 S2. rewrite (run_after_read _ _ _ _ _ _ R), F.
    apply bind_raise. unfold analyse.
    erewrite bind_ok by (unfold call; rewrite S1; reflexivity).
    apply bind_raise. unfold call. now rewrite S2.
Qed.

End RunSurface.

(** An unreadable file, and a scaler that rejects the table. *)
Lemma library_failure_propagates_witness :
  Pipeline.run SampleFaults.lib_baca_gagal "pelanggan.csv" 3 150000 "mencegah pelanggan churn"
    = ([Pipeline.EvReadCsv "pelanggan.csv"],
       Raise (LibraryError "EmptyDataError: No columns to parse from file")) /\
  Pipeline.run SampleFaults.lib_scaler_gagal "pelanggan.csv" 3 150000
               "mencegah pelanggan churn"
    = ([Pipeline.EvReadCsv "pelanggan.csv"; Pipeline.EvStandardScaler],
       Raise (LibraryError "ValueError: could not convert string to float")).
Proof.
  split.
  - apply (proj1 (library_failure_propagates SampleFaults.lib_baca_gagal "pelanggan.csv"
                    3 150000 "mencegah pelanggan churn" _)); [reflexivity|discriminate].
  - apply (proj1 (proj2 (library_failure_propagates SampleFaults.lib_scaler_gagal
                           "pelanggan.csv" 3 150000 "mencegah pelanggan churn" _))
             Sample.data); reflexivity.
Defined.

Section RunInversion.

Import Profiles Scorer Priority Rules Planner Report Pipeline.

Open Scope string_scope.

(** The calls of the evaluation sweep over the cluster counts [xs]. *)
Lemma sweep_inv (lib : Oracle) (X : Matrix) (xs : list nat) (t t' : list Event)
    (curves : list (Q * Q)) :
  for_eachM
    (fun n =>
       bind (call (EvKMeans n) (kmeans lib n X)) (fun kmeans_eval =>
       bind (call EvSilhouette (silhouette_score lib X (labels_ kmeans_eval))) (fun s =>
       ret (inertia_ kmeans_eval, s))))
    xs t = (t', Ok curves) ->
  t' = (t ++ flat_map (fun n => [EvKMeans n; EvSilhouette]) xs)%list /\
  Forall2 (fun n c => exists fit, kmeans lib n X = Ok fit /\
                                  fst c = inertia_ fit /\
                                  silhouette_score lib X (labels_ fit) = Ok (snd c))
          xs curves.
Proof.
  revert t curves. induction xs as [|x xs IH]; intros t curves H; simpl in H.
  - unfold ret in H. injection H as <- <-. split; [now rewrite app_nil_r|constructor].
  - apply bind_inv in H. destruct H as [t1 [c [Hb H]]].
    apply bind_inv in Hb. destruct Hb as [t2 [fit [Hk Hb]]].
    apply call_inv in Hk. destruct Hk as [Ek ->].
    apply bind_inv in Hb. destruct Hb as [t3 [s [Hs Hb]]].
    apply call_inv in Hs. destruct Hs as [Es ->].
    unfold ret in Hb. injection Hb as <- <-.
    apply bind_inv in H. destruct H as [t4 [cs [Hr H]]].
    unfold ret in H. injection H as <- <-.
    destruct (IH _ _ Hr) as [-> F]. split.
    + simpl. now rewrite <- !app_assoc.
    + constructor; [|exact F]. now exists fit.
Qed.

(** Everything that a completed analysis went through. *)
Lemma analyse_inv (lib : Oracle) (df : DataFrame) (n : nat) (harga : Q) (tujuan : string)
    (t0 t : list Event) (r : Results) :
  analyse lib df n harga tujuan t0 = (t, Ok r) ->
  exists X1 X2 fitted clustered top,
    let X := concat_columns X1 X2 in
    let df' := frame clustered in
    standard_scaler lib (rows df) = Ok X1 /\
    one_hot_encoder lib (rows df) = Ok X2 /\
    evaluate lib X (t0 ++ [EvStandardScaler] ++ [EvOneHotEncoder])%list
      = ((t0 ++ [EvStandardScaler] ++ [EvOneHotEncoder]
             ++ flat_map (fun m => [EvKMeans m; EvSilhouette]) (seq 2 9))%list,
         Ok (evaluation_plot r)) /\
    kmeans lib n X = Ok fitted /\
    set_cluster df (labels_ fitted) = Ok clustered /\
    gaussian_nb lib X (Cluster clustered) = Ok tt /\
    t = (t0 ++ [EvStandardScaler] ++ [EvOneHotEncoder]
            ++ flat_map (fun m => [EvKMeans m; EvSilhouette]) (seq 2 9)
            ++ [EvKMeans n] ++ [EvGaussianNB])%list /\
    df_with_clusters r = clustered /\
    cluster_profiles r = build_profiles (rows df') (Cluster clustered) /\
    describe_clusters df' (cluster_profiles r) n = Ok (cluster_descriptions r) /\
    (exists unsorted,
       score_clusters df' (cluster_profiles r) (cluster_descriptions r) n harga tujuan
         = Ok unsorted /\
       prioritas_klaster r = sort_prioritas unsorted) /\
    forward_chaining df' (cluster_profiles r) (prioritas_klaster r)
      = Ok (forward_chaining_results r) /\
    backward_chaining df' (cluster_profiles r) (cluster_descriptions r) n tujuan
      = Ok (backward_chaining_results r) /\
    choose_top_strategy (backward_chaining_results r) (forward_chaining_results r)
                        (prioritas_klaster r) = Ok top /\
    hierarchical_plan r = option_map get_hierarchical_plan (truthy top) /\
    top_strategy_for_plan r = truthy top /\
    final_summary r = summary_text n harga tujuan (cluster_descriptions r)
                                   (prioritas_klaster r).
Proof.
  intro H. unfold analyse in H.
  apply bind_inv in H. destruct H as [t1 [X1 [H1 H]]].
  apply call_inv in H1. destruct H1 as [E1 ->].
  apply bind_inv in H. destruct H as [t2 [X2 [H2 H]]].
  apply call_inv in H2. destruct H2 as [E2 ->].
  cbv zeta in H.
  apply bind_inv in H. destruct H as [t3 [fig [H3 H]]].
  apply bind_inv in H. destruct H as [t4 [fitted [H4 H]]].
  apply call_inv in H4. destruct H4 as [E4 ->].
  apply bind_inv in H. destruct H as [t5 [clustered [H5 H]]].
  apply lift_inv in H5. destruct H5 as [E5 ->].
  apply bind_inv in H. destruct H as [t6 [descs [H6 H]]].
  apply lift_inv in H6. destruct H6 as [E6 ->].
  apply bind_inv in H. destruct H as [t7 [u [H7 H]]].
  apply call_inv in H7. destruct H7 as [E7 ->]. destruct u.
  apply bind_inv in H. destruct H as [t8 [unsorted [H8 H]]].
  apply lift_inv in H8. destruct H8 as [E8 ->].
  apply bind_inv in H. destruct H as [t9 [fc [H9 H]]].
  apply lift_inv in H9. destruct H9 as [E9 ->].
  apply bind_inv in H. destruct H as [t10 [bc [H10 H]]].
  apply lift_inv in H10. destruct H10 as [E10 ->].
  apply bind_inv in H. destruct H as [t11 [top [H11 H]]].
  apply lift_inv in H11. destruct H11 as [E11 ->].
  unfold ret in H. injection H as <- <-.
  assert (Sw : t3 = (((t0 ++ [EvStandardScaler]) ++ [EvOneHotEncoder])
                       ++ flat_map (fun m => [EvKMeans m; EvSilhouette]) (seq 2 9))%list).
  { unfold evaluate in H3. apply bind_inv in H3. destruct H3 as [t3' [curves [Hs H3]]].
    unfold ret in H3. injection H3 as <- _. now apply sweep_inv in Hs. }
  subst t3.
  exists X1, X2, fitted, clustered, top. cbv zeta. simpl.
  rewrite <- !app_assoc in *. simpl in *.
  repeat match goal with |- _ /\ _ => split end; try assumption; try reflexivity.
  now exists unsorted.
Qed.

End RunInversion.

Section CompletedRuns.

Import Profiles Scorer Priority Rules Planner Report Pipeline.

Open Scope string_scope.

Lemma run_inv (lib : Oracle) (file_path : string) (n : nat) (harga : Q) (tujuan : string)
    (t : list Event) (r : Results) :
  run lib file_path n harga tujuan = (t, Ok (ResultDict r)) ->
  exists df,
    read_csv lib file_path = Ok df /\
    (forall col, In col required -> In col (columns df)) /\
    analyse lib df n harga tujuan [EvReadCsv file_path] = (t, Ok r).
Proof.
  intro R. unfold run, run_full_analysis, call in R.
  destruct (read_csv lib file_path) as [df|e] eqn:Rd.
  - destruct (first_missing df required) as [col|] eqn:F; [discriminate R|].
    exists df. split; [reflexivity|]. split; [now apply first_missing_none|].
    apply bind_inv in R. destruct R as [t1 [r' [A R]]].
    unfold ret in R. injection R as <- <-. exact A.
  - destruct e; discriminate R.
Qed.

Lemma evaluate_inv (lib : Oracle) (X : Matrix) (t t' : list Event) (fig : Figure) :
  evaluate lib X t = (t', Ok fig) ->
  range_n_clusters fig = seq 2 9 /\
  Forall2 (fun m i => exists fit, kmeans lib m X = Ok fit /\ i = inertia_ fit)
          (seq 2 9) (inertia fig) /\
  Forall2 (fun m s => exists fit, kmeans lib m X = Ok fit /\
                                  silhouette_score lib X (labels_ fit) = Ok s)
          (seq 2 9) (silhouette_scores fig).
Proof.
  intro H. unfold evaluate in H. apply bind_inv in H. destruct H as [t1 [curves [Hs H]]].
  unfold ret in H. injection H as _ <-. apply sweep_inv in Hs. destruct Hs as [_ F].
  simpl range_n_clusters. simpl inertia. simpl silhouette_scores.
  split; [reflexivity|].
  split; induction F as [|m c ms cs [fit [Ek [Ei Es]]] F IH]; simpl; try constructor;
    try assumption; exists fit; split; assumption.
Qed.

(** X15.  Every analysis that returns results has made the same library
    calls in the same order: the reading, the scaler, the encoder, a k-means
    fit and a silhouette score for each cluster count from 2 to 10, the fit
    for the chosen count and the classifier, 23 calls in all.  The figure
    holds nine inertia values and nine silhouette scores, the ones of these
    fits, against the counts 2 to 10. *)
Theorem completed_run_log (lib : Oracle) (file_path : string) (n : nat) (harga : Q)
    (tujuan : string) (t : list Event) (r : Results) :
  run lib file_path n harga tujuan = (t, Ok (ResultDict r)) ->
  t = ([EvReadCsv file_path; EvStandardScaler; EvOneHotEncoder]
         ++ flat_map (fun m => [EvKMeans m; EvSilhouette]) (seq 2 9)
         ++ [EvKMeans n; EvGaussianNB])%list /\
  List.length t = 23%nat /\
  range_n_clusters (evaluation_plot r) = [2; 3; 4; 5; 6; 7; 8; 9; 10]%nat /\
  List.length (inertia (evaluation_plot r)) = 9%nat /\
  List.length (silhouette_scores (evaluation_plot r)) = 9%nat /\
  exists X,
    Forall2 (fun m i => exists fit, kmeans lib m X = Ok fit /\ i = inertia_ fit)
            (seq 2 9) (inertia (evaluation_plot r)) /\
    Forall2 (fun m s => exists fit, kmeans lib m X = Ok fit /\
                                    silhouette_score lib X (labels_ fit) = Ok s)
            (seq 2 9) (silhouette_scores (evaluation_plot r)).
Proof.
  intro R. destruct (run_inv _ _ _ _ _ _ _ R) as [df [_ [_ A]]].
  destruct (analyse_inv _ _ _ _ _ _ _ _ A)
    as [X1 [X2 [fitted [clustered [top [_ [_ [Ev [_ [_ [_ [T _]]]]]]]]]]]].
  destruct (evaluate_inv _ _ _ _ _ Ev) as [Rg [Fi Fs]].
  assert (T' : t = ([EvReadCsv file_path; EvStandardScaler; EvOneHotEncoder]
                      ++ flat_map (fun m => [EvKMeans m; EvSilhouette]) (seq 2 9)
                      ++ [EvKMeans n; EvGaussianNB])%list) by exact T.
  split; [exact T'|]. split; [rewrite T'; reflexivity|].
  split; [exact Rg|].
  split; [now rewrite <- (Forall2_length Fi)|].
  split; [now rewrite <- (Forall2_length Fs)|].
  exists (concat_columns X1 X2). now split.
Qed.

(** The run on the sample with two clusters. *)
Lemma completed_run_log_witness :
  exists t r,
    run Sample.lib "pelanggan.csv" 2 150000 "mencegah pelanggan churn"
      = (t, Ok (ResultDict r)) /\
    List.length t = 23%nat /\
    List.length (inertia (evaluation_plot r)) = 9%nat.
Proof.
  destruct (run Sample.lib "pelanggan.csv" 2 150000 "mencegah pelanggan churn")
    as [t [[msg|r]|e]] eqn:R; try (vm_compute in R; discriminate R).
  exists t, r. split; [reflexivity|].
  destruct (completed_run_log _ _ _ _ _ _ _ R) as [_ [L [_ [I _]]]].
  now split.
Defined.

End CompletedRuns.

(** ** The priority list of a run *)

Section RankedRun.

Import Priority Pipeline.

Open Scope string_scope.

(** C4.  The priority list that a run returns is ordered by
    [Skor_Prioritas], descending, and by nothing else.  It holds each segment
    id below K once; its scores never increase; entries of equal score are
    listed by ascending segment id, which is the order in which the scoring
    loop produced them: the sort is stable, the entries of any one score
    appearing as in the list before the sort.  The certainty factor and the
    description play no part: a list with the same ids and scores is put in
    the same order. *)
Theorem priority_order_stable (lib : Oracle) (file_path : string) (n : nat) (harga : Q)
    (tujuan : string) (t : list Event) (r : Results) :
  run lib file_path n harga tujuan = (t, Ok (ResultDict r)) ->
  Permutation (seq 0 n) (map Klaster_ID (prioritas_klaster r)) /\
  StronglySorted (fun a b => (Skor_Prioritas a >= Skor_Prioritas b)%Z)
                 (prioritas_klaster r) /\
  StronglySorted ranked_before (prioritas_klaster r) /\
  exists unsorted,
    score_clusters (frame (df_with_clusters r)) (cluster_profiles r)
                   (cluster_descriptions r) n harga tujuan = Ok unsorted /\
    map Klaster_ID unsorted = seq 0 n /\
    Permutation unsorted (prioritas_klaster r) /\
    (forall k, filter (has_key Skor_Prioritas k) (prioritas_klaster r)
               = filter (has_key Skor_Prioritas k) unsorted) /\
    (forall l',
       map (fun p => (Klaster_ID p, Skor_Prioritas p)) l'
         = map (fun p => (Klaster_ID p, Skor_Prioritas p)) unsorted ->
       map Klaster_ID (sort_prioritas l') = map Klaster_ID (prioritas_klaster r)).
Proof.
  intro R. destruct (run_inv _ _ _ _ _ _ _ R) as [df0 [_ [_ A]]].
  destruct (analyse_inv _ _ _ _ _ _ _ _ A) as (X1 & X2 & fitted & clustered & top & H).
  cbv zeta in H.
  destruct H as (_ & _ & _ & _ & _ & _ & _ & Dc & _ & _ & [unsorted [Sc So]] & _).
  rewrite <- Dc in Sc.
  destruct (sort_prioritas_spec unsorted) as [P [S [St [Ko Fr]]]].
  destruct (Fr _ _ _ _ _ _ Sc) as [Ids Ties].
  rewrite So.
  split; [rewrite <- Ids; now apply Permutation_map|].
  split; [exact S|].
  split; [now apply ranked_of_stable|].
  exists unsorted. repeat split; try assumption.
Qed.

(** The run on the sample for the loyalty objective: the loop scores segment
    0 with 5 and segment 1 with 8, and the returned list has segment 1
    first. *)
Lemma priority_order_stable_witness :
  exists t r,
    run Sample.lib "pelanggan.csv" 2 150000 "meningkatkan loyalitas pelanggan"
      = (t, Ok (ResultDict r)) /\
    map (fun p => (Klaster_ID p, Skor_Prioritas p)) (prioritas_klaster r)
      = [(1%nat, 8%Z); (0%nat, 5%Z)] /\
    StronglySorted ranked_before (prioritas_klaster r).
Proof.
  destruct (run Sample.lib "pelanggan.csv" 2 150000 "meningkatkan loyalitas pelanggan")
    as [t [[msg|r]|e]] eqn:R; try (vm_compute in R; discriminate R).
  exists t, r. split; [reflexivity|].
  split; [|exact (proj1 (proj2 (proj2 (priority_order_stable _ _ _ _ _ _ _ R))))].
  pose proof R as R'. vm_compute in R'. injection R' as _ <-. reflexivity.
Defined.

End RankedRun.

Section CompletedSegments.

Import Profiles Scorer Priority Rules Planner Report Pipeline.

Open Scope string_scope.

Lemma describe_clusters_inv (df : DataFrame) (rs : list Row) (labels : list nat) (n : nat)
    (descs : list (nat * string)) :
  describe_clusters df (build_profiles rs labels) n = Ok descs ->
  map fst descs = seq 0 n /\
  (forall i, (i < n)%nat -> In i labels) /\
  Forall (fun d => exists p, loc (build_profiles rs labels) (fst d) = Ok p /\
                             snd d = Describe.cluster_description df (fst d) p) descs.
Proof.
  unfold describe_clusters. intro E.
  assert (F := proj1 (for_each_Forall2 _ _ _) E).
  split; [|split].
  - eapply for_each_map; [|exact E]. intros x y B. cbv beta in B.
    destruct (loc (build_profiles rs labels) x); [|discriminate B].
    simpl in B. now injection B as <-.
  - intros i Hi.
    destruct (in_dec Nat.eq_dec i labels) as [I|N]; [exact I|exfalso].
    assert (Raises : loc (build_profiles rs labels) i = Raise (KeyError i))
      by now apply loc_build_profiles.
    assert (Ii : In i (seq 0 n)) by (apply in_seq; lia).
    clear E. induction F as [|x y xs ys B F IH]; [destruct Ii|].
    destruct Ii as [->|Ii]; [|now apply IH].
    cbv beta in B. rewrite Raises in B. discriminate B.
  - clear E. induction F as [|x y xs ys B F IH]; constructor; [|exact IH].
    cbv beta in B.
    destruct (loc (build_profiles rs labels) x) as [p|] eqn:Ep; [|discriminate B].
    simpl in B.
    injection B as <-. simpl. now exists p.
Qed.

Lemma loc_of_keys {X : Type} (d : list (nat * X)) (i : nat) :
  In i (map fst d) -> exists v, loc d i = Ok v.
Proof.
  unfold loc. induction d as [|[k v] d IH]; simpl; [intros []|].
  destruct (Nat.eqb_spec k i) as [->|N]; [intros _; now exists v|].
  intros [E|I]; [congruence|now apply IH].
Qed.

Lemma score_clusters_items (df : DataFrame) (profiles : list (nat * Profile))
    (descriptions : list (nat * string)) (n : nat) (harga : Q) (tujuan : string)
    (items : list Prioritas) :
  score_clusters df profiles descriptions n harga tujuan = Ok items ->
  Forall (fun item =>
            exists p, loc profiles (Klaster_ID item) = Ok p /\
                      hitung_skor_prioritas_cf df p harga tujuan
                        = Ok (Skor_Prioritas item, CF_Prioritas item) /\
                      loc descriptions (Klaster_ID item) = Ok (Deskripsi item))
         items.
Proof.
  unfold score_clusters. generalize (seq 0 n). intros cids E.
  apply for_each_Forall2 in E.
  induction E as [|cid item cids items B F IH]; constructor; [|exact IH].
  cbv beta in B.
  destruct (loc profiles cid) as [p|] eqn:Ep; [|discriminate B]. simpl in B.
  destruct (hitung_skor_prioritas_cf df p harga tujuan) as [[s c]|] eqn:Eh;
    [|discriminate B].
  simpl in B.
  destruct (loc descriptions cid) as [desc|] eqn:Ed; [|discriminate B].
  simpl in B. injection B as <-. simpl. exists p. now repeat split.
Qed.

Lemma forward_ids (df : DataFrame) (profiles : list (nat * Profile))
    (items : list Prioritas) (res : list (nat * list FCRule)) :
  forward_chaining df profiles items = Ok res -> map fst res = map Klaster_ID items.
Proof.
  intro E. apply forward_loop in E.
  induction E as [|item cr items res [I _] F IH]; simpl; [reflexivity|].
  now rewrite I, IH.
Qed.

(** X16.  In every returned result each segment id below K has at least one
    record and appears exactly once: the descriptions are those of the
    segments 0 .. K-1 in order, each built from the segment's profile; the
    priority list is a permutation of the same ids, each entry carrying the
    score and certainty factor computed from its own profile and its own
    description; and the forward-chaining results are keyed in the order of
    the priority list. *)
Theorem completed_run_segments (lib : Oracle) (file_path : string) (n : nat) (harga : Q)
    (tujuan : string) (t : list Event) (r : Results) :
  run lib file_path n harga tujuan = (t, Ok (ResultDict r)) ->
  let df := frame (df_with_clusters r) in
  (forall i, (i < n)%nat -> In i (Cluster (df_with_clusters r))) /\
  List.length (Cluster (df_with_clusters r)) = List.length (rows df) /\
  map fst (cluster_descriptions r) = seq 0 n /\
  Forall (fun d => exists p, loc (cluster_profiles r) (fst d) = Ok p /\
                             snd d = Describe.cluster_description df (fst d) p)
         (cluster_descriptions r) /\
  Permutation (map Klaster_ID (prioritas_klaster r)) (seq 0 n) /\
  NoDup (map Klaster_ID (prioritas_klaster r)) /\
  List.length (prioritas_klaster r) = n /\
  Forall (fun item =>
            exists p, loc (cluster_profiles r) (Klaster_ID item) = Ok p /\
                      hitung_skor_prioritas_cf df p harga tujuan
                        = Ok (Skor_Prioritas item, CF_Prioritas item) /\
                      loc (cluster_descriptions r) (Klaster_ID item) = Ok (Deskripsi item))
         (prioritas_klaster r) /\
  map fst (forward_chaining_results r) = map Klaster_ID (prioritas_klaster r).
Proof.
  intros R df. destruct (run_inv _ _ _ _ _ _ _ R) as [df0 [_ [_ A]]].
  destruct (analyse_inv _ _ _ _ _ _ _ _ A) as (X1 & X2 & fitted & clustered & top & H).
  cbv zeta in H.
  destruct H as (_ & _ & _ & _ & Sc & _ & _ & Dw & Pr & De & (unsorted & Su & Ps) & Fc & _).
  subst df. rewrite Dw in *. rewrite Pr in De.
  destruct (describe_clusters_inv _ _ _ _ _ De) as [Dk [Cov Dd]].
  assert (Len : List.length (Cluster clustered) = List.length (rows (frame clustered))).
  { unfold set_cluster in Sc.
    destruct (Nat.eqb_spec (List.length (labels_ fitted)) (List.length (rows df0)))
      as [L|L]; [|discriminate Sc].
    injection Sc as <-. exact L. }
  pose proof (score_clusters_ids _ _ _ _ _ _ _ Su) as Ids.
  assert (Perm : Permutation (map Klaster_ID (prioritas_klaster r)) (seq 0 n)).
  { rewrite Ps, <- Ids. unfold sort_prioritas. apply Permutation_map.
    symmetry. apply list_sort_reverse_perm. }
  split; [exact Cov|]. split; [exact Len|]. split; [exact Dk|].
  split; [now rewrite Pr|]. split; [exact Perm|].
  split; [apply (Permutation_NoDup (Permutation_sym Perm)), seq_NoDup|].
  split; [rewrite <- (length_map Klaster_ID), (Permutation_length Perm); apply length_seq|].
  split.
  - rewrite Ps. unfold sort_prioritas.
    apply (Permutation_Forall (list_sort_reverse_perm Skor_Prioritas unsorted)).
    exact (score_clusters_items _ _ _ _ _ _ _ Su).
  - exact (forward_ids _ _ _ _ Fc).
Qed.

End CompletedSegments.

(** The run on the sample with two clusters. *)
Lemma completed_run_segments_witness :
  exists t r,
    Pipeline.run Sample.lib "pelanggan.csv" 2 150000 "mencegah pelanggan churn"
      = (t, Ok (Pipeline.ResultDict r)) /\
    map fst (Pipeline.cluster_descriptions r) = [0; 1]%nat /\
    Permutation (map Priority.Klaster_ID (Pipeline.prioritas_klaster r)) [0; 1]%nat.
Proof.
  destruct (Pipeline.run Sample.lib "pelanggan.csv" 2 150000 "mencegah pelanggan churn")
    as [t [[msg|r]|e]] eqn:R; try (vm_compute in R; discriminate R).
  exists t, r. split; [reflexivity|].
  destruct (completed_run_segments _ _ _ _ _ _ _ R) as (_ & _ & D & _ & P & _).
  now split.
Defined.

Section CompletedPlan.

Import Profiles Scorer Priority Rules Planner Report Pipeline.

Open Scope string_scope.

(** Every strategy that a rule can produce is a key of the plan catalog. *)
Lemma rule_strategies_have_plans (df : DataFrame) :
  Forall (fun rule => In (fc_THEN rule) (map fst plans)) (marketing_rules_fc df) /\
  Forall (fun kr => In (bc_STRATEGY (snd kr)) (map fst plans)) (marketing_rules_bc df).
Proof.
  split; repeat apply Forall_cons; try apply Forall_nil; simpl;
    repeat (first [left; reflexivity | right]).
Qed.

Lemma get_In {X : Type} (key : string) (d : list (string * X)) (v : X) :
  get key d = Some v -> In (key, v) d.
Proof.
  induction d as [|[k w] d IH]; simpl; [discriminate|].
  destruct (String.eqb_spec k key) as [->|N].
  - intro E. injection E as <-. now left.
  - intro E. right. now apply IH.
Qed.

Lemma backward_strategies (df : DataFrame) (profiles : list (nat * Profile))
    (descriptions : list (nat * string)) (n : nat) (tujuan : string) (res : list BCResult) :
  backward_chaining df profiles descriptions n tujuan = Ok res ->
  Forall (fun b => In (bc_Strategi b) (map fst plans)) res.
Proof.
  intro E. destruct (get tujuan (marketing_rules_bc df)) as [rule|] eqn:G.
  - pose proof (backward_chaining_strategy _ _ _ _ _ rule res G E) as F.
    assert (I : In (bc_STRATEGY rule) (map fst plans)).
    { apply get_In in G. destruct (rule_strategies_have_plans df) as [_ B].
      rewrite Forall_forall in B. exact (B _ G). }
    eapply Forall_impl; [|exact F]. simpl. intros b Eb. now rewrite Eb.
  - unfold backward_chaining in E. rewrite G in E. injection E as <-. constructor.
Qed.

End CompletedPlan.

Section CompletedPlanTheorem.

Import Profiles Scorer Priority Rules Planner Report Pipeline.

Open Scope string_scope.

Lemma assoc_In {X : Type} (i : nat) (d : list (nat * X)) (v : X) :
  assoc i d = Some v -> In (i, v) d.
Proof.
  induction d as [|[k w] d IH]; simpl; [discriminate|].
  destruct (Nat.eqb_spec k i) as [->|N].
  - intro E. injection E as <-. now left.
  - intro E. right. now apply IH.
Qed.

Lemma forward_strategies (df : DataFrame) (profiles : list (nat * Profile))
    (items : list Prioritas) (res : list (nat * list FCRule)) :
  forward_chaining df profiles items = Ok res ->
  Forall (fun cr => Forall (fun rule => In (fc_THEN rule) (map fst plans)) (snd cr)) res.
Proof.
  intro E. apply forward_loop in E.
  induction E as [|item cr items res [_ [p [_ Er]]] F IH]; constructor; [|exact IH].
  rewrite Er. apply Forall_forall. intros rule I. apply filter_In in I.
  destruct (rule_strategies_have_plans df) as [A _]. rewrite Forall_forall in A.
  apply A. tauto.
Qed.

(** The strategy chosen for the planner is a key of the catalog. *)
Lemma chosen_strategy_in_catalog (bc : list BCResult) (fc : list (nat * list FCRule))
    (prioritas : list Prioritas) (s : string) :
  Forall (fun b => In (bc_Strategi b) (map fst plans)) bc ->
  Forall (fun cr => Forall (fun rule => In (fc_THEN rule) (map fst plans)) (snd cr)) fc ->
  choose_top_strategy bc fc prioritas = Ok (Some s) ->
  In s (map fst plans).
Proof.
  intros B F E. unfold choose_top_strategy in E.
  destruct bc as [|b bc].
  - destruct prioritas as [|first rest]; [discriminate E|].
    destruct (assoc (Klaster_ID first) fc) as [[|rule rules]|] eqn:A; try discriminate E.
    injection E as <-. apply assoc_In in A.
    rewrite Forall_forall in F. specialize (F _ A). simpl in F.
    now inversion F.
  - injection E as <-. now inversion B.
Qed.

(** X17.  In every returned result the strategy that feeds the planner is
    the strategy of the first backward-chaining result when there is one, and
    otherwise the first forward rule that fired for the top-ranked segment,
    if any.  The plan is present exactly when such a strategy exists, the two
    entries ["hierarchical_plan"] and ["top_strategy_for_plan"] come and go
    together, and the plan is the catalog's plan for that strategy: the
    generic plan "Strategi Umum" is never returned by a run. *)
Theorem completed_run_plan (lib : Oracle) (file_path : string) (n : nat) (harga : Q)
    (tujuan : string) (t : list Event) (r : Results) :
  run lib file_path n harga tujuan = (t, Ok (ResultDict r)) ->
  (forall b rest, backward_chaining_results r = b :: rest ->
                  top_strategy_for_plan r = Some (bc_Strategi b)) /\
  (backward_chaining_results r = [] ->
   exists first rest,
     prioritas_klaster r = first :: rest /\
     top_strategy_for_plan r
       = match assoc (Klaster_ID first) (forward_chaining_results r) with
         | Some (rule :: _) => Some (fc_THEN rule)
         | _ => None
         end) /\
  hierarchical_plan r = option_map get_hierarchical_plan (top_strategy_for_plan r) /\
  (forall s, top_strategy_for_plan r = Some s ->
             exists plan, hierarchical_plan r = Some plan /\
                          get s plans = Some plan /\
                          Mayor plan <> "Strategi Umum") /\
  (In "hierarchical_plan" (keys (ResultDict r)) <->
   In "top_strategy_for_plan" (keys (ResultDict r))).
Proof.
  intro R. destruct (run_inv _ _ _ _ _ _ _ R) as [df0 [_ [_ A]]].
  destruct (analyse_inv _ _ _ _ _ _ _ _ A) as (X1 & X2 & fitted & clustered & top & H).
  cbv zeta in H.
  destruct H as (_ & _ & _ & _ & _ & _ & _ & _ & _ & _ & _ & Fc & Bc & Ct & Hp & Ts & _).
  pose proof (backward_strategies _ _ _ _ _ _ Bc) as SB.
  pose proof (forward_strategies _ _ _ _ Fc) as SF.
  assert (Tr : truthy top = top).
  { destruct top as [s|]; [|reflexivity].
    pose proof (chosen_strategy_in_catalog _ _ _ _ SB SF Ct) as I.
    destruct (catalog_plan s I) as [_ [_ [_ NE]]].
    destruct s; [congruence|reflexivity]. }
  rewrite Tr in Hp, Ts. subst top.
  split; [|split; [|split; [|split]]].
  - intros b rest Eb. rewrite Eb in Ct. simpl in Ct. now injection Ct as <-.
  - intro Eb. rewrite Eb in Ct. simpl in Ct.
    destruct (prioritas_klaster r) as [|first rest]; [discriminate Ct|].
    exists first, rest. split; [reflexivity|].
    destruct (assoc (Klaster_ID first) (forward_chaining_results r)) as [[|rule rules]|];
      now injection Ct as <-.
  - exact Hp.
  - intros s Es. rewrite Es in Ct, Hp.
    pose proof (chosen_strategy_in_catalog _ _ _ _ SB SF Ct) as I.
    destruct (catalog_plan s I) as [G [M _]].
    exists (get_hierarchical_plan s). now repeat split.
  - simpl. rewrite Hp. destruct (top_strategy_for_plan r); simpl; split; intro I;
      repeat (destruct I as [I|I]; [try discriminate I|]); try destruct I; tauto.
Qed.

(** The run on the sample for the churn objective: segment 0 is found by
    backward chaining and the plan is the one of the aggressive retention
    campaign. *)
Lemma completed_run_plan_witness :
  exists t r plan,
    run Sample.lib "pelanggan.csv" 2 150000 "mencegah pelanggan churn"
      = (t, Ok (ResultDict r)) /\
    top_strategy_for_plan r = Some "Luncurkan kampanye retensi agresif." /\
    hierarchical_plan r = Some plan /\ Mayor plan <> "Strategi Umum".
Proof.
  destruct (run Sample.lib "pelanggan.csv" 2 150000 "mencegah pelanggan churn")
    as [t [[msg|r]|e]] eqn:R; try (vm_compute in R; discriminate R).
  destruct (completed_run_plan _ _ _ _ _ _ _ R) as (_ & _ & _ & P & _).
  assert (Ts : top_strategy_for_plan r = Some "Luncurkan kampanye retensi agresif.").
  { pose proof R as R'. vm_compute in R'. injection R' as _ <-. reflexivity. }
  destruct (P _ Ts) as [plan [Hp [_ M]]].
  exists t, r, plan. now repeat split.
Defined.

End CompletedPlanTheorem.

Section RunCompletes.

Import Profiles Scorer Priority Rules Planner Report Pipeline.

Open Scope string_scope.

Lemma for_each_ok {X Y : Type} (body : X -> Outcome Y) (xs : list X) :
  (forall x, In x xs -> exists y, body x = Ok y) -> exists ys, for_each body xs = Ok ys.
Proof.
  induction xs as [|x xs IH]; intro H; simpl; [now exists []|].
  destruct (H x (or_introl eq_refl)) as [y Ey]. rewrite Ey. simpl.
  destruct IH as [ys Es]; [intros x' I; apply H; now right|].
  rewrite Es. simpl. now exists (y :: ys).
Qed.

Lemma sweep_ok (lib : Oracle) (X : Matrix) (xs : list nat) (t : list Event) :
  (forall m, In m xs -> exists fit s, kmeans lib m X = Ok fit /\
                                      silhouette_score lib X (labels_ fit) = Ok s) ->
  exists t' curves,
    for_eachM
      (fun n =>
         bind (call (EvKMeans n) (kmeans lib n X)) (fun kmeans_eval =>
         bind (call EvSilhouette (silhouette_score lib X (labels_ kmeans_eval))) (fun s =>
         ret (inertia_ kmeans_eval, s))))
      xs t = (t', Ok curves).
Proof.
  revert t. induction xs as [|x xs IH]; intros t H; simpl.
  - now exists t, [].
  - destruct (H x (or_introl eq_refl)) as [fit [s [Ek Es]]].
    destruct (IH ((t ++ [EvKMeans x]) ++ [EvSilhouette])%list) as [t' [curves Ec]];
      [intros m I; apply H; now right|].
    exists t', ((inertia_ fit, s) :: curves).
    unfold bind at 1. unfold bind at 1. unfold call at 1. rewrite Ek.
    unfold bind at 1. unfold call at 1. rewrite Es. unfold ret at 1.
    unfold bind at 1. rewrite Ec. reflexivity.
Qed.

Lemma describe_clusters_ok (df : DataFrame) (rs : list Row) (labels : list nat) (n : nat) :
  (forall i, (i < n)%nat -> In i labels) ->
  exists descs, describe_clusters df (build_profiles rs labels) n = Ok descs.
Proof.
  intro Cov. apply for_each_ok. intros i I. apply in_seq in I.
  rewrite (proj1 (loc_build_profiles rs labels i)) by (apply Cov; lia).
  simpl. eexists. reflexivity.
Qed.

(** X18.  The run returns results whenever the table has the required
    columns, every library call succeeds, the fitted labels are as many as
    the records, every segment id below K has a record and K is at least 1:
    no step of the program itself can fail then. *)
Theorem run_completes (lib : Oracle) (file_path : string) (n : nat) (harga : Q)
    (tujuan : string) (df : DataFrame) (X1 X2 : Matrix) (fitted : KMeansFit) :
  read_csv lib file_path = Ok df ->
  (forall col, In col required -> In col (columns df)) ->
  standard_scaler lib (rows df) = Ok X1 ->
  one_hot_encoder lib (rows df) = Ok X2 ->
  (forall m, In m (seq 2 9) ->
     exists fit s, kmeans lib m (concat_columns X1 X2) = Ok fit /\
                   silhouette_score lib (concat_columns X1 X2) (labels_ fit) = Ok s) ->
  kmeans lib n (concat_columns X1 X2) = Ok fitted ->
  List.length (labels_ fitted) = List.length (rows df) ->
  (forall i, (i < n)%nat -> In i (labels_ fitted)) ->
  gaussian_nb lib (concat_columns X1 X2) (labels_ fitted) = Ok tt ->
  (1 <= n)%nat ->
  exists t r, run lib file_path n harga tujuan = (t, Ok (ResultDict r)).
Proof.
  intros R A S1 S2 Sw Km Len Cov Gn N1.
  set (X := concat_columns X1 X2) in *.
  set (df' := {| columns := if has_column df "Cluster" then columns df
                            else (columns df ++ ["Cluster"])%list;
                 rows := rows df |}).
  set (profiles := build_profiles (rows df) (labels_ fitted)).
  destruct (sweep_ok lib X (seq 2 9)
              (([EvReadCsv file_path] ++ [EvStandardScaler]) ++ [EvOneHotEncoder])%list Sw)
    as [t3 [curves Ec]].
  destruct (describe_clusters_ok df' (rows df) (labels_ fitted) n Cov) as [descs De].
  fold profiles in De.
  destruct (describe_clusters_inv _ _ _ _ _ De) as [Dk _].
  assert (LocP : forall i, (i < n)%nat -> exists p, loc profiles i = Ok p).
  { intros i Hi. eexists. apply loc_build_profiles. now apply Cov. }
  assert (LocD : forall i, (i < n)%nat -> exists d, loc descs i = Ok d).
  { intros i Hi. apply loc_of_keys. rewrite Dk. apply in_seq. lia. }
  assert (Sc : exists unsorted,
             score_clusters df' profiles descs n harga tujuan = Ok unsorted).
  { apply for_each_ok. intros cid I. apply in_seq in I.
    destruct (LocP cid) as [p Ep]; [lia|]. destruct (LocD cid) as [d Ed]; [lia|].
    destruct (hitung_skor_never_raises df' p harga tujuan) as [s [c [Eh _]]].
    rewrite Ep. simpl. rewrite Eh. simpl. rewrite Ed. simpl. eexists. reflexivity. }
  destruct Sc as [unsorted Su].
  pose proof (score_clusters_ids _ _ _ _ _ _ _ Su) as Ids.
  assert (Perm : Permutation (seq 0 n) (map Klaster_ID (sort_prioritas unsorted))).
  { rewrite <- Ids. unfold sort_prioritas. apply Permutation_map.
    apply list_sort_reverse_perm. }
  assert (Fc : exists fc, forward_chaining df' profiles (sort_prioritas unsorted) = Ok fc).
  { apply for_each_ok. intros item I.
    assert (Hi : (Klaster_ID item < n)%nat).
    { assert (J : In (Klaster_ID item) (seq 0 n)).
      { apply (Permutation_in _ (Permutation_sym Perm)). now apply in_map. }
      apply in_seq in J. lia. }
    destruct (LocP _ Hi) as [p Ep]. cbv beta zeta. rewrite Ep. simpl. eexists. reflexivity. }
  destruct Fc as [fc Ef].
  assert (Bc : exists bc, backward_chaining df' profiles descs n tujuan = Ok bc).
  { unfold backward_chaining.
    destruct (get tujuan (marketing_rules_bc df')) as [rule|]; [|now exists []].
    destruct (for_each_ok
                (fun cid =>
                   obind (loc profiles cid) (fun profile =>
                   if bc_THEN_IF rule profile then
                     obind (loc descs cid) (fun desc =>
                     Ok [ {| bc_Klaster_ID := cid; bc_Deskripsi := desc;
                             bc_Strategi := bc_STRATEGY rule |} ])
                   else Ok []))
                (seq 0 n)) as [found Efd].
    - intros cid I. apply in_seq in I.
      destruct (LocP cid) as [p Ep]; [lia|]. destruct (LocD cid) as [d Ed]; [lia|].
      rewrite Ep. simpl. destruct (bc_THEN_IF rule p); [|now eexists].
      rewrite Ed. simpl. now eexists.
    - rewrite Efd. simpl. now eexists. }
  destruct Bc as [bc Eb].
  assert (Ct : exists top, choose_top_strategy bc fc (sort_prioritas unsorted) = Ok top).
  { unfold choose_top_strategy. destruct bc as [|b bc]; [|now eexists].
    destruct (sort_prioritas unsorted) as [|first rest] eqn:Es.
    - apply Permutation_length in Perm. rewrite length_seq in Perm. simpl in Perm. lia.
    - destruct (assoc (Klaster_ID first) fc) as [[|rule rules]|]; now eexists. }
  destruct Ct as [top Et].
  eexists. eexists.
  rewrite (run_after_read _ _ _ _ _ _ R), (proj2 (first_missing_none df required) A).
  unfold analyse.
  erewrite bind_ok; [reflexivity|].
  erewrite bind_ok by (unfold call; rewrite S1; reflexivity).
  erewrite bind_ok by (unfold call; rewrite S2; reflexivity).
  cbv zeta. fold X.
  erewrite bind_ok
    by (unfold evaluate; erewrite bind_ok by exact Ec; unfold ret; reflexivity).
  erewrite bind_ok by (unfold call; rewrite Km; reflexivity).
  unfold set_cluster. rewrite Len, Nat.eqb_refl.
  erewrite bind_ok by (unfold lift; reflexivity).
  cbn [frame Cluster rows]. fold df'. fold profiles.
  erewrite bind_ok by (unfold lift; rewrite De; reflexivity).
  erewrite bind_ok by (unfold call; rewrite Gn; reflexivity).
  erewrite bind_ok by (unfold lift; rewrite Su; reflexivity).
  erewrite bind_ok by (unfold lift; rewrite Ef; reflexivity).
  erewrite bind_ok by (unfold lift; rewrite Eb; reflexivity).
  erewrite bind_ok by (unfold lift; rewrite Et; reflexivity).
  unfold ret. reflexivity.
Qed.

End RunCompletes.

(** The sample with two clusters meets every condition. *)
Lemma run_completes_witness :
  exists t r,
    Pipeline.run Sample.lib "pelanggan.csv" 2 150000 "menjual produk tambahan"
      = (t, Ok (Pipeline.ResultDict r)).
Proof.
  destruct (Pipeline.standard_scaler Sample.lib (rows Sample.data)) as [X1|e] eqn:S1;
    [|vm_compute in S1; discriminate S1].
  destruct (Pipeline.one_hot_encoder Sample.lib (rows Sample.data)) as [X2|e] eqn:S2;
    [|vm_compute in S2; discriminate S2].
  apply (run_completes Sample.lib "pelanggan.csv" 2 150000 "menjual produk tambahan"
           Sample.data X1 X2 {| Pipeline.inertia_ := 0; Pipeline.labels_ := Sample.labels |}).
  - reflexivity.
  - intros col I. simpl. right. exact I.
  - exact S1.
  - exact S2.
  - intros m _. eexists. eexists. split; reflexivity.
  - reflexivity.
  - reflexivity.
  - intros i Hi. simpl.
    destruct i as [|[|i]]; [tauto|tauto|lia].
  - reflexivity.
  - lia.
Defined.

(** ** The column check and the profile table *)

Section ColumnsAndProfiles.

Import Profiles Pipeline.

Open Scope string_scope.

Lemma append_inj_l (a x y : string) : a ++ x = a ++ y -> x = y.
Proof.
  induction a as [|c a IH]; simpl; intro H; [exact H|].
  injection H as H. now apply IH.
Qed.

Lemma length_append_string (x y : string) :
  String.length (x ++ y) = (String.length x + String.length y)%nat.
Proof. induction x as [|c x IH]; simpl; [reflexivity|now rewrite IH]. Qed.

Lemma append_inj_r (x y a : string) : x ++ a = y ++ a -> x = y.
Proof.
  intro H.
  assert (L : String.length x = String.length y).
  { apply (f_equal String.length) in H. rewrite !length_append_string in H. lia. }
  revert y H L. induction x as [|c x IH]; intros [|d y] H L; simpl in *;
    try discriminate L; [reflexivity|].
  injection H as -> H. f_equal. apply IH; [exact H|lia].
Qed.

(** The message determines the column it names. *)
Lemma pesan_kolom_inj (c c' : string) : pesan_kolom c = pesan_kolom c' -> c = c'.
Proof.
  unfold pesan_kolom. intro H. apply append_inj_l in H. now apply append_inj_r in H.
Qed.

(** X19.  The column named in the error is the first one, in the order of
    the numeric features followed by the categorical ones, that the table
    lacks: every required column listed before it is present.  Columns of
    the table that are not required play no part. *)
Theorem missing_column_is_first (lib : Oracle) (file_path : string) (n : nat) (harga : Q)
    (tujuan : string) (df : DataFrame) (t : list Event) (col : string) :
  read_csv lib file_path = Ok df ->
  run lib file_path n harga tujuan = (t, Ok (ErrorDict (pesan_kolom col))) ->
  exists before after,
    required = (before ++ col :: after)%list /\
    ~ In col (columns df) /\
    (forall c, In c before -> In c (columns df)).
Proof.
  intros R E. rewrite (run_after_read _ _ _ _ _ _ R) in E.
  destruct (first_missing df required) as [c|] eqn:F.
  - assert (Ec : pesan_kolom c = pesan_kolom col) by congruence.
    apply pesan_kolom_inj in Ec. subst c. now apply first_missing_some.
  - unfold bind, ret in E.
    destruct (analyse lib df n harga tujuan _) as [t' [r|e]]; discriminate E.
Qed.

End ColumnsAndProfiles.

(** The sample table without [Total_Spend]: the two columns before it are
    present. *)
Lemma missing_column_is_first_witness :
  exists before after,
    required = (before ++ "Total_Spend"%string :: after)%list /\
    ~ In "Total_Spend"%string (columns Sample.data_tanpa_kolom) /\
    (forall c, In c before -> In c (columns Sample.data_tanpa_kolom)).
Proof.
  exact (missing_column_is_first Sample.lib "tanpa_kolom.csv" 3 150000
           "mencegah pelanggan churn" Sample.data_tanpa_kolom _ "Total_Spend"
           eq_refl eq_refl).
Defined.

Section ProfileTable.

Import Stats Profiles.

Open Scope string_scope.

(** X20.  The profile table has one row for each label that some record
    carries and for no other, in ascending order of label; when the labels
    are as many as the records, the row of a label is the aggregate of a
    group that is not empty. *)
Theorem profile_table_rows (rs : list Row) (labels : list nat) :
  StronglySorted lt (map fst (build_profiles rs labels)) /\
  (forall i, In i (map fst (build_profiles rs labels)) <-> In i labels) /\
  (forall i, In i labels ->
             loc (build_profiles rs labels) i = Ok (agg (members rs labels i))) /\
  (forall i, ~ In i labels -> loc (build_profiles rs labels) i = Raise (KeyError i)) /\
  (List.length labels = List.length rs ->
   forall i, In i labels -> members rs labels i <> []).
Proof.
  assert (K : map fst (build_profiles rs labels) = group_keys labels).
  { unfold build_profiles. rewrite map_map. simpl. apply map_id. }
  split; [|split; [|split; [|split]]].
  - rewrite K. unfold group_keys.
    rewrite <- (map_id (filter _ _)). apply StronglySorted_filter_map.
    rewrite map_id. apply seq_StronglySorted.
  - intro i. rewrite K. apply group_keys_In.
  - intros i I. now apply loc_build_profiles.
  - intros i N. now apply loc_build_profiles.
  - intros L i I. now apply members_nonempty.
Qed.

(** The labels of the sample. *)
Lemma profile_table_rows_witness :
  loc (build_profiles (rows Sample.data) Sample.labels) 2 = Raise (KeyError 2) /\
  members (rows Sample.data) Sample.labels 1 <> [].
Proof.
  destruct (profile_table_rows (rows Sample.data) Sample.labels) as (_ & _ & _ & N & M).
  split.
  - apply N. simpl. intro H. repeat (destruct H as [H|H]; [discriminate H|]). exact H.
  - apply M; [reflexivity|]. simpl. tauto.
Defined.

Lemma count_str_step (l : list string) (best v : string) :
  let m := if (count_str best l <? count_str v l)%nat
              || ((count_str best l =? count_str v l)%nat && String.ltb v best)
           then v else best in
  (m = v \/ m = best) /\
  (count_str best l <= count_str m l)%nat /\ (count_str v l <= count_str m l)%nat.
Proof.
  simpl.
  destruct (Nat.ltb_spec (count_str best l) (count_str v l)) as [A|A]; simpl.
  - split; [now left|lia].
  - destruct (Nat.eqb_spec (count_str best l) (count_str v l)) as [B|B]; simpl.
    + destruct (String.ltb v best); (split; [tauto|lia]).
    + split; [now right|lia].
Qed.

Lemma mode_fold (l xs done : list string) (best : string) :
  In best l -> incl xs l ->
  (forall v, In v done -> (count_str v l <= count_str best l)%nat) ->
  let m := fold_left
             (fun best v =>
                if (count_str best l <? count_str v l)%nat
                   || ((count_str best l =? count_str v l)%nat && String.ltb v best)
                then v else best) xs best in
  In m l /\ forall v, In v (done ++ xs) -> (count_str v l <= count_str m l)%nat.
Proof.
  revert done best. induction xs as [|x xs IH]; intros done best Ib Inc D; simpl.
  - split; [exact Ib|]. intros v I. rewrite app_nil_r in I. now apply D.
  - destruct (count_str_step l best x) as [Hm [Hb Hx]].
    set (m := if (count_str best l <? count_str x l)%nat
                 || ((count_str best l =? count_str x l)%nat && String.ltb x best)
              then x else best) in *.
    destruct (IH (done ++ [x])%list m) as [Im Hall].
    + destruct Hm as [-> | ->]; [apply Inc; now left|exact Ib].
    + intros y I. apply Inc. now right.
    + intros v I. apply in_app_or in I. destruct I as [I|[<-|[]]].
      * specialize (D v I). lia.
      * exact Hx.
    + split; [exact Im|]. intros v I. apply Hall. rewrite <- app_assoc. exact I.
Qed.

(** X21.  The dominant value reported for a categorical column of a segment
    is a value that occurs in the segment, and no value occurs in it more
    often; an empty group gives "N/A". *)
Theorem mode_str_most_frequent (l : list string) :
  (l = [] -> mode_str l = "N/A") /\
  (l <> [] ->
   In (mode_str l) l /\
   forall v, (count_str v l <= count_str (mode_str l) l)%nat).
Proof.
  split; [intros ->; reflexivity|].
  destruct l as [|x xs]; [congruence|]. intros _.
  unfold mode_str.
  destruct (mode_fold (x :: xs) xs [x] x) as [Im Hall].
  - now left.
  - intros y I. now right.
  - intros v [<-|[]]. lia.
  - split; [exact Im|]. intro v.
    destruct (in_dec string_dec v (x :: xs)) as [I|N].
    + apply Hall. exact I.
    + assert (Z : count_str v (x :: xs) = 0%nat).
      { unfold count_str. clear -N. induction (x :: xs) as [|y ys IH]; [reflexivity|].
        simpl. destruct (String.eqb_spec v y) as [->|D].
        - exfalso. apply N. now left.
        - apply IH. intro I. apply N. now right. }
      rewrite Z. lia.
Qed.

(** A group of three with two kinds of answers. *)
Lemma mode_str_most_frequent_witness :
  In (mode_str ["Merespons"; "Mengabaikan"; "Merespons"])
     ["Merespons"; "Mengabaikan"; "Merespons"].
Proof.
  apply (proj2 (mode_str_most_frequent ["Merespons"; "Mengabaikan"; "Merespons"])).
  discriminate.
Defined.

End ProfileTable.

(** ** The caller and the objectives *)

Section AppObjectives.

Import Text Stats Profiles Scorer Rules Pipeline.

Open Scope string_scope.

(** X22.  The five objectives offered by the select box of the page are
    exactly the five that the scorer tests for, and each is in lower case
    already, so the run started from the page is the run for the label as
    shown.  Three of them have a backward rule; for the other two,
    "meningkatkan penjualan umum" and "menjual produk tambahan", backward
    chaining returns the empty list whatever the segments are. *)
Theorem app_objectives (s : string) :
  (In s tujuan_dikenal -> In s App.pilihan_tujuan) /\
  (In s App.pilihan_tujuan ->
  lower s = s /\
  In s tujuan_dikenal /\
  (forall lib file_path n harga,
     app_run lib file_path n harga s = run lib file_path n harga s) /\
  (forall df,
     get s (marketing_rules_bc df) = None <->
     s = "meningkatkan penjualan umum" \/ s = "menjual produk tambahan") /\
  (s = "meningkatkan penjualan umum" \/ s = "menjual produk tambahan" ->
   forall df profiles descriptions n,
     backward_chaining df profiles descriptions n s = Ok [])).
Proof.
  split; [simpl; intuition|].
  intro I.
  assert (L : lower s = s).
  { simpl in I. repeat (destruct I as [<-|I]; [reflexivity|]). destruct I. }
  split; [exact L|]. split; [|split; [|split]].
  - simpl in I. simpl. intuition.
  - intros lib file_path n harga. unfold app_run. now rewrite L.
  - intro df. simpl in I.
    repeat (destruct I as [<-|I];
            [simpl; split; [intro H; try discriminate H; tauto
                           |intros [H|H]; try discriminate H; reflexivity]|]).
    destruct I.
  - intros H df profiles descriptions n. unfold backward_chaining.
    destruct H as [-> | ->]; reflexivity.
Qed.

(** The option for cross-selling. *)
Lemma app_objectives_witness :
  lower "menjual produk tambahan" = "menjual produk tambahan" /\
  In "menjual produk tambahan" tujuan_dikenal.
Proof.
  assert (I : In "menjual produk tambahan" App.pilihan_tujuan) by (simpl; tauto).
  destruct (proj2 (app_objectives "menjual produk tambahan") I) as [L [D _]].
  now split.
Defined.

End AppObjectives.


(** ** What the page reads *)

Section PageReads.

Import Profiles Rules Planner Pipeline.

Open Scope string_scope.

(** X24.  The page never looks up an entry that a returned dictionary lacks.
    A dictionary returned by the run has the entry ["error"] exactly when it
    is the error dictionary, which has no other entry; otherwise it has every
    entry that the page reads without a guard, and whenever it has
    ["hierarchical_plan"], the guard of the page, it also has
    ["top_strategy_for_plan"], which the page reads under that guard. *)
Theorem page_reads_present (lib : Oracle) (file_path : string) (n : nat) (harga : Q)
    (tujuan : string) (t : list Event) (d : ReturnDict) :
  run lib file_path n harga tujuan = (t, Ok d) ->
  (In "error" (keys d) <-> exists msg, d = ErrorDict msg) /\
  (In "error" (keys d) -> keys d = ["error"]) /\
  (~ In "error" (keys d) ->
   Forall (fun k => In k (keys d)) App.kunci_dibaca /\
   (In "hierarchical_plan" (keys d) -> In "top_strategy_for_plan" (keys d))).
Proof.
  intro R. destruct d as [msg|r].
  - split; [|split].
    + split; [intros _; now exists msg | intros _; simpl; tauto].
    + reflexivity.
    + intro N. exfalso. apply N. simpl. tauto.
  - assert (NE : ~ In "error" (keys (ResultDict r))).
    { simpl. destruct (hierarchical_plan r), (top_strategy_for_plan r); simpl;
        intro I; repeat (destruct I as [I|I]; [discriminate I|]); destruct I. }
    split; [|split].
    + split; [intro I; now destruct (NE I) | intros [msg E]; discriminate E].
    + intro I. now destruct (NE I).
    + intros _. split.
      * unfold App.kunci_dibaca.
        repeat apply Forall_cons; try apply Forall_nil; simpl;
          repeat (first [left; reflexivity | right]).
      * destruct (run_inv _ _ _ _ _ _ _ R) as [df0 [_ [_ A]]].
        destruct (analyse_inv _ _ _ _ _ _ _ _ A) as (X1 & X2 & fitted & clustered & top & H).
        cbv zeta in H.
        destruct H as (_ & _ & _ & _ & _ & _ & _ & _ & _ & _ & _ & _ & _ & _ & Hp & Ts & _).
        simpl. rewrite Hp, Ts. destruct (truthy top); simpl; intro I.
        -- tauto.
        -- repeat (destruct I as [I|I]; [discriminate I|]). destruct I.
Qed.

(** The run on the sample returns a dictionary with the six entries. *)
Lemma page_reads_present_witness :
  exists t d,
    run Sample.lib "pelanggan.csv" 2 150000 "mencegah pelanggan churn" = (t, Ok d) /\
    Forall (fun k => In k (keys d)) App.kunci_dibaca.
Proof.
  destruct (run Sample.lib "pelanggan.csv" 2 150000 "mencegah pelanggan churn")
    as [t [d|e]] eqn:R; [|vm_compute in R; discriminate R].
  exists t, d. split; [reflexivity|].
  destruct (page_reads_present _ _ _ _ _ _ _ R) as [_ [_ P]].
  apply P. destruct d as [msg|r]; [vm_compute in R; discriminate R|].
  simpl. destruct (hierarchical_plan r), (top_strategy_for_plan r); simpl;
    intro I; repeat (destruct I as [I|I]; [discriminate I|]); destruct I.
Defined.

End PageReads.
